(** * A shallow embedding of the ledger engine of [rehman_accounting.py]

    The program is a Tkinter front end over an SQLite database.  What is
    modelled here is its ledger engine: the schema with its CHECK
    constraints and triggers, the voucher entry functions
    ([parse_amount], [add_line], [add_balancing_line], [save_voucher]) and
    the report queries ([generate_bs], [generate_general_ledger],
    [generate_cash_flow], [generate_trial_balance]), the account actions
    and the voucher history.

    Amounts are Python floats.  They are modelled by [pyfloat]: an exact
    rational for a finite value, together with the IEEE special values
    (+inf, -inf, NaN) and their arithmetic and comparison rules.  Finite
    arithmetic is exact (no binary rounding drift, no overflow); the special
    values matter because [float()] accepts the spellings "inf" and "nan".

    Strings are Stdlib strings of ASCII characters. *)

From Stdlib Require Import QArith Qround Qabs ZArith List String Ascii Bool Lia Lqa.
From Stdlib Require Import Sorting.Sorted Sorting.Permutation RelationClasses Relations.
Import ListNotations.

Open Scope Q_scope.

(* ================================================================== *)
(** ** Python floats *)

Inductive pyfloat : Type :=
| Fin (q : Q)
| PInf
| NInf
| NaN.

Definition pf0 : pyfloat := Fin 0.

(** IEEE addition: NaN absorbs, opposite infinities give NaN. *)
Definition pf_add (a b : pyfloat) : pyfloat :=
  match a, b with
  | NaN, _ | _, NaN => NaN
  | PInf, NInf | NInf, PInf => NaN
  | PInf, _ | _, PInf => PInf
  | NInf, _ | _, NInf => NInf
  | Fin x, Fin y => Fin (x + y)
  end.

Definition pf_neg (a : pyfloat) : pyfloat :=
  match a with
  | Fin x => Fin (- x)
  | PInf => NInf
  | NInf => PInf
  | NaN => NaN
  end.

Definition pf_sub (a b : pyfloat) : pyfloat := pf_add a (pf_neg b).

(** [abs] *)
Definition pf_abs (a : pyfloat) : pyfloat :=
  match a with
  | Fin x => Fin (Qabs x)
  | PInf | NInf => PInf
  | NaN => NaN
  end.

(** [==]: NaN is equal to nothing, not even itself. *)
Definition pf_eqb (a b : pyfloat) : bool :=
  match a, b with
  | Fin x, Fin y => Qeq_bool x y
  | PInf, PInf | NInf, NInf => true
  | _, _ => false
  end.

(** [<]: every comparison with NaN is false. *)
Definition pf_ltb (a b : pyfloat) : bool :=
  match a, b with
  | Fin x, Fin y => negb (Qle_bool y x)
  | NInf, Fin _ | NInf, PInf | Fin _, PInf => true
  | _, _ => false
  end.

Definition pf_gtb (a b : pyfloat) : bool := pf_ltb b a.

Definition pf_geb (a b : pyfloat) : bool := pf_ltb b a || pf_eqb a b.

(** [round(x, 2)] on the exact value: to the nearest hundredth, ties to
    even, as CPython rounds the exact value of its argument. *)
Definition round_half_even_100 (q : Q) : Z :=
  let y := q * 100 in
  let f := Qfloor y in
  let r := y - inject_Z f in
  if Qle_bool (1 # 2) r then
    if Qeq_bool r (1 # 2) then (if Z.even f then f else (f + 1)%Z)
    else (f + 1)%Z
  else f.

Definition py_round2 (a : pyfloat) : pyfloat :=
  match a with
  | Fin q => Fin (round_half_even_100 q # 100)
  | other => other
  end.

(** SQLite's [ROUND(x, 2)]: to the nearest hundredth, ties away from zero. *)
Definition round_half_away_100 (q : Q) : Z :=
  if Qle_bool 0 q then Qfloor (q * 100 + (1 # 2))
  else (- Qfloor (- q * 100 + (1 # 2)))%Z.

Definition sql_round2 (a : pyfloat) : pyfloat :=
  match a with
  | Fin q => Fin (round_half_away_100 q # 100)
  | other => other
  end.

(** Python's [sum(...)]: starts from the integer 0 and adds left to right. *)
Definition py_sum (xs : list pyfloat) : pyfloat := fold_left pf_add xs pf0.

(** SQLite's [SUM(...)]: NULL on no rows; a NaN result is stored as NULL. *)
Definition sql_sum (xs : list pyfloat) : option pyfloat :=
  match xs with
  | [] => None
  | _ => match fold_left pf_add xs pf0 with
         | NaN => None
         | s => Some s
         end
  end.

(** [COALESCE(x, 0)] and Python's [x or 0] on a value read back from SQLite. *)
Definition coalesce0 (x : option pyfloat) : pyfloat :=
  match x with
  | Some v => v
  | None => pf0
  end.

(* ================================================================== *)
(** ** Strings: [str.strip], [float(str)], [parse_amount], [is_valid_date] *)

Definition is_digit (c : ascii) : bool :=
  let n := nat_of_ascii c in Nat.leb 48 n && Nat.leb n 57.

Definition digit_val (c : ascii) : Z := (Z.of_nat (nat_of_ascii c) - 48)%Z.

(** ASCII characters for which [str.isspace] holds. *)
Definition is_space (c : ascii) : bool :=
  let n := nat_of_ascii c in
  (Nat.leb 9 n && Nat.leb n 13) || (Nat.leb 28 n && Nat.leb n 32).

Fixpoint lstrip (s : list ascii) : list ascii :=
  match s with
  | c :: s' => if is_space c then lstrip s' else s
  | [] => []
  end.

(** [str.strip()] *)
Definition py_strip (s : string) : string :=
  string_of_list_ascii (rev (lstrip (rev (lstrip (list_ascii_of_string s))))).

Definition lower (c : ascii) : ascii :=
  let n := nat_of_ascii c in
  if Nat.leb 65 n && Nat.leb n 90 then ascii_of_nat (n + 32) else c.

Fixpoint take_digits (s : list ascii) : list ascii * list ascii :=
  match s with
  | c :: s' => if is_digit c then let (ds, r) := take_digits s' in (c :: ds, r)
               else ([], s)
  | [] => ([], [])
  end.

Definition Z_of_digits (ds : list ascii) : Z :=
  fold_left (fun acc c => (acc * 10 + digit_val c)%Z) ds 0%Z.

(** The exact value [m * 10^e]. *)
Definition scale10 (m e : Z) : Q :=
  if (0 <=? e)%Z then inject_Z (m * 10 ^ e) else m # Z.to_pos (10 ^ (- e)).

(** The least magnitude that a correctly rounded [float()] sends to
    infinity: [2^1024 - 2^970], half an ulp above the largest double. *)
Definition overflow_bound : Q := inject_Z (2 ^ 1024 - 2 ^ 970).

Definition to_double (neg : bool) (q : Q) : pyfloat :=
  if Qle_bool overflow_bound q then (if neg then NInf else PInf)
  else Fin (if neg then - q else q).

(** Exponent part [(e|E) [sign] digits], which must end the text. *)
Definition parse_exponent (s : list ascii) : option Z :=
  match s with
  | [] => Some 0%Z
  | c :: r =>
      if (c =? "e")%char || (c =? "E")%char then
        let '(neg, r') := match r with
                          | "-"%char :: r' => (true, r')
                          | "+"%char :: r' => (false, r')
                          | _ => (false, r)
                          end in
        let (ds, rest) := take_digits r' in
        match ds, rest with
        | _ :: _, [] => Some (if neg then - Z_of_digits ds else Z_of_digits ds)%Z
        | _, _ => None
        end
      else None
  end.

(** An unsigned decimal literal [digits [. [digits]] | . digits] with an
    optional exponent, as [_Py_dg_strtod] reads it; its exact value. *)
Definition parse_decimal (s : list ascii) : option Q :=
  let (ip, r1) := take_digits s in
  let (fp, r2) := match r1 with
                  | "."%char :: r => take_digits r
                  | _ => ([], r1)
                  end in
  match ip ++ fp with
  | [] => None
  | mant =>
      match parse_exponent r2 with
      | Some e => Some (scale10 (Z_of_digits mant) (e - Z.of_nat (List.length fp)))
      | None => None
      end
  end.

Definition ascii_list_eqb (a b : list ascii) : bool :=
  String.eqb (string_of_list_ascii a) (string_of_list_ascii b).

(** The body after an optional sign: a decimal or a spelling of inf or nan. *)
Definition parse_unsigned (neg : bool) (s : list ascii) : option pyfloat :=
  let low := map lower s in
  if ascii_list_eqb low (list_ascii_of_string "inf")
     || ascii_list_eqb low (list_ascii_of_string "infinity")
  then Some (if neg then NInf else PInf)
  else if ascii_list_eqb low (list_ascii_of_string "nan") then Some NaN
  else match parse_decimal s with
       | Some q => Some (to_double neg q)
       | None => None
       end.

(** [_Py_string_to_number_with_underscores]: an underscore must follow a
    digit and precede a digit; the underscores are then dropped. *)
Fixpoint underscores_ok (prev : option ascii) (s : list ascii) : bool :=
  match s with
  | [] => match prev with Some "_"%char => false | _ => true end
  | c :: s' =>
      let prev_digit := match prev with Some p => is_digit p | None => false end in
      if (c =? "_")%char then prev_digit && underscores_ok (Some c) s'
      else match prev with
           | Some "_"%char => is_digit c && underscores_ok (Some c) s'
           | _ => underscores_ok (Some c) s'
           end
  end.

(** [float(s)] for a string [s]: [None] stands for the [ValueError]. *)
Definition py_float (s : string) : option pyfloat :=
  let t := list_ascii_of_string (py_strip s) in
  if negb (underscores_ok None t) then None
  else
    let t := filter (fun c => negb (c =? "_")%char) t in
    match t with
    | "-"%char :: r => parse_unsigned true r
    | "+"%char :: r => parse_unsigned false r
    | _ => parse_unsigned false t
    end.

(** [parse_amount(value)]:
    [round(float((value or "").strip() or 0), 2)], or [None] when [float]
    raises.  [value] is a string or [None]. *)
Definition parse_amount (value : option string) : option pyfloat :=
  let s := py_strip (match value with Some v => v | None => ""%string end) in
  match s with
  | EmptyString => Some (py_round2 (Fin 0))
  | _ => match py_float s with
         | Some x => Some (py_round2 x)
         | None => None
         end
  end.

(** [float((value or "").strip() or 0)]: the number [round] is applied to. *)
Definition py_float_or_zero (value : option string) : option pyfloat :=
  let s := py_strip (match value with Some v => v | None => ""%string end) in
  match s with
  | EmptyString => Some (Fin 0)
  | _ => py_float s
  end.

(** [is_valid_date(value)]: [datetime.strptime(value, "%Y-%m-%d")]
    succeeds.  [_strptime] matches the regular expression
    [(?P<Y>\d\d\d\d)-(?P<m>1[0-2]|0[1-9]|[1-9])-(?P<d>3[01]|[12]\d|0[1-9]|[1-9]| [1-9])]
    at the start (trying the alternatives in order, backtracking into [m]
    only), refuses unconverted data left over, then builds the date, which
    raises for year 0 or a day past the end of the month. *)
Definition match_month (s : list ascii) : list (Z * list ascii) :=
  (match s with
   | c1 :: c2 :: r =>
       if (c1 =? "1")%char && (Nat.leb 48 (nat_of_ascii c2) && Nat.leb (nat_of_ascii c2) 50)
       then [(10 + digit_val c2, r)%Z] else []
   | _ => []
   end) ++
  (match s with
   | c1 :: c2 :: r =>
       if (c1 =? "0")%char && (Nat.leb 49 (nat_of_ascii c2) && Nat.leb (nat_of_ascii c2) 57)
       then [(digit_val c2, r)] else []
   | _ => []
   end) ++
  (match s with
   | c1 :: r =>
       if Nat.leb 49 (nat_of_ascii c1) && Nat.leb (nat_of_ascii c1) 57
       then [(digit_val c1, r)] else []
   | _ => []
   end).

Definition in_range (c : ascii) (lo hi : nat) : bool :=
  Nat.leb lo (nat_of_ascii c) && Nat.leb (nat_of_ascii c) hi.

(** The first alternative of [d] that matches. *)
Definition match_day (s : list ascii) : option (Z * list ascii) :=
  match s with
  | c1 :: c2 :: r =>
      if (c1 =? "3")%char && in_range c2 48 49 then Some (30 + digit_val c2, r)%Z
      else if in_range c1 49 50 && is_digit c2 then Some (10 * digit_val c1 + digit_val c2, r)%Z
      else if (c1 =? "0")%char && in_range c2 49 57 then Some (digit_val c2, r)
      else if in_range c1 49 57 then Some (digit_val c1, c2 :: r)
      else if (c1 =? " ")%char && in_range c2 49 57 then Some (digit_val c2, r)
      else None
  | [c1] => if in_range c1 49 57 then Some (digit_val c1, []) else None
  | [] => None
  end.

Definition is_leap (y : Z) : bool :=
  (Z.eqb (Z.modulo y 4) 0 && negb (Z.eqb (Z.modulo y 100) 0)) || Z.eqb (Z.modulo y 400) 0.

Definition days_in_month (y m : Z) : Z :=
  (
  if Z.eqb m 2 then (if is_leap y then 29 else 28)
  else if Z.eqb m 4 || Z.eqb m 6 || Z.eqb m 9 || Z.eqb m 11 then 30
  else 31)%Z.

Definition strptime_ymd (s : list ascii) : option (Z * Z * Z) :=
  match s with
  | y1 :: y2 :: y3 :: y4 :: "-"%char :: rest =>
      if is_digit y1 && is_digit y2 && is_digit y3 && is_digit y4 then
        let y := Z_of_digits [y1; y2; y3; y4] in
        (* the first month alternative after which "-" and a day match *)
        let fix first (alts : list (Z * list ascii)) :=
          match alts with
          | [] => None
          | (m, "-"%char :: r) :: alts' =>
              match match_day r with
              | Some (d, rem) => Some (m, d, rem)
              | None => first alts'
              end
          | _ :: alts' => first alts'
          end in
        match first (match_month rest) with
        | Some (m, d, []) =>
            if (1 <=? y)%Z && (d <=? days_in_month y m)%Z then Some (y, m, d) else None
        | _ => None
        end
      else None
  | _ => None
  end.

Definition is_valid_date (value : string) : bool :=
  match strptime_ymd (list_ascii_of_string value) with
  | Some _ => true
  | None => false
  end.

(* ================================================================== *)
(** ** The database: tables, constraints and triggers *)

Inductive acct_type : Type := Asset | Liability | Income | Expense.

Record account : Type := mk_account {
  acc_id : Z;
  acc_name : string;
  acc_type : acct_type
}.

Record voucher : Type := mk_voucher {
  v_id : Z;
  v_date : string;
  v_description : string;
  v_posted : Z
}.

Record tx : Type := mk_tx {
  t_id : Z;
  t_voucher_id : Z;
  t_account_id : Z;
  t_debit : pyfloat;
  t_credit : pyfloat
}.

(** The three tables, with the AUTOINCREMENT counters of [sqlite_sequence]. *)
Record db : Type := mk_db {
  accounts : list account;
  vouchers : list voucher;
  transactions : list tx;
  seq_vouchers : Z;
  seq_transactions : Z;
  seq_accounts : Z
}.

Definition empty_db : db := mk_db [] [] [] 0 0 0.

(** Errors an SQL statement aborts with. *)
Inductive sql_error : Type :=
| PostedVoucherLocked   (** RAISE(ABORT, 'Cannot modify a posted voucher') *)
| TooFewLinesToPost     (** RAISE(ABORT, 'Voucher must contain at least two lines ...') *)
| UnbalancedPost        (** RAISE(ABORT, 'Voucher debit and credit totals must be equal ...') *)
| ConstraintFailed.     (** NOT NULL, CHECK, PRIMARY KEY or FOREIGN KEY *)

Inductive result (A : Type) : Type :=
| Ok (a : A)
| Err (e : sql_error).
Arguments Ok {A} a.
Arguments Err {A} e.

Definition bind_r {A B} (r : result A) (k : A -> result B) : result B :=
  match r with
  | Ok a => k a
  | Err e => Err e
  end.

Notation "x <- r ;; k" := (bind_r r (fun x => k)) (at level 61, r at next level, right associativity).

(** [SELECT posted FROM vouchers WHERE id = vid], under [COALESCE(..., 0)]. *)
Definition posted_of (d : db) (vid : Z) : Z :=
  match find (fun v => Z.eqb (v_id v) vid) (vouchers d) with
  | Some v => v_posted v
  | None => 0%Z
  end.

Definition voucher_exists (d : db) (vid : Z) : bool :=
  existsb (fun v => Z.eqb (v_id v) vid) (vouchers d).

Definition account_exists (d : db) (aid : Z) : bool :=
  existsb (fun a => Z.eqb (acc_id a) aid) (accounts d).

Definition lines_of (d : db) (vid : Z) : list tx :=
  filter (fun t => Z.eqb (t_voucher_id t) vid) (transactions d).

Definition is_nan (x : pyfloat) : bool :=
  match x with NaN => true | _ => false end.

(** The CHECK constraints of [transactions]:
    [debit >= 0], [credit >= 0] and
    [(debit > 0 AND credit = 0) OR (credit > 0 AND debit = 0)]. *)
Definition tx_check (debit credit : pyfloat) : bool :=
  pf_geb debit pf0 && pf_geb credit pf0 &&
  ((pf_gtb debit pf0 && pf_eqb credit pf0) || (pf_gtb credit pf0 && pf_eqb debit pf0)).

(** The trigger [trg_voucher_post_balanced], for [NEW.posted = 1]: [None]
    when it lets the update through. *)
Definition post_balanced_check (d : db) (vid : Z) : option sql_error :=
  let ls := lines_of d vid in
  if Nat.ltb (List.length ls) 2 then Some TooFewLinesToPost
  else if negb (pf_eqb (sql_round2 (coalesce0 (sql_sum (map t_debit ls))))
                       (sql_round2 (coalesce0 (sql_sum (map t_credit ls)))))
  then Some UnbalancedPost
  else None.

(** The [CASE] of the status recomputation in [Database._init_schema]. *)
Definition recomputed_posted (d : db) (vid : Z) : Z :=
  let ls := lines_of d vid in
  match ls with
  | [] => 0%Z
  | _ => if pf_eqb (sql_round2 (coalesce0 (sql_sum (map t_debit ls))))
                   (sql_round2 (coalesce0 (sql_sum (map t_credit ls))))
         then 1%Z else 0%Z
  end.

Definition max_id (ids : list Z) : Z := fold_left Z.max ids 0%Z.

(** The statements the program issues against the ledger tables, and the
    direct line mutations the triggers guard. *)
Inductive stmt : Type :=
| InsVoucher (date description : string)
    (** INSERT INTO vouchers (date, description, posted) VALUES (?, ?, 0) *)
| UpdVoucherHeader (vid : Z) (date description : string)
    (** UPDATE vouchers SET date=?, description=?, posted=0 WHERE id=? *)
| UpdPosted (vid : Z) (posted : Z)
    (** UPDATE vouchers SET posted=? WHERE id=? *)
| RecomputePosted
    (** the UPDATE vouchers SET posted = CASE ... of [_init_schema] *)
| DelVoucher (vid : Z)
    (** DELETE FROM vouchers WHERE id=? (cascading to its lines) *)
| InsTx (vid aid : Z) (debit credit : pyfloat)
    (** INSERT INTO transactions (voucher_id, account_id, debit, credit) *)
| UpdTx (tid vid aid : Z) (debit credit : pyfloat)
    (** UPDATE transactions SET voucher_id, account_id, debit, credit WHERE id=? *)
| DelTx (tid : Z)
    (** DELETE FROM transactions WHERE id=? *)
| DelTxOfVoucher (vid : Z)
    (** DELETE FROM transactions WHERE voucher_id=? *)
| InsAccount (name : string) (ty : acct_type)
    (** INSERT INTO accounts (name, type) VALUES (?, ?) *)
| DelAccount (name : string).
    (** DELETE FROM accounts WHERE name=? *)

Definition set_posted (p : Z) (vid : Z) (v : voucher) : voucher :=
  if Z.eqb (v_id v) vid then mk_voucher (v_id v) (v_date v) (v_description v) p else v.

Definition with_vouchers (d : db) (vs : list voucher) : db :=
  mk_db (accounts d) vs (transactions d) (seq_vouchers d) (seq_transactions d) (seq_accounts d).

Definition with_transactions (d : db) (ts : list tx) : db :=
  mk_db (accounts d) (vouchers d) ts (seq_vouchers d) (seq_transactions d) (seq_accounts d).

(** The checks SQLite makes on a new or updated transaction row, in order:
    the BEFORE trigger has already run; NaN is bound as NULL and violates
    NOT NULL; then the CHECK constraints; then the foreign keys. *)
Definition tx_row_ok (d : db) (vid aid : Z) (debit credit : pyfloat) : bool :=
  negb (is_nan debit) && negb (is_nan credit) && tx_check debit credit &&
  voucher_exists d vid && account_exists d aid.

Definition exec_stmt (s : stmt) (d : db) : result db :=
  match s with
  | InsVoucher date desc =>
      let vid := (Z.max (seq_vouchers d) (max_id (map v_id (vouchers d))) + 1)%Z in
      Ok (mk_db (accounts d) (vouchers d ++ [mk_voucher vid date desc 0])
                (transactions d) vid (seq_transactions d) (seq_accounts d))
  | UpdVoucherHeader vid date desc =>
      Ok (with_vouchers d
            (map (fun v => if Z.eqb (v_id v) vid then mk_voucher vid date desc 0 else v)
                 (vouchers d)))
  | UpdPosted vid p =>
      if negb (voucher_exists d vid) then Ok d
      else if Z.eqb p 1 then
        match post_balanced_check d vid with
        | Some e => Err e
        | None => Ok (with_vouchers d (map (set_posted p vid) (vouchers d)))
        end
      else if Z.eqb p 0 then Ok (with_vouchers d (map (set_posted p vid) (vouchers d)))
      else Err ConstraintFailed
  | RecomputePosted =>
      let check v := if Z.eqb (recomputed_posted d (v_id v)) 1
                     then post_balanced_check d (v_id v) else None in
      match find (fun v => match check v with Some _ => true | None => false end)
                 (vouchers d) with
      | Some v => match check v with Some e => Err e | None => Err ConstraintFailed end
      | None => Ok (with_vouchers d
                      (map (fun v => set_posted (recomputed_posted d (v_id v)) (v_id v) v)
                           (vouchers d)))
      end
  | DelVoucher vid =>
      (* the parent row is gone when the cascade deletes the lines, so the
         lines' BEFORE DELETE trigger reads posted as NULL, i.e. 0 *)
      Ok (mk_db (accounts d) (filter (fun v => negb (Z.eqb (v_id v) vid)) (vouchers d))
                (filter (fun t => negb (Z.eqb (t_voucher_id t) vid)) (transactions d))
                (seq_vouchers d) (seq_transactions d) (seq_accounts d))
  | InsTx vid aid debit credit =>
      if Z.eqb (posted_of d vid) 1 then Err PostedVoucherLocked
      else if tx_row_ok d vid aid debit credit then
        let tid := (Z.max (seq_transactions d) (max_id (map t_id (transactions d))) + 1)%Z in
        Ok (mk_db (accounts d) (vouchers d)
                  (transactions d ++ [mk_tx tid vid aid debit credit])
                  (seq_vouchers d) tid (seq_accounts d))
      else Err ConstraintFailed
  | UpdTx tid vid aid debit credit =>
      (* the trigger fires for each row matched by the WHERE clause *)
      match filter (fun t => Z.eqb (t_id t) tid) (transactions d) with
      | [] => Ok d
      | olds =>
          if existsb (fun t => Z.eqb (posted_of d (t_voucher_id t)) 1) olds
             || Z.eqb (posted_of d vid) 1
          then Err PostedVoucherLocked
          else if tx_row_ok d vid aid debit credit then
            Ok (with_transactions d
                  (map (fun t => if Z.eqb (t_id t) tid then mk_tx tid vid aid debit credit else t)
                       (transactions d)))
          else Err ConstraintFailed
      end
  | DelTx tid =>
      let olds := filter (fun t => Z.eqb (t_id t) tid) (transactions d) in
      if existsb (fun t => Z.eqb (posted_of d (t_voucher_id t)) 1) olds
      then Err PostedVoucherLocked
      else Ok (with_transactions d
                 (filter (fun t => negb (Z.eqb (t_id t) tid)) (transactions d)))
  | DelTxOfVoucher vid =>
      match lines_of d vid with
      | [] => Ok d
      | _ :: _ =>
          if Z.eqb (posted_of d vid) 1 then Err PostedVoucherLocked
          else Ok (with_transactions d
                     (filter (fun t => negb (Z.eqb (t_voucher_id t) vid)) (transactions d)))
      end
  | InsAccount name ty =>
      if existsb (fun a => String.eqb (acc_name a) name) (accounts d) then Err ConstraintFailed
      else
        let aid := (Z.max (seq_accounts d) (max_id (map acc_id (accounts d))) + 1)%Z in
        Ok (mk_db (accounts d ++ [mk_account aid name ty]) (vouchers d) (transactions d)
                  (seq_vouchers d) (seq_transactions d) aid)
  | DelAccount name =>
      let gone := filter (fun a => String.eqb (acc_name a) name) (accounts d) in
      if existsb (fun t => existsb (fun a => Z.eqb (acc_id a) (t_account_id t)) gone)
                 (transactions d)
      then Err ConstraintFailed
      else Ok (mk_db (filter (fun a => negb (String.eqb (acc_name a) name)) (accounts d))
                     (vouchers d) (transactions d) (seq_vouchers d) (seq_transactions d)
                     (seq_accounts d))
  end.

(** A sequence of statements inside [with db.conn:]: the first error
    aborts the rest. *)
Fixpoint exec_all (ss : list stmt) (d : db) : result db :=
  match ss with
  | [] => Ok d
  | s :: ss' => d' <- exec_stmt s d ;; exec_all ss' d'
  end.

(** [with db.conn:] commits on success and rolls back on an exception. *)
Definition with_conn (ss : list stmt) (d : db) : result db * db :=
  match exec_all ss d with
  | Ok d' => (Ok d', d')
  | Err e => (Err e, d)
  end.

(* ================================================================== *)
(** ** Voucher entry: the in-progress line list [entries] *)

(** An element [(acc_id, account name, debit, credit)] of [entries]. *)
Record entry : Type := mk_entry {
  e_acc : Z;
  e_name : string;
  e_debit : pyfloat;
  e_credit : pyfloat
}.

(** [SELECT id FROM accounts WHERE name=?] *)
Definition lookup_account (d : db) (name : string) : option account :=
  find (fun a => String.eqb (acc_name a) name) (accounts d).

(** [round(sum(round(e[k], 2) for e in entries), 2)] *)
Definition total_debit (entries : list entry) : pyfloat :=
  py_round2 (py_sum (map (fun e => py_round2 (e_debit e)) entries)).

Definition total_credit (entries : list entry) : pyfloat :=
  py_round2 (py_sum (map (fun e => py_round2 (e_credit e)) entries)).

(** The message [add_line] leaves in [voucher_hint]. *)
Inductive add_line_outcome : Type :=
| LineBadDate        (** "Date must be in YYYY-MM-DD format." *)
| LineBadNumber      (** "Enter valid numbers for Debit/Credit." *)
| LineNegative       (** "Debit/Credit must be positive values." *)
| LineBothOrNone     (** "Enter either debit or credit, not both or none." *)
| LineBadAccount     (** "Select a valid account." *)
| LineAdded.         (** "Line added." *)

(** [add_line()], reading the date, debit, credit and account widgets. *)
Definition add_line (d : db) (date_text debit_text credit_text account_text : string)
    (entries : list entry) : add_line_outcome * list entry :=
  if negb (is_valid_date (py_strip date_text)) then (LineBadDate, entries)
  else
    match parse_amount (Some debit_text), parse_amount (Some credit_text) with
    | Some dv, Some cv =>
        if pf_ltb dv pf0 || pf_ltb cv pf0 then (LineNegative, entries)
        else if (pf_gtb dv pf0 && pf_gtb cv pf0) || (pf_eqb dv pf0 && pf_eqb cv pf0)
        then (LineBothOrNone, entries)
        else match lookup_account d account_text with
             | None => (LineBadAccount, entries)
             | Some a => (LineAdded, entries ++ [mk_entry (acc_id a) account_text dv cv])
             end
    | _, _ => (LineBadNumber, entries)
    end.

Inductive balancing_outcome : Type :=
| BalNoLines         (** "Add at least one line first." *)
| BalBadAccount      (** "Select an account for the balancing line." *)
| BalAlreadyBalanced (** "Voucher is already balanced." *)
| BalAdded.          (** "Balancing line added." *)

(** [add_balancing_line()] *)
Definition add_balancing_line (d : db) (account_text : string) (entries : list entry)
    : balancing_outcome * list entry :=
  match entries with
  | [] => (BalNoLines, entries)
  | _ =>
      match lookup_account d account_text with
      | None => (BalBadAccount, entries)
      | Some a =>
          let diff := py_round2 (pf_sub (total_debit entries) (total_credit entries)) in
          if pf_eqb diff pf0 then (BalAlreadyBalanced, entries)
          else
            let '(dv, cv) := if pf_gtb diff pf0 then (Fin 0, diff) else (pf_abs diff, Fin 0) in
            (BalAdded, entries ++ [mk_entry (acc_id a) account_text dv cv])
      end
  end.

(** How [save_voucher()] ends. *)
Inductive save_outcome : Type :=
| SaveNoLines        (** "Add at least one line before saving." *)
| SaveUnbalanced     (** "Total Debit must equal Total Credit." *)
| SaveBadDate        (** "Date must be in YYYY-MM-DD format." *)
| SaveFailed (e : sql_error)  (** "Failed to save voucher: ..." *)
| Saved (vid : Z).   (** "Voucher saved successfully." *)

(** The statements of the [with db.conn:] block of [save_voucher()]. *)
Definition save_statements (d : db) (current_voucher_id : option Z)
    (date desc : string) (entries : list entry) : Z * list stmt :=
  let '(vid, head) :=
    match current_voucher_id with
    | None => ((Z.max (seq_vouchers d) (max_id (map v_id (vouchers d))) + 1)%Z,
               [InsVoucher date desc])
    | Some vid => (vid, [UpdVoucherHeader vid date desc; DelTxOfVoucher vid])
    end in
  (vid, head ++
        map (fun e => InsTx vid (e_acc e) (py_round2 (e_debit e)) (py_round2 (e_credit e)))
            entries ++
        [UpdPosted vid 1]).

(** [save_voucher()].  The backup file copy taken before the block does not
    touch the database. *)
Definition save_voucher (d : db) (current_voucher_id : option Z)
    (date_text desc_text : string) (entries : list entry) : save_outcome * db :=
  match entries with
  | [] => (SaveNoLines, d)
  | _ =>
      if negb (pf_eqb (total_debit entries) (total_credit entries)) then (SaveUnbalanced, d)
      else if negb (is_valid_date (py_strip date_text)) then (SaveBadDate, d)
      else
        let '(vid, ss) := save_statements d current_voucher_id
                            (py_strip date_text) (py_strip desc_text) entries in
        match with_conn ss d with
        | (Ok _, d') => (Saved vid, d')
        | (Err e, d') => (SaveFailed e, d')
        end
  end.

(* ================================================================== *)
(** ** Reports *)

Inductive report_error : Type :=
| BadDates          (** "Dates must be in YYYY-MM-DD format." *)
| BadDateOrder      (** "From date must be before To date." *)
| NoAccountSelected (** "Select an account for General Ledger." *)
| AccountNotFound   (** "Selected account not found." *)
| NoCashAccounts.   (** "No cash accounts found. Enter names in Cash Accts." *)

Inductive report (A : Type) : Type :=
| RErr (e : report_error)
| RRows (rows : A).
Arguments RErr {A} e.
Arguments RRows {A} rows.

(** SQLite compares TEXT with the BINARY collation: byte by byte. *)
Definition str_le (a b : string) : bool := String.leb a b.
Definition str_lt (a b : string) : bool := String.ltb a b.

(** [get_report_dates()] *)
Definition get_report_dates (from_text to_text : string) : report (string * string) :=
  let start := py_strip from_text in
  let end_ := py_strip to_text in
  if negb (is_valid_date start) || negb (is_valid_date end_) then RErr BadDates
  else if str_lt end_ start then RErr BadDateOrder
  else RRows (start, end_).

Definition find_account_by_id (d : db) (aid : Z) : option account :=
  find (fun a => Z.eqb (acc_id a) aid) (accounts d).

Definition find_voucher (d : db) (vid : Z) : option voucher :=
  find (fun v => Z.eqb (v_id v) vid) (vouchers d).

(** [transactions t JOIN accounts a ON t.account_id=a.id JOIN vouchers v ON t.voucher_id=v.id] *)
Definition joined (d : db) : list (tx * account * voucher) :=
  flat_map (fun t => match find_account_by_id d (t_account_id t), find_voucher d (t_voucher_id t) with
                     | Some a, Some v => [(t, a, v)]
                     | _, _ => []
                     end) (transactions d).

(** [transactions t JOIN vouchers v ON t.voucher_id=v.id] *)
Definition joined_v (d : db) : list (tx * voucher) :=
  flat_map (fun t => match find_voucher d (t_voucher_id t) with
                     | Some v => [(t, v)]
                     | None => []
                     end) (transactions d).

(** Insertion sort by a total preorder [le]: the [ORDER BY] of a query. *)
Fixpoint insert_by {A} (le : A -> A -> bool) (x : A) (xs : list A) : list A :=
  match xs with
  | [] => [x]
  | y :: ys => if le x y then x :: xs else y :: insert_by le x ys
  end.

Fixpoint sort_by {A} (le : A -> A -> bool) (xs : list A) : list A :=
  match xs with
  | [] => []
  | x :: xs' => insert_by le x (sort_by le xs')
  end.

Fixpoint dedup_sorted (xs : list string) : list string :=
  match xs with
  | x :: ((y :: _) as ys) => if String.eqb x y then dedup_sorted ys else x :: dedup_sorted ys
  | _ => xs
  end.

(** The groups of [GROUP BY a.name], in name order. *)
Definition group_names (names : list string) : list string :=
  dedup_sorted (sort_by str_le names).

Definition type_eqb (x y : acct_type) : bool :=
  match x, y with
  | Asset, Asset | Liability, Liability | Income, Income | Expense, Expense => true
  | _, _ => false
  end.

(** One [GROUP BY a.name] query: the rows passing [keep], grouped by account
    name, each group summed over [term]. *)
Definition grouped_sum (rows : list (tx * account * voucher))
    (term : tx -> pyfloat) : list (string * option pyfloat) :=
  map (fun n => (n, sql_sum (map (fun r => term (fst (fst r)))
                                 (filter (fun r => String.eqb (acc_name (snd (fst r))) n) rows))))
      (group_names (map (fun r => acc_name (snd (fst r))) rows)).

(** A row [(Account, Debit, Credit)] of the report view, before [fmt]. *)
Definition row3 : Type := string * pyfloat * pyfloat.

(** The assets query of [generate_bs()]:
    [a.type='Asset' AND v.date <= ?] grouped by name, [SUM(t.debit - t.credit)]. *)
Definition bs_asset_rows (d : db) (end_ : string) : list (string * option pyfloat) :=
  grouped_sum (filter (fun r => type_eqb (acc_type (snd (fst r))) Asset &&
                                str_le (v_date (snd r)) end_) (joined d))
              (fun t => pf_sub (t_debit t) (t_credit t)).

Definition bs_liability_rows (d : db) (end_ : string) : list (string * option pyfloat) :=
  grouped_sum (filter (fun r => type_eqb (acc_type (snd (fst r))) Liability &&
                                str_le (v_date (snd r)) end_) (joined d))
              (fun t => pf_sub (t_credit t) (t_debit t)).

(** [generate_bs()] *)
Definition generate_bs (d : db) (from_text to_text : string) : report (list row3) :=
  match get_report_dates from_text to_text with
  | RErr e => RErr e
  | RRows (_, end_) =>
      RRows (map (fun r => (fst r, coalesce0 (snd r), pf0)) (bs_asset_rows d end_) ++
             map (fun r => (fst r, pf0, coalesce0 (snd r))) (bs_liability_rows d end_))
  end.

(** [account_type in ("Asset", "Expense")]: the accounts whose natural
    balance is debit minus credit. *)
Definition debit_natured (ty : acct_type) : bool :=
  match ty with Asset | Expense => true | Liability | Income => false end.

(** [delta] of [generate_general_ledger()], and the summand of the opening
    query's [CASE]. *)
Definition natural_delta (ty : acct_type) (debit credit : pyfloat) : pyfloat :=
  if debit_natured ty then pf_sub debit credit else pf_sub credit debit.

(** [ORDER BY v.date, v.id, t.id] *)
Definition gl_key_le (x y : tx * voucher) : bool :=
  let '(tx1, v1) := x in
  let '(tx2, v2) := y in
  str_lt (v_date v1) (v_date v2) ||
  (String.eqb (v_date v1) (v_date v2) &&
   ((v_id v1 <? v_id v2)%Z ||
    (Z.eqb (v_id v1) (v_id v2) && (t_id tx1 <=? t_id tx2)%Z))).

(** The lines query of [generate_general_ledger()]:
    [t.account_id = ? AND v.date BETWEEN ? AND ?] in key order. *)
Definition gl_lines (d : db) (aid : Z) (start end_ : string) : list (tx * voucher) :=
  sort_by gl_key_le
    (filter (fun r => Z.eqb (t_account_id (fst r)) aid &&
                      str_le start (v_date (snd r)) && str_le (v_date (snd r)) end_)
            (joined_v d)).

(** The lines [v.date < ?] of the opening query. *)
Definition gl_before (d : db) (aid : Z) (start : string) : list (tx * voucher) :=
  filter (fun r => Z.eqb (t_account_id (fst r)) aid && str_lt (v_date (snd r)) start)
         (joined_v d).

(** The opening query: [COALESCE(SUM(...), 0)] of the natural balance. *)
Definition gl_opening (d : db) (aid : Z) (ty : acct_type) (start : string) : pyfloat :=
  coalesce0 (sql_sum (map (fun r => natural_delta ty (t_debit (fst r)) (t_credit (fst r)))
                          (gl_before d aid start))).

(** A row [(Date, Description, Debit, Credit, Balance)], before [fmt]. *)
Definition gl_row : Type := string * string * pyfloat * pyfloat * pyfloat.

(** The loop [balance += delta] emitting one row per line. *)
Fixpoint gl_walk (ty : acct_type) (balance : pyfloat) (rows : list (tx * voucher)) : list gl_row :=
  match rows with
  | [] => []
  | (t, v) :: rest =>
      let balance' := pf_add balance (natural_delta ty (t_debit t) (t_credit t)) in
      (v_date v, v_description v, t_debit t, t_credit t, balance') :: gl_walk ty balance' rest
  end.

(** [generate_general_ledger()]: [account_text] is the report account
    combobox. *)
Definition generate_general_ledger (d : db) (from_text to_text account_text : string)
    : report (list gl_row) :=
  match get_report_dates from_text to_text with
  | RErr e => RErr e
  | RRows (start, end_) =>
      let name := py_strip account_text in
      match name with
      | EmptyString => RErr NoAccountSelected
      | _ =>
          match lookup_account d name with
          | None => RErr AccountNotFound
          | Some a =>
              let opening := gl_opening d (acc_id a) (acc_type a) start in
              RRows (gl_walk (acc_type a) (py_round2 opening) (gl_lines d (acc_id a) start end_))
          end
      end
  end.

(** [str.split(",")] *)
Fixpoint split_commas_aux (cur : list ascii) (s : list ascii) : list (list ascii) :=
  match s with
  | [] => [rev cur]
  | c :: s' => if (c =? ",")%char then rev cur :: split_commas_aux [] s'
               else split_commas_aux (c :: cur) s'
  end.

Definition split_commas (s : string) : list string :=
  map string_of_list_ascii (split_commas_aux [] (list_ascii_of_string s)).

Fixpoint is_prefix (p s : list ascii) : bool :=
  match p, s with
  | [], _ => true
  | c :: p', c' :: s' => (c =? c')%char && is_prefix p' s'
  | _ :: _, [] => false
  end.

Fixpoint contains (p s : list ascii) : bool :=
  is_prefix p s || match s with [] => false | _ :: s' => contains p s' end.

(** [LOWER(name) LIKE '%needle%'] for a lower-case needle. *)
Definition like_contains (needle name : string) : bool :=
  contains (list_ascii_of_string needle) (map lower (list_ascii_of_string name)).

(** [SELECT name FROM accounts WHERE LOWER(name) LIKE '%cash%' OR LOWER(name) LIKE '%bank%'] *)
Definition auto_cash_names (d : db) : list string :=
  map acc_name (filter (fun a => like_contains "cash" (acc_name a) ||
                                 like_contains "bank" (acc_name a)) (accounts d)).

(** [cash_names] of [generate_cash_flow()] *)
Definition resolve_cash_names (d : db) (raw_text : string) : list string :=
  let explicit := map py_strip (filter (fun n => negb (String.eqb (py_strip n) ""))
                                       (split_commas (py_strip raw_text))) in
  match explicit with
  | [] => auto_cash_names d
  | _ => explicit
  end.

(** The query [a.name IN (...) AND v.date BETWEEN ? AND ?] grouped and
    ordered by name: [(name, SUM(t.debit), SUM(t.credit))]. *)
Definition cash_rows (d : db) (names : list string) (start end_ : string)
    : list (string * option pyfloat * option pyfloat) :=
  let rows := filter (fun r => existsb (String.eqb (acc_name (snd (fst r)))) names &&
                               str_le start (v_date (snd r)) && str_le (v_date (snd r)) end_)
                     (joined d) in
  map (fun n => let g := filter (fun r => String.eqb (acc_name (snd (fst r))) n) rows in
                (n, sql_sum (map (fun r => t_debit (fst (fst r))) g),
                    sql_sum (map (fun r => t_credit (fst (fst r))) g)))
      (group_names (map (fun r => acc_name (snd (fst r))) rows)).

(** The row loop with its running totals, and the trailing "Net Cash" row. *)
Fixpoint cash_table (total_in total_out : pyfloat)
    (rows : list (string * option pyfloat * option pyfloat)) : list row3 :=
  match rows with
  | [] => [("Net Cash"%string, total_in, total_out)]
  | (n, i, o) :: rest =>
      (n, coalesce0 i, coalesce0 o) ::
      cash_table (pf_add total_in (coalesce0 i)) (pf_add total_out (coalesce0 o)) rest
  end.

(** [generate_cash_flow()]: [raw_text] is the "Cash Accts" entry. *)
Definition generate_cash_flow (d : db) (from_text to_text raw_text : string)
    : report (list row3) :=
  match get_report_dates from_text to_text with
  | RErr e => RErr e
  | RRows (start, end_) =>
      match resolve_cash_names d raw_text with
      | [] => RErr NoCashAccounts
      | names => RRows (cash_table pf0 pf0 (cash_rows d names start end_))
      end
  end.

(* ================================================================== *)
(** ** Chart of accounts: [add_account], [update_account], [delete_account] *)

(** SQLite's [LOWER(x)]: it folds the ASCII letters only. *)
Definition sql_lower (s : string) : string :=
  string_of_list_ascii (map lower (list_ascii_of_string s)).

(** The text of the read-only type combobox, as the [type] column's CHECK
    reads it. *)
Definition acct_type_of_string (s : string) : option acct_type :=
  if String.eqb s "Asset" then Some Asset
  else if String.eqb s "Liability" then Some Liability
  else if String.eqb s "Income" then Some Income
  else if String.eqb s "Expense" then Some Expense
  else None.

(** How an action of the account form ends. *)
Inductive account_outcome : Type :=
| AccNoSelection    (** "Select an account to update" / "Select an account to delete" *)
| AccFieldsRequired (** "All fields required" *)
| AccNameTaken      (** "Account already exists" / "Account name already exists" *)
| AccCancelled      (** the confirmation dialog was declined *)
| AccInUse          (** "Account is used in transactions" *)
| AccDone.          (** "Account added" / "Account updated" / "Account deleted" *)

(** [add_account()], reading the name entry and the type combobox.  A type
    text the CHECK refuses raises inside the [try], whose handler reports
    "Account already exists". *)
Definition add_account (d : db) (name_text type_text : string) : account_outcome * db :=
  let name := py_strip name_text in
  let ty := py_strip type_text in
  if String.eqb name "" || String.eqb ty "" then (AccFieldsRequired, d)
  else if existsb (fun a => String.eqb (sql_lower (acc_name a)) (sql_lower name)) (accounts d)
  then (AccNameTaken, d)
  else match acct_type_of_string ty with
       | None => (AccNameTaken, d)
       | Some t =>
           match exec_stmt (InsAccount name t) d with
           | Ok d' => (AccDone, d')
           | Err _ => (AccNameTaken, d)
           end
       end.

(** [UPDATE accounts SET name=?, type=? WHERE name=?].  [name] is UNIQUE:
    the statement fails when another row already has the new name; a type
    text outside the four names fails the CHECK; no matching row changes
    nothing. *)
Definition upd_account (d : db) (sel name : string) (ty : option acct_type) : result db :=
  if negb (existsb (fun a => String.eqb (acc_name a) sel) (accounts d)) then Ok d
  else match ty with
       | None => Err ConstraintFailed
       | Some t =>
           if existsb (fun a => negb (String.eqb (acc_name a) sel) && String.eqb (acc_name a) name)
                      (accounts d)
           then Err ConstraintFailed
           else Ok (mk_db (map (fun a => if String.eqb (acc_name a) sel
                                         then mk_account (acc_id a) name t else a) (accounts d))
                          (vouchers d) (transactions d) (seq_vouchers d) (seq_transactions d)
                          (seq_accounts d))
       end.

(** [update_account()]: [selected] is [selected_account_name]. *)
Definition update_account (d : db) (selected : option string) (name_text type_text : string)
    : account_outcome * db :=
  match selected with
  | None => (AccNoSelection, d)
  | Some sel =>
      if String.eqb sel "" then (AccNoSelection, d)
      else
        let name := py_strip name_text in
        let ty := py_strip type_text in
        if String.eqb name "" || String.eqb ty "" then (AccFieldsRequired, d)
        else if existsb (fun a => String.eqb (sql_lower (acc_name a)) (sql_lower name) &&
                                  negb (String.eqb (acc_name a) sel)) (accounts d)
        then (AccNameTaken, d)
        else match upd_account d sel name (acct_type_of_string ty) with
             | Ok d' => (AccDone, d')
             | Err _ => (AccNameTaken, d)
             end
  end.

(** [delete_account()]: [confirmed] is the answer to "Delete selected
    account?".  The foreign key of [transactions] refuses the deletion of a
    referenced account with an IntegrityError. *)
Definition delete_account (d : db) (selected : option string) (confirmed : bool)
    : account_outcome * db :=
  match selected with
  | None => (AccNoSelection, d)
  | Some sel =>
      if String.eqb sel "" then (AccNoSelection, d)
      else if negb confirmed then (AccCancelled, d)
      else match exec_stmt (DelAccount sel) d with
           | Ok d' => (AccDone, d')
           | Err _ => (AccInUse, d)
           end
  end.

(* ================================================================== *)
(** ** Voucher history, editing and deletion *)

(** How [delete_selected_voucher()] ends. *)
Inductive delete_outcome : Type :=
| DelNoSelection (** "Select a voucher to delete" *)
| DelCancelled   (** the confirmation dialog was declined *)
| DelFailed      (** "Failed to delete voucher" *)
| DelDone.       (** "Voucher deleted" *)

(** [delete_selected_voucher()]: [selected] is the id of the selected
    history row, [confirmed] the answer to "Delete voucher ...?". *)
Definition delete_selected_voucher (d : db) (selected : option Z) (confirmed : bool)
    : delete_outcome * db :=
  match selected with
  | None => (DelNoSelection, d)
  | Some vid =>
      if negb confirmed then (DelCancelled, d)
      else match with_conn [UpdPosted vid 0; DelVoucher vid] d with
           | (Ok _, d') => (DelDone, d')
           | (Err _, d') => (DelFailed, d')
           end
  end.

(** Python's [x or 0] on a float read from a NOT NULL column: a zero reads
    as the integer 0. *)
Definition or0 (x : pyfloat) : pyfloat := if pf_eqb x pf0 then pf0 else x.

(** [SELECT a.id, a.name, t.debit, t.credit FROM transactions t JOIN accounts a
    ON t.account_id = a.id WHERE t.voucher_id = ? ORDER BY t.id], each row
    appended to [entries] as [(r[0], r[1], r[2] or 0, r[3] or 0)]. *)
Definition voucher_entries (d : db) (vid : Z) : list entry :=
  map (fun r => mk_entry (acc_id (snd r)) (acc_name (snd r))
                         (or0 (t_debit (fst r))) (or0 (t_credit (fst r))))
      (sort_by (fun x y => (t_id (fst x) <=? t_id (fst y))%Z)
         (flat_map (fun t => match find_account_by_id d (t_account_id t) with
                             | Some a => [(t, a)]
                             | None => []
                             end) (lines_of d vid))).

(** [load_voucher_for_edit()]: the date and description put in the form,
    the new [entries] and [current_voucher_id]; [None] when nothing is
    selected or the voucher is not found. *)
Definition load_voucher_for_edit (d : db) (selected : option Z)
    : option (string * string * list entry * Z) :=
  match selected with
  | None => None
  | Some vid =>
      match find_voucher d vid with
      | None => None
      | Some v => Some (v_date v, v_description v, voucher_entries d vid, vid)
      end
  end.

(** [ROUND(x, 2)] on a value that may be NULL. *)
Definition sql_round2_opt (x : option pyfloat) : option pyfloat := option_map sql_round2 x.

(** [a <> b] in a HAVING clause: a NULL operand makes it not true. *)
Definition sql_ne (a b : option pyfloat) : bool :=
  match a, b with
  | Some x, Some y => negb (pf_eqb x y)
  | _, _ => false
  end.

(** [vouchers v JOIN transactions t ON v.id = t.voucher_id GROUP BY v.id, ...]:
    one group per voucher with at least one line ([id] is the primary key). *)
Definition voucher_groups (d : db) : list (voucher * list tx) :=
  flat_map (fun v => match lines_of d (v_id v) with
                     | [] => []
                     | ls => [(v, ls)]
                     end) (vouchers d).

Definition group_debit (g : voucher * list tx) : option pyfloat := sql_sum (map t_debit (snd g)).
Definition group_credit (g : voucher * list tx) : option pyfloat := sql_sum (map t_credit (snd g)).

(** [HAVING ROUND(SUM(t.debit), 2) <> ROUND(SUM(t.credit), 2)] *)
Definition group_unbalanced (g : voucher * list tx) : bool :=
  sql_ne (sql_round2_opt (group_debit g)) (sql_round2_opt (group_credit g)).

(** The query of [check_unbalanced_vouchers()], [ORDER BY v.id]. *)
Definition unbalanced_rows (d : db) : list (Z * string * option pyfloat * option pyfloat) :=
  map (fun g => (v_id (fst g), v_date (fst g),
                 sql_round2_opt (group_debit g), sql_round2_opt (group_credit g)))
      (sort_by (fun g h => (v_id (fst g) <=? v_id (fst h))%Z)
               (filter group_unbalanced (voucher_groups d))).

(** [check_unbalanced_vouchers()]: the count of its warning, [None] when it
    shows none. *)
Definition check_unbalanced_vouchers (d : db) : option nat :=
  match unbalanced_rows d with
  | [] => None
  | rows => Some (List.length rows)
  end.

(** [s LIKE p]: [%] matches any run of characters, [_] any one character,
    and ASCII letters match regardless of case. *)
Fixpoint like_match (p s : list ascii) {struct p} : bool :=
  match p with
  | [] => match s with [] => true | _ :: _ => false end
  | c :: p' =>
      if (c =? "%")%char then
        (fix any (s : list ascii) : bool :=
           like_match p' s || match s with [] => false | _ :: s' => any s' end) s
      else match s with
           | [] => false
           | c' :: s' => ((c =? "_")%char || (lower c =? lower c')%char) && like_match p' s'
           end
  end.

Definition sql_like (s p : string) : bool :=
  like_match (list_ascii_of_string p) (list_ascii_of_string s).

(** The decimal digits of [n >= 0], least significant first. *)
Fixpoint digits_rev (fuel : nat) (n : Z) : list ascii :=
  match fuel with
  | O => []
  | S f => ascii_of_nat (48 + Z.to_nat (n mod 10)) ::
           (if (n <? 10)%Z then [] else digits_rev f (n / 10))
  end.

(** An INTEGER as the TEXT [LIKE] compares. *)
Definition Z_text (z : Z) : string :=
  let ds := rev (digits_rev (S (Pos.size_nat (Z.to_pos (Z.abs z)))) (Z.abs z)) in
  string_of_list_ascii (if (z <? 0)%Z then "-"%char :: ds else ds).

Inductive voucher_status : Type := StPosted | StDraft | StUnbalanced.

(** A row [(ID, Date, Description, Status, Debit, Credit)] of the history,
    before [fmt]. *)
Definition history_row : Type := (Z * string * string * voucher_status * pyfloat * pyfloat)%type.

(** [ORDER BY v.date DESC, v.id DESC] *)
Definition history_key_le (g h : voucher * list tx) : bool :=
  str_lt (v_date (fst h)) (v_date (fst g)) ||
  (String.eqb (v_date (fst g)) (v_date (fst h)) && (v_id (fst h) <=? v_id (fst g))%Z).

(** [refresh_voucher_history()]: [None] when it shows the date error.  The
    dates are validated stripped but bound to the query as typed. *)
Definition refresh_voucher_history (d : db) (from_text to_text search_text : string)
    (unbalanced_only : bool) : option (list history_row) :=
  if negb (is_valid_date (py_strip from_text)) || negb (is_valid_date (py_strip to_text)) then None
  else
    let pat := ("%" ++ py_strip search_text ++ "%")%string in
    let gs := filter (fun g => str_le from_text (v_date (fst g)) && str_le (v_date (fst g)) to_text &&
                               (sql_like (v_description (fst g)) pat || sql_like (Z_text (v_id (fst g))) pat))
                     (voucher_groups d) in
    let gs := if unbalanced_only then filter group_unbalanced gs else gs in
    Some (map (fun g =>
                 let td := py_round2 (coalesce0 (group_debit g)) in
                 let tc := py_round2 (coalesce0 (group_credit g)) in
                 let st := if negb (pf_eqb td tc) then StUnbalanced
                           else if Z.eqb (v_posted (fst g)) 1 then StPosted else StDraft in
                 (v_id (fst g), v_date (fst g), v_description (fst g), st, td, tc))
              (sort_by history_key_le gs)).

(* ================================================================== *)
(** ** Voucher entry: the totals line *)

Inductive diff_style : Type := StyleNeutral | StyleGood | StyleWarn | StyleBad.

(** [update_voucher_totals()]: the total debit and credit shown, the
    difference shown, its style, and the hint it leaves: [Some true] for
    "Totals must balance to save.", [Some false] for the cleared hint,
    [None] when it returns early on an empty list. *)
Definition update_voucher_totals (entries : list entry)
    : pyfloat * pyfloat * pyfloat * diff_style * option bool :=
  let td := py_sum (map e_debit entries) in
  let tc := py_sum (map e_credit entries) in
  let diff := py_round2 (pf_sub td tc) in
  match entries with
  | [] => (td, tc, pf_abs diff, StyleNeutral, None)
  | _ =>
      let style := if pf_eqb diff pf0 then StyleGood
                   else if pf_geb (Fin 10) (pf_abs diff) then StyleWarn else StyleBad in
      (td, tc, pf_abs diff, style, Some (negb (pf_eqb (py_round2 td) (py_round2 tc))))
  end.

(* ================================================================== *)
(** ** Trial balance *)

(** The query of [generate_trial_balance()]: [v.date BETWEEN ? AND ?]
    grouped and ordered by name, [(a.name, SUM(t.debit), SUM(t.credit))]. *)
Definition tb_rows (d : db) (start end_ : string) : list (string * option pyfloat * option pyfloat) :=
  let rows := filter (fun r => str_le start (v_date (snd r)) && str_le (v_date (snd r)) end_)
                     (joined d) in
  map (fun n => let g := filter (fun r => String.eqb (acc_name (snd (fst r))) n) rows in
                (n, sql_sum (map (fun r => t_debit (fst (fst r))) g),
                    sql_sum (map (fun r => t_credit (fst (fst r))) g)))
      (group_names (map (fun r => acc_name (snd (fst r))) rows)).

(** [generate_trial_balance()] *)
Definition generate_trial_balance (d : db) (from_text to_text : string) : report (list row3) :=
  match get_report_dates from_text to_text with
  | RErr e => RErr e
  | RRows (start, end_) =>
      RRows (map (fun r => (fst (fst r), coalesce0 (snd (fst r)), coalesce0 (snd r)))
                 (tb_rows d start end_))
  end.

(* ================================================================== *)
(** ** Sample data: the accounts of the spec's scenarios *)

Definition sample_accounts : list account :=
  [mk_account 1 "Cash" Asset; mk_account 2 "Revenue" Income;
   mk_account 3 "Capital" Liability; mk_account 4 "Bank" Asset].

Definition sample_db : db := mk_db sample_accounts [] [] 0 0 4.

(** Scenario A: Cash debit 100, Revenue credit 100. *)
Definition scenario_a_lines : list entry :=
  [mk_entry 1 "Cash" (Fin 100) (Fin 0); mk_entry 2 "Revenue" (Fin 0) (Fin 100)].

(** Scenario B: Cash debit 100, Revenue credit 90. *)
Definition scenario_b_lines : list entry :=
  [mk_entry 1 "Cash" (Fin 100) (Fin 0); mk_entry 2 "Revenue" (Fin 0) (Fin 90)].

(** Scenario D: Cash debit 50 on 2024-01-01, Cash credit 20 on 2024-02-01. *)
Definition scenario_d_db : db :=
  snd (save_voucher
         (snd (save_voucher sample_db None "2024-01-01" "capital"
                 [mk_entry 1 "Cash" (Fin 50) (Fin 0); mk_entry 3 "Capital" (Fin 0) (Fin 50)]))
         None "2024-02-01" "refund"
         [mk_entry 1 "Cash" (Fin 0) (Fin 20); mk_entry 2 "Revenue" (Fin 20) (Fin 0)]).

(** The lines [add_line] builds from the debit text "inf" on Cash and the
    credit text "inf" on Revenue. *)
Definition infinite_lines : list entry :=
  [mk_entry 1 "Cash" PInf (Fin (0 # 100)); mk_entry 2 "Revenue" (Fin (0 # 100)) PInf].

(** A voucher of [infinite_lines] on 2024-01-01, then Cash debit 10 and
    Revenue credit 10 on 2024-02-01. *)
Definition infinite_db : db :=
  snd (save_voucher
         (snd (save_voucher sample_db None "2024-01-01" "opening" infinite_lines))
         None "2024-02-01" "sale"
         [mk_entry 1 "Cash" (Fin 10) (Fin 0); mk_entry 2 "Revenue" (Fin 0) (Fin 10)]).

(** A voucher, never posted, with one line: Cash debit 0.004. *)
Definition lone_line_db : db :=
  mk_db sample_accounts [mk_voucher 1 "2024-01-01" "rounding" 0]
        [mk_tx 1 1 1 (Fin (4 # 1000)) (Fin 0)] 1 1 4.

(** A draft voucher with Cash debit 100 and Revenue credit 90. *)
Definition draft_db : db :=
  mk_db sample_accounts [mk_voucher 1 "2024-01-01" "draft" 0]
        [mk_tx 1 1 1 (Fin 100) (Fin 0); mk_tx 2 1 2 (Fin 0) (Fin 90)] 1 2 4.

(* ================================================================== *)
(** * Properties *)

(** ** The posted-balance invariant *)

(** A line set that may be posted: at least two lines and equal rounded
    totals, in the terms of [trg_voucher_post_balanced]. *)
Definition balanced_lines (ls : list tx) : Prop :=
  (2 <= List.length ls)%nat /\
  pf_eqb (sql_round2 (coalesce0 (sql_sum (map t_debit ls))))
         (sql_round2 (coalesce0 (sql_sum (map t_credit ls)))) = true.

Definition posted_balanced (d : db) (vid : Z) : Prop := balanced_lines (lines_of d vid).

(** Voucher ids are a primary key, and every posted voucher is balanced. *)
Definition ledger_inv (d : db) : Prop :=
  NoDup (map v_id (vouchers d)) /\
  forall v, In v (vouchers d) -> v_posted v = 1%Z -> posted_balanced d (v_id v).

(** The line invariant as the spec words it: both sides at least 0 and
    exactly one of them strictly positive, the other equal to 0. *)
Definition line_invariant (debit credit : pyfloat) : Prop :=
  pf_geb debit pf0 = true /\ pf_geb credit pf0 = true /\
  ((pf_gtb debit pf0 = true /\ pf_eqb credit pf0 = true) \/
   (pf_gtb credit pf0 = true /\ pf_eqb debit pf0 = true)).

Definition stored_lines_ok (d : db) : Prop :=
  Forall (fun t => line_invariant (t_debit t) (t_credit t)) (transactions d).

(** [x] is a finite float whose value is [z] hundredths. *)
Definition fin_cents (x : pyfloat) (z : Z) : Prop := exists q, x = Fin q /\ q == z # 100.

(** Both amounts of an entry are finite. *)
Definition entry_finite (e : entry) : Prop :=
  exists qd qc, e_debit e = Fin qd /\ e_credit e = Fin qc.

(** The lines of the account named [n] dated within [[start, end_]]. *)
Definition cash_lines (d : db) (n start end_ : string) : list (tx * account * voucher) :=
  filter (fun r => String.eqb (acc_name (snd (fst r))) n &&
                   str_le start (v_date (snd r)) && str_le (v_date (snd r)) end_)
         (joined d).

(** The lines of the accounts of type [ty] named [n] whose voucher is dated
    on or before [end_]. *)
Definition bs_lines (d : db) (ty : acct_type) (n end_ : string) : list (tx * account * voucher) :=
  filter (fun r => (type_eqb (acc_type (snd (fst r))) ty && str_le (v_date (snd r)) end_) &&
                   String.eqb (acc_name (snd (fst r))) n)
         (joined d).

(** Every line references an existing voucher and an existing account. *)
Definition refs_ok (d : db) : Prop :=
  Forall (fun t => voucher_exists d (t_voucher_id t) = true /\
                   account_exists d (t_account_id t) = true) (transactions d).

(** Every voucher that has lines is posted. *)
Definition all_posted (d : db) : Prop :=
  forall t, In t (transactions d) -> posted_of d (t_voucher_id t) = 1%Z.

(** Every stored amount is a finite whole number of hundredths. *)
Definition stored_cents (d : db) : Prop :=
  Forall (fun t => (exists z, fin_cents (t_debit t) z) /\ (exists z, fin_cents (t_credit t) z))
         (transactions d).

(** Account ids are distinct, and so are account names up to [LOWER]. *)
Definition accounts_ok (d : db) : Prop :=
  NoDup (map acc_id (accounts d)) /\ NoDup (map (fun a => sql_lower (acc_name a)) (accounts d)).

(** The ledger after [delete_selected_voucher()]'s two statements: the
    voucher and, by the cascade, its lines are gone. *)
Definition voucher_deleted (d : db) (vid : Z) : db :=
  mk_db (accounts d) (filter (fun v => negb (Z.eqb (v_id v) vid)) (vouchers d))
        (filter (fun t => negb (Z.eqb (t_voucher_id t) vid)) (transactions d))
        (seq_vouchers d) (seq_transactions d) (seq_accounts d).

(** [ledger_inv], every voucher with lines posted, valid line references,
    and whole-cent amounts (which saving lines with finite amounts keeps). *)
Definition app_inv (d : db) : Prop :=
  ledger_inv d /\ all_posted d /\ refs_ok d /\ stored_cents d.

(** The invariants every write of the screens keeps: [ledger_inv], every
    voucher with lines posted, valid line references. *)
Definition ledger_ok (d : db) : Prop :=
  ledger_inv d /\ all_posted d /\ refs_ok d.

(** The writes the screens make: saving a voucher from entered lines,
    deleting a voucher, and the three account actions. *)
Inductive ui_step : db -> db -> Prop :=
| StepSave d cur date_text desc_text es :
    ui_step d (snd (save_voucher d cur date_text desc_text es))
| StepDeleteVoucher d sel confirmed :
    ui_step d (snd (delete_selected_voucher d sel confirmed))
| StepAddAccount d name_text type_text :
    ui_step d (snd (add_account d name_text type_text))
| StepUpdateAccount d sel name_text type_text :
    ui_step d (snd (update_account d sel name_text type_text))
| StepDeleteAccount d sel confirmed :
    ui_step d (snd (delete_account d sel confirmed)).

Lemma post_check_none (d : db) (vid : Z) :
  post_balanced_check d vid = None -> posted_balanced d vid.
Proof.
  unfold post_balanced_check, posted_balanced, balanced_lines.
  destruct (Nat.ltb_spec (List.length (lines_of d vid)) 2); [discriminate|].
  destruct (pf_eqb _ _); simpl; [intros _; split; [lia|reflexivity]|discriminate].
Qed.

Lemma fold_max_ge (l : list Z) (acc : Z) : (acc <= fold_left Z.max l acc)%Z.
Proof.
  revert acc; induction l as [|x l IH]; intros acc; simpl; [lia|].
  specialize (IH (Z.max acc x)); lia.
Qed.

Lemma fold_max_in (l : list Z) (acc x : Z) : In x l -> (x <= fold_left Z.max l acc)%Z.
Proof.
  revert acc; induction l as [|y l IH]; intros acc Hin; simpl in *; [contradiction|].
  destruct Hin as [<-|Hin]; [|apply IH; exact Hin].
  pose proof (fold_max_ge l (Z.max acc y)); lia.
Qed.

Lemma find_id_in (vs : list voucher) (v : voucher) :
  NoDup (map v_id vs) -> In v vs -> find (fun v' => Z.eqb (v_id v') (v_id v)) vs = Some v.
Proof.
  induction vs as [|w vs IH]; intros Hnd Hin; simpl in *; [contradiction|].
  inversion Hnd as [|? ? Hnotin Hnd']; subst.
  destruct Hin as [<-|Hin].
  - rewrite Z.eqb_refl; reflexivity.
  - destruct (Z.eqb_spec (v_id w) (v_id v)) as [E|E].
    + exfalso; apply Hnotin; rewrite E; apply in_map; exact Hin.
    + apply IH; assumption.
Qed.

Lemma posted_of_in (d : db) (v : voucher) :
  NoDup (map v_id (vouchers d)) -> In v (vouchers d) -> posted_of d (v_id v) = v_posted v.
Proof.
  intros Hnd Hin; unfold posted_of; rewrite (find_id_in _ _ Hnd Hin); reflexivity.
Qed.

Lemma NoDup_map_filter {A B} (key : A -> B) (keep : A -> bool) (xs : list A) :
  NoDup (map key xs) -> NoDup (map key (filter keep xs)).
Proof.
  rename key into f, keep into p, xs into l.
  induction l as [|x l IH]; intros Hnd; simpl in *; [constructor|].
  inversion Hnd as [|? ? Hnotin Hnd']; subst.
  destruct (p x); simpl; [|apply IH; exact Hnd'].
  constructor; [|apply IH; exact Hnd'].
  intros Hin; apply Hnotin.
  apply in_map_iff in Hin as (y & Hy & Hy'); apply filter_In in Hy' as [Hy' _].
  rewrite <- Hy; apply in_map; exact Hy'.
Qed.

Lemma map_id_set_posted (p : Z -> Z) (vs : list voucher) :
  map v_id (map (fun v => set_posted (p (v_id v)) (v_id v) v) vs) = map v_id vs.
Proof.
  induction vs as [|v vs IH]; simpl; [reflexivity|].
  rewrite IH; unfold set_posted; rewrite Z.eqb_refl; reflexivity.
Qed.

Lemma map_id_set_posted_const (p vid : Z) (vs : list voucher) :
  map v_id (map (set_posted p vid) vs) = map v_id vs.
Proof.
  induction vs as [|v vs IH]; simpl; [reflexivity|].
  rewrite IH; unfold set_posted; destruct (Z.eqb (v_id v) vid); reflexivity.
Qed.

(** Keeping every line of voucher [w] keeps its line set. *)
Lemma lines_filter_keep (ts : list tx) (keep : tx -> bool) (w : Z) :
  (forall t, In t ts -> t_voucher_id t = w -> keep t = true) ->
  filter (fun t => Z.eqb (t_voucher_id t) w) (filter keep ts) =
  filter (fun t => Z.eqb (t_voucher_id t) w) ts.
Proof.
  induction ts as [|t ts IH]; intros H; simpl; [reflexivity|].
  destruct (Z.eqb_spec (t_voucher_id t) w) as [E|E].
  - rewrite (H t (or_introl eq_refl) E); simpl; rewrite (proj2 (Z.eqb_eq _ _) E).
    f_equal; apply IH; intros ? ? ?; (apply H; [right|]; assumption).
  - destruct (keep t); simpl; [rewrite (proj2 (Z.eqb_neq _ _) E)|];
      apply IH; intros ? ? ?; (apply H; [right|]; assumption).
Qed.

(** Rewriting rows outside voucher [w] into rows outside [w] keeps its lines. *)
Lemma lines_map_keep (ts : list tx) (f : tx -> tx) (w : Z) :
  (forall t, In t ts -> (t_voucher_id t = w \/ t_voucher_id (f t) = w) -> f t = t) ->
  filter (fun t => Z.eqb (t_voucher_id t) w) (map f ts) =
  filter (fun t => Z.eqb (t_voucher_id t) w) ts.
Proof.
  induction ts as [|t ts IH]; intros H; simpl; [reflexivity|].
  rewrite IH by (intros ? ? ?; (apply H; [right|]; assumption)).
  destruct (Z.eqb_spec (t_voucher_id t) w) as [E|E].
  - rewrite (H t (or_introl eq_refl) (or_introl E)), (proj2 (Z.eqb_eq _ _) E); reflexivity.
  - destruct (Z.eqb_spec (t_voucher_id (f t)) w) as [E'|E'].
    + rewrite (H t (or_introl eq_refl) (or_intror E')) in E'; contradiction.
    + reflexivity.
Qed.

Lemma find_none_false {A} (p : A -> bool) (l : list A) (x : A) :
  find p l = None -> In x l -> p x = false.
Proof.
  induction l as [|y l IH]; simpl; intros Hf Hin; [contradiction|].
  destruct (p y) eqn:Ey; [discriminate|].
  destruct Hin as [<-|Hin]; [exact Ey|apply IH; assumption].
Qed.

Lemma posted_not_posted (d : db) (v : voucher) (vid : Z) :
  NoDup (map v_id (vouchers d)) -> In v (vouchers d) -> v_posted v = 1%Z ->
  Z.eqb (posted_of d vid) 1 = false -> v_id v <> vid.
Proof.
  intros Hnd Hin Hp Hq E; subst vid.
  rewrite (posted_of_in _ _ Hnd Hin), Hp in Hq; discriminate.
Qed.

(** Every posted voucher keeps its line set when [f] rewrites the lines. *)
Lemma inv_same_vouchers (d d' : db) :
  vouchers d' = vouchers d ->
  (forall v, In v (vouchers d) -> v_posted v = 1%Z -> lines_of d' (v_id v) = lines_of d (v_id v)) ->
  ledger_inv d -> ledger_inv d'.
Proof.
  intros Hv Hl [Hnd Hb]; split; [rewrite Hv; exact Hnd|].
  intros v Hin Hp; rewrite Hv in Hin; unfold posted_balanced; rewrite (Hl v Hin Hp).
  apply Hb; assumption.
Qed.

Lemma exec_stmt_inv (s : stmt) (d d' : db) :
  ledger_inv d -> exec_stmt s d = Ok d' -> ledger_inv d'.
Proof.
  intros Hinv Hex; pose proof Hinv as [Hnd Hb].
  destruct s as [date desc|vid date desc|vid p| |vid|vid aid dv cv|tid vid aid dv cv|tid|vid|name ty|name];
    simpl in Hex.
  - (* InsVoucher *)
    injection Hex as <-; split; simpl.
    + rewrite map_app; simpl; apply NoDup_app; [exact Hnd|constructor; [intros []|constructor]|].
      intros x Hx [<-|[]].
      pose proof (fold_max_in _ 0 _ Hx); unfold max_id in *; lia.
    + intros v Hin Hp; apply in_app_or in Hin as [Hin|[<-|[]]]; [|discriminate].
      apply (Hb v Hin Hp).
  - (* UpdVoucherHeader *)
    injection Hex as <-; split; simpl.
    + replace (map v_id (map _ (vouchers d))) with (map v_id (vouchers d)); [exact Hnd|].
      clear; induction (vouchers d) as [|v vs IH]; simpl; [reflexivity|].
      rewrite <- IH; destruct (Z.eqb_spec (v_id v) vid); simpl; congruence.
    + intros v Hin Hp; apply in_map_iff in Hin as (w & Hw & Hin).
      destruct (Z.eqb (v_id w) vid); [subst v; discriminate|subst w].
      apply (Hb v Hin Hp).
  - (* UpdPosted *)
    destruct (voucher_exists d vid); simpl in Hex; [|injection Hex as <-; exact Hinv].
    destruct (Z.eqb_spec p 1) as [->|Hp1].
    + destruct (post_balanced_check d vid) eqn:Hc; [discriminate|].
      injection Hex as <-; split; simpl; [rewrite map_id_set_posted_const; exact Hnd|].
      intros v Hin Hp; apply in_map_iff in Hin as (w & Hw & Hin); subst v.
      unfold set_posted in *; destruct (Z.eqb_spec (v_id w) vid) as [E|E]; simpl in *.
      * subst vid; apply post_check_none; exact Hc.
      * apply (Hb w Hin Hp).
    + destruct (Z.eqb_spec p 0) as [->|Hp0]; [|discriminate].
      injection Hex as <-; split; simpl; [rewrite map_id_set_posted_const; exact Hnd|].
      intros v Hin Hp; apply in_map_iff in Hin as (w & Hw & Hin); subst v.
      unfold set_posted in *; destruct (Z.eqb (v_id w) vid); simpl in *; [discriminate|].
      apply (Hb w Hin Hp).
  - (* RecomputePosted *)
    destruct (find _ (vouchers d)) as [w|] eqn:Hf.
    { destruct (Z.eqb (recomputed_posted d (v_id w)) 1);
        [destruct (post_balanced_check d (v_id w))|]; discriminate. }
    injection Hex as <-; split; simpl; [rewrite map_id_set_posted; exact Hnd|].
    intros v Hin Hp; apply in_map_iff in Hin as (w & Hw & Hin); subst v.
    pose proof (find_none_false _ _ _ Hf Hin) as Hw; simpl in Hw.
    unfold set_posted in *; rewrite Z.eqb_refl in *; simpl in *.
    rewrite Hp, Z.eqb_refl in Hw.
    destruct (post_balanced_check d (v_id w)) eqn:Hc; [discriminate|].
    apply post_check_none; exact Hc.
  - (* DelVoucher *)
    injection Hex as <-; split; simpl; [apply NoDup_map_filter; exact Hnd|].
    intros v Hin Hp; apply filter_In in Hin as [Hin Hne].
    unfold posted_balanced, lines_of; simpl.
    rewrite lines_filter_keep; [apply (Hb v Hin Hp)|].
    intros t _ Ht; rewrite Ht; exact Hne.
  - (* InsTx *)
    destruct (Z.eqb (posted_of d vid) 1) eqn:Hq; [discriminate|].
    destruct (tx_row_ok d vid aid dv cv); [|discriminate].
    injection Hex as <-; apply (inv_same_vouchers d); [reflexivity| |exact Hinv].
    intros v Hin Hp; unfold lines_of; simpl; rewrite filter_app; simpl.
    pose proof (posted_not_posted d v vid Hnd Hin Hp Hq) as Hne.
    rewrite (proj2 (Z.eqb_neq _ _) (not_eq_sym Hne)), app_nil_r; reflexivity.
  - (* UpdTx *)
    destruct (filter _ (transactions d)) as [|o os] eqn:Holds;
      [injection Hex as <-; exact Hinv|].
    destruct ((Z.eqb (posted_of d (t_voucher_id o)) 1
               || existsb (fun t => Z.eqb (posted_of d (t_voucher_id t)) 1) os)
              || Z.eqb (posted_of d vid) 1) eqn:Hq; [discriminate|].
    destruct (tx_row_ok d vid aid dv cv); [|discriminate].
    apply orb_false_iff in Hq as [Hq1 Hq2].
    change (existsb (fun t => Z.eqb (posted_of d (t_voucher_id t)) 1) (o :: os) = false) in Hq1.
    injection Hex as <-; apply (inv_same_vouchers d); [reflexivity| |exact Hinv].
    intros v Hin Hp; unfold lines_of; simpl; apply lines_map_keep.
    intros t Ht Hw; destruct (Z.eqb_spec (t_id t) tid) as [Et|Et]; [exfalso|reflexivity].
    assert (Hto : In t (o :: os)) by (rewrite <- Holds; apply filter_In; split;
                                        [exact Ht|apply Z.eqb_eq; exact Et]).
    assert (Hold : Z.eqb (posted_of d (t_voucher_id t)) 1 = false).
    { destruct (Z.eqb (posted_of d (t_voucher_id t)) 1) eqn:E; [|reflexivity].
      rewrite <- Hq1; symmetry; apply existsb_exists; exists t; split; assumption. }
    destruct Hw as [Hw|Hw]; simpl in Hw.
    + exact (posted_not_posted d v _ Hnd Hin Hp Hold (eq_sym Hw)).
    + exact (posted_not_posted d v _ Hnd Hin Hp Hq2 (eq_sym Hw)).
  - (* DelTx *)
    destruct (existsb _ _) eqn:Hq; [discriminate|].
    injection Hex as <-; apply (inv_same_vouchers d); [reflexivity| |exact Hinv].
    intros v Hin Hp; unfold lines_of; simpl; apply lines_filter_keep.
    intros t Ht Hw; destruct (Z.eqb_spec (t_id t) tid) as [Et|Et]; [exfalso|reflexivity].
    assert (Hold : Z.eqb (posted_of d (t_voucher_id t)) 1 = false).
    { destruct (Z.eqb (posted_of d (t_voucher_id t)) 1) eqn:E; [|reflexivity].
      rewrite <- Hq; symmetry; apply existsb_exists; exists t; split; [|exact E].
      apply filter_In; split; [exact Ht|apply Z.eqb_eq; exact Et]. }
    exact (posted_not_posted d v _ Hnd Hin Hp Hold (eq_sym Hw)).
  - (* DelTxOfVoucher *)
    destruct (lines_of d vid) as [|l ls] eqn:Hl; [injection Hex as <-; exact Hinv|].
    destruct (Z.eqb (posted_of d vid) 1) eqn:Hq; [discriminate|].
    injection Hex as <-; apply (inv_same_vouchers d); [reflexivity| |exact Hinv].
    intros v Hin Hp; unfold lines_of; simpl; apply lines_filter_keep.
    pose proof (posted_not_posted d v vid Hnd Hin Hp Hq) as Hne.
    intros t _ Ht; rewrite Ht; apply negb_true_iff, Z.eqb_neq; exact Hne.
  - (* InsAccount *)
    destruct (existsb _ _); [discriminate|].
    injection Hex as <-; apply (inv_same_vouchers d); [reflexivity| |exact Hinv]; reflexivity.
  - (* DelAccount *)
    destruct (existsb _ _); [discriminate|].
    injection Hex as <-; apply (inv_same_vouchers d); [reflexivity| |exact Hinv]; reflexivity.
Qed.

Lemma exec_all_inv (ss : list stmt) (d d' : db) :
  ledger_inv d -> exec_all ss d = Ok d' -> ledger_inv d'.
Proof.
  revert d; induction ss as [|s ss IH]; intros d Hinv Hex; simpl in Hex.
  - injection Hex as <-; exact Hinv.
  - destruct (exec_stmt s d) as [d1|e] eqn:E; simpl in Hex; [|discriminate].
    exact (IH d1 (exec_stmt_inv s d d1 Hinv E) Hex).
Qed.

Lemma post_check_some (d : db) (vid : Z) :
  ~ posted_balanced d vid -> exists e, post_balanced_check d vid = Some e.
Proof.
  intros Hn; destruct (post_balanced_check d vid) as [e|] eqn:E; [exists e; reflexivity|].
  exfalso; apply Hn, post_check_none, E.
Qed.

Lemma with_conn_err (ss : list stmt) (d d' : db) (e : sql_error) :
  with_conn ss d = (Err e, d') -> d' = d.
Proof.
  unfold with_conn; destruct (exec_all ss d); intros H; injection H; congruence.
Qed.

Lemma save_voucher_inv (d : db) cur date desc es :
  ledger_inv d -> ledger_inv (snd (save_voucher d cur date desc es)).
Proof.
  intros Hinv; unfold save_voucher.
  destruct es as [|e es]; [exact Hinv|].
  destruct (negb _); [exact Hinv|].
  destruct (negb _); [exact Hinv|].
  destruct (save_statements _ _ _ _ _) as [vid ss].
  unfold with_conn; destruct (exec_all ss d) as [d'|err] eqn:E; simpl; [|exact Hinv].
  exact (exec_all_inv ss d d' Hinv E).
Qed.

Lemma empty_db_inv : ledger_inv empty_db.
Proof. split; [constructor|intros v []]. Qed.

Lemma sample_db_inv : ledger_inv sample_db.
Proof. split; [constructor|intros v []]. Qed.

(** C1.  Posted-balance invariant: the invariant "every voucher whose
    posted flag is 1 has at least two lines and equal debit and credit
    totals rounded by ROUND(., 2)" is kept by every statement the program
    issues or the triggers guard, and by [save_voucher] as a whole; and an
    update setting posted to 1 on a voucher failing it aborts (the trigger
    [trg_voucher_post_balanced], which also guards the final status flip of
    [save_voucher]). *)
Theorem C1_posted_balance_invariant (d : db) (Hinv : ledger_inv d) :
  (forall s d', exec_stmt s d = Ok d' -> ledger_inv d') /\
  (forall cur date desc es, ledger_inv (snd (save_voucher d cur date desc es))) /\
  (forall vid, voucher_exists d vid = true -> ~ posted_balanced d vid ->
               exists e, exec_stmt (UpdPosted vid 1) d = Err e).
Proof.
  split; [intros s d'; apply exec_stmt_inv; exact Hinv|split].
  - intros; apply save_voucher_inv; exact Hinv.
  - intros vid Hex Hn; simpl; rewrite Hex; simpl.
    destruct (post_check_some d vid Hn) as [e He]; rewrite He; exists e; reflexivity.
Qed.

Lemma C1_witness :
  ledger_inv (snd (save_voucher sample_db None "2024-01-01" "sale" scenario_a_lines)).
Proof.
  exact (proj1 (proj2 (C1_posted_balance_invariant sample_db sample_db_inv))
           None "2024-01-01"%string "sale"%string scenario_a_lines).
Defined.

Lemma total_nil_balanced : pf_eqb (total_debit []) (total_credit []) = true.
Proof. vm_compute; reflexivity. Qed.

(** C2.  An unbalanced save is refused before anything is written, and a
    save that does not end in [Saved] leaves the database as it was: the
    statements of [with db.conn:] are rolled back on the first error. *)
Theorem C2_unbalanced_save_atomic (d : db) (cur : option Z) (date desc : string)
    (es : list entry) :
  (pf_eqb (total_debit es) (total_credit es) = false ->
   save_voucher d cur date desc es = (SaveUnbalanced, d)) /\
  (forall o d', save_voucher d cur date desc es = (o, d') ->
                (forall vid, o <> Saved vid) -> d' = d) /\
  (forall ss e d', with_conn ss d = (Err e, d') -> d' = d).
Proof.
  split; [|split].
  - intros H; destruct es as [|e es].
    + rewrite total_nil_balanced in H; discriminate.
    + unfold save_voucher; rewrite H; reflexivity.
  - intros o d' H Hns; unfold save_voucher in H.
    destruct es as [|e es]; [injection H; intros; subst; reflexivity|].
    destruct (negb (pf_eqb _ _)); [injection H; intros; subst; reflexivity|].
    destruct (negb (is_valid_date _)); [injection H; intros; subst; reflexivity|].
    destruct (save_statements _ _ _ _ _) as [vid ss].
    destruct (with_conn ss d) as [[d0|err] d1] eqn:E.
    + injection H; intros; subst; exfalso; exact (Hns vid eq_refl).
    + injection H; intros; subst; exact (with_conn_err _ _ _ _ E).
  - intros ss e d'; apply with_conn_err.
Qed.

Lemma C2_witness :
  pf_eqb (total_debit scenario_b_lines) (total_credit scenario_b_lines) = false /\
  save_voucher sample_db None "2024-03-01" "sale" scenario_b_lines = (SaveUnbalanced, sample_db).
Proof.
  split; [vm_compute; reflexivity|].
  apply (proj1 (C2_unbalanced_save_atomic sample_db None "2024-03-01" "sale" scenario_b_lines)).
  vm_compute; reflexivity.
Defined.

Lemma find_set_posted (p vid : Z) (vs : list voucher) :
  find (fun v => Z.eqb (v_id v) vid) (map (set_posted p vid) vs) =
  option_map (set_posted p vid) (find (fun v => Z.eqb (v_id v) vid) vs).
Proof.
  induction vs as [|v vs IH]; simpl; [reflexivity|].
  unfold set_posted at 1 3; destruct (Z.eqb (v_id v) vid) eqn:E; simpl.
  - rewrite E; reflexivity.
  - rewrite E; exact IH.
Qed.

Lemma existsb_in_true {A} (f : A -> bool) (l : list A) (x : A) :
  In x l -> f x = true -> existsb f l = true.
Proof. intros Hin Hf; apply existsb_exists; exists x; split; assumption. Qed.

Lemma filter_in_cons {A} (f : A -> bool) (l : list A) (x : A) :
  In x l -> f x = true -> exists y ys, filter f l = y :: ys /\ In x (y :: ys).
Proof.
  intros Hin Hf; destruct (filter f l) as [|y ys] eqn:E.
  - exfalso; assert (In x (filter f l)) as H by (apply filter_In; split; assumption).
    rewrite E in H; exact H.
  - exists y, ys; split; [reflexivity|]; rewrite <- E; apply filter_In; split; assumption.
Qed.

Lemma with_conn_single (s : stmt) (d : db) :
  with_conn [s] d = match exec_stmt s d with Ok d' => (Ok d', d') | Err e => (Err e, d) end.
Proof. unfold with_conn; simpl; destruct (exec_stmt s d); reflexivity. Qed.

(** C3.  Posted immutability: inserting a line into a voucher whose posted
    flag is 1, or updating or deleting one of its lines, aborts with
    [PostedVoucherLocked] and the rollback leaves the database, lines
    included, unchanged; such a statement only succeeds on a voucher whose
    flag is not 1, and the update setting the flag to 0 clears it. *)
Theorem C3_posted_immutability (d : db) :
  (forall vid aid dv cv, posted_of d vid = 1%Z ->
     with_conn [InsTx vid aid dv cv] d = (Err PostedVoucherLocked, d)) /\
  (forall t vid aid dv cv, In t (transactions d) -> posted_of d (t_voucher_id t) = 1%Z ->
     with_conn [UpdTx (t_id t) vid aid dv cv] d = (Err PostedVoucherLocked, d)) /\
  (forall t, In t (transactions d) -> posted_of d (t_voucher_id t) = 1%Z ->
     with_conn [DelTx (t_id t)] d = (Err PostedVoucherLocked, d)) /\
  (forall vid, lines_of d vid <> [] -> posted_of d vid = 1%Z ->
     with_conn [DelTxOfVoucher vid] d = (Err PostedVoucherLocked, d)) /\
  (forall vid aid dv cv d', exec_stmt (InsTx vid aid dv cv) d = Ok d' ->
     posted_of d vid <> 1%Z) /\
  (forall t vid aid dv cv d', In t (transactions d) ->
     exec_stmt (UpdTx (t_id t) vid aid dv cv) d = Ok d' ->
     posted_of d (t_voucher_id t) <> 1%Z /\ posted_of d vid <> 1%Z) /\
  (forall t d', In t (transactions d) -> exec_stmt (DelTx (t_id t)) d = Ok d' ->
     posted_of d (t_voucher_id t) <> 1%Z) /\
  (forall vid d', exec_stmt (UpdPosted vid 0) d = Ok d' -> posted_of d' vid = 0%Z) /\
  (forall vid aid dv cv, posted_of d vid <> 1%Z -> tx_row_ok d vid aid dv cv = true ->
     exists d', exec_stmt (InsTx vid aid dv cv) d = Ok d').
Proof.
  split; [|split; [|split; [|split; [|split; [|split; [|split; [|split]]]]]]].
  - intros vid aid dv cv H; rewrite with_conn_single; cbn [exec_stmt]; rewrite H; reflexivity.
  - intros t vid aid dv cv Hin H; rewrite with_conn_single; cbn [exec_stmt].
    destruct (filter_in_cons (fun t' => Z.eqb (t_id t') (t_id t)) _ t Hin (Z.eqb_refl _))
      as [y [ys [E Hin']]]; rewrite E.
    rewrite (existsb_in_true _ _ t Hin') by (rewrite H; reflexivity); reflexivity.
  - intros t Hin H; rewrite with_conn_single; cbn [exec_stmt].
    assert (Hf : In t (filter (fun t' => Z.eqb (t_id t') (t_id t)) (transactions d)))
      by (apply filter_In; split; [exact Hin|apply Z.eqb_refl]).
    rewrite (existsb_in_true _ _ t Hf) by (rewrite H; reflexivity); reflexivity.
  - intros vid Hne H; rewrite with_conn_single; cbn [exec_stmt].
    destruct (lines_of d vid) as [|l ls]; [contradiction|]; rewrite H; reflexivity.
  - intros vid aid dv cv d' Hex; cbn [exec_stmt] in Hex; intros H; rewrite H in Hex; discriminate.
  - intros t vid aid dv cv d' Hin Hex; cbn [exec_stmt] in Hex.
    destruct (filter_in_cons (fun t' => Z.eqb (t_id t') (t_id t)) _ t Hin (Z.eqb_refl _))
      as [y [ys [E Hin']]]; rewrite E in Hex.
    split; intros H.
    + rewrite (existsb_in_true _ _ t Hin') in Hex by (rewrite H; reflexivity); discriminate.
    + rewrite H, orb_true_r in Hex; discriminate.
  - intros t d' Hin Hex H; cbn [exec_stmt] in Hex.
    assert (Hf : In t (filter (fun t' => Z.eqb (t_id t') (t_id t)) (transactions d)))
      by (apply filter_In; split; [exact Hin|apply Z.eqb_refl]).
    rewrite (existsb_in_true _ _ t Hf) in Hex by (rewrite H; reflexivity); discriminate.
  - intros vid d' Hex; cbn [exec_stmt] in Hex.
    destruct (voucher_exists d vid) eqn:Ev; simpl in Hex.
    + injection Hex; intros <-; unfold posted_of; simpl; rewrite find_set_posted.
      destruct (find _ (vouchers d)) as [v|] eqn:F; simpl; [|reflexivity].
      apply find_some in F; destruct F as [_ F]; unfold set_posted; rewrite F; reflexivity.
    + injection Hex; intros <-; unfold posted_of.
      destruct (find _ (vouchers d)) as [v|] eqn:F; [|reflexivity].
      apply find_some in F; destruct F as [Fi F].
      unfold voucher_exists in Ev; rewrite (existsb_in_true _ _ v Fi F) in Ev; discriminate.
  - intros vid aid dv cv H Hok; cbn [exec_stmt].
    apply Z.eqb_neq in H; rewrite H, Hok; eexists; reflexivity.
Qed.

Lemma C3_witness :
  posted_of scenario_d_db 1 = 1%Z /\
  with_conn [InsTx 1 1 (Fin 5) (Fin 0)] scenario_d_db = (Err PostedVoucherLocked, scenario_d_db).
Proof.
  split; [vm_compute; reflexivity|].
  apply (proj1 (C3_posted_immutability scenario_d_db)); vm_compute; reflexivity.
Defined.

(** C6 (counterexample).  An unbalanced save with the date "bad" fails with
    [SaveUnbalanced]: the balance is checked before the date. *)
Lemma C6_counterexample :
  is_valid_date (py_strip "bad") = false /\
  fst (save_voucher sample_db None "bad" "sale" scenario_b_lines) = SaveUnbalanced.
Proof. split; vm_compute; reflexivity. Qed.

(** C6 (amended).  [save_voucher] checks, in this order, that the line list
    is non-empty ([SaveNoLines]), that the rounded totals are equal
    ([SaveUnbalanced]) and that the stripped date is a valid YYYY-MM-DD date
    ([SaveBadDate]), and writes nothing when a check fails; with an invalid
    date it never writes, and it fails with [SaveUnbalanced] exactly when the
    list is non-empty and unbalanced. *)
Theorem C6_save_validation_order (d : db) (cur : option Z) (date desc : string)
    (es : list entry) :
  (es = [] -> save_voucher d cur date desc es = (SaveNoLines, d)) /\
  (es <> [] -> pf_eqb (total_debit es) (total_credit es) = false ->
   save_voucher d cur date desc es = (SaveUnbalanced, d)) /\
  (es <> [] -> pf_eqb (total_debit es) (total_credit es) = true ->
   is_valid_date (py_strip date) = false ->
   save_voucher d cur date desc es = (SaveBadDate, d)) /\
  (is_valid_date (py_strip date) = false ->
   snd (save_voucher d cur date desc es) = d /\
   (fst (save_voucher d cur date desc es) = SaveUnbalanced <->
    es <> [] /\ pf_eqb (total_debit es) (total_credit es) = false)).
Proof.
  split; [|split; [|split]].
  - intros ->; reflexivity.
  - intros Hne Hb; destruct es as [|e es]; [contradiction|].
    unfold save_voucher; rewrite Hb; reflexivity.
  - intros Hne Hb Hd; destruct es as [|e es]; [contradiction|].
    unfold save_voucher; rewrite Hb, Hd; reflexivity.
  - intros Hd; destruct es as [|e es].
    + simpl; split; [reflexivity|split; [discriminate|intros [H _]; contradiction]].
    + unfold save_voucher; rewrite Hd.
      destruct (pf_eqb (total_debit (e :: es)) (total_credit (e :: es))); simpl.
      * split; [reflexivity|split; [discriminate|intros [_ H]; discriminate]].
      * split; [reflexivity|split; [intros _; split; [discriminate|reflexivity]|reflexivity]].
Qed.

Lemma C6_witness :
  snd (save_voucher sample_db None "bad" "sale" scenario_a_lines) = sample_db /\
  fst (save_voucher sample_db None "bad" "sale" scenario_a_lines) <> SaveUnbalanced.
Proof.
  assert (Hd : is_valid_date (py_strip "bad") = false) by (vm_compute; reflexivity).
  destruct (proj2 (proj2 (proj2 (C6_save_validation_order sample_db None "bad" "sale"
                                    scenario_a_lines))) Hd) as [H1 H2].
  split; [exact H1|].
  intros H; apply H2 in H; destruct H as [_ H]; vm_compute in H; discriminate.
Defined.

Lemma tx_check_line_invariant (dv cv : pyfloat) :
  tx_check dv cv = true <-> line_invariant dv cv.
Proof.
  unfold tx_check, line_invariant.
  rewrite !andb_true_iff, orb_true_iff, !andb_true_iff; tauto.
Qed.

Lemma tx_row_ok_check (d : db) vid aid dv cv :
  tx_row_ok d vid aid dv cv = true -> tx_check dv cv = true.
Proof. unfold tx_row_ok; rewrite !andb_true_iff; tauto. Qed.

Lemma Forall_filter_keep {A} (P : A -> Prop) (f : A -> bool) (l : list A) :
  Forall P l -> Forall P (filter f l).
Proof.
  intros H; apply Forall_forall; intros x Hx; apply filter_In in Hx.
  rewrite Forall_forall in H; apply H, Hx.
Qed.

Lemma exec_stmt_lines_ok (s : stmt) (d d' : db) :
  stored_lines_ok d -> exec_stmt s d = Ok d' -> stored_lines_ok d'.
Proof.
  unfold stored_lines_ok; intros H Hex; destruct s; cbn [exec_stmt] in Hex.
  - injection Hex; intros <-; exact H.
  - injection Hex; intros <-; exact H.
  - destruct (negb (voucher_exists d vid)); [injection Hex; intros <-; exact H|].
    destruct (Z.eqb posted 1).
    + destruct (post_balanced_check d vid); [discriminate|injection Hex; intros <-; exact H].
    + destruct (Z.eqb posted 0); [injection Hex; intros <-; exact H|discriminate].
  - destruct (find _ (vouchers d)) as [w|].
    { destruct (Z.eqb (recomputed_posted d (v_id w)) 1);
        [destruct (post_balanced_check d (v_id w))|]; discriminate. }
    injection Hex; intros <-; exact H.
  - injection Hex; intros <-; apply Forall_filter_keep, H.
  - destruct (Z.eqb (posted_of d vid) 1); [discriminate|].
    destruct (tx_row_ok d vid aid debit credit) eqn:Ok; [|discriminate].
    injection Hex; intros <-; simpl; apply Forall_app; split; [exact H|].
    constructor; [apply tx_check_line_invariant; exact (tx_row_ok_check _ _ _ _ _ Ok)|constructor].
  - destruct (filter _ _) as [|o os]; [injection Hex; intros <-; exact H|].
    destruct (_ || _); [discriminate|].
    destruct (tx_row_ok d vid aid debit credit) eqn:Ok; [|discriminate].
    injection Hex; intros <-; simpl.
    apply Forall_forall; intros t Ht; apply in_map_iff in Ht; destruct Ht as [t0 [<- Ht0]].
    destruct (Z.eqb (t_id t0) tid); simpl.
    + apply tx_check_line_invariant; exact (tx_row_ok_check _ _ _ _ _ Ok).
    + rewrite Forall_forall in H; apply H, Ht0.
  - destruct (existsb _ _); [discriminate|]; injection Hex; intros <-; apply Forall_filter_keep, H.
  - destruct (lines_of d vid); [injection Hex; intros <-; exact H|].
    destruct (Z.eqb (posted_of d vid) 1); [discriminate|].
    injection Hex; intros <-; apply Forall_filter_keep, H.
  - destruct (existsb _ _); [discriminate|]; injection Hex; intros <-; exact H.
  - destruct (existsb _ _); [discriminate|]; injection Hex; intros <-; exact H.
Qed.

Lemma exec_all_lines_ok (ss : list stmt) (d d' : db) :
  stored_lines_ok d -> exec_all ss d = Ok d' -> stored_lines_ok d'.
Proof.
  revert d; induction ss as [|s ss IH]; intros d H Hex; simpl in Hex.
  - injection Hex; intros <-; exact H.
  - destruct (exec_stmt s d) as [d1|e] eqn:E; [|discriminate].
    exact (IH d1 (exec_stmt_lines_ok s d d1 H E) Hex).
Qed.

Lemma pf_nonneg_split (x : pyfloat) :
  x <> NaN -> pf_ltb x pf0 = false ->
  pf_geb x pf0 = true /\
  ((pf_gtb x pf0 = true /\ pf_eqb x pf0 = false) \/
   (pf_gtb x pf0 = false /\ pf_eqb x pf0 = true)).
Proof.
  intros Hn Hl; destruct x as [q| | |]; [|split; [reflexivity|left; split; reflexivity]
                                          |discriminate|contradiction].
  unfold pf_geb, pf_gtb in *; unfold pf_ltb, pf_eqb, pf0 in *; simpl in *.
  apply negb_false_iff, Qle_bool_iff in Hl.
  destruct (Qle_bool q 0) eqn:E; simpl.
  - apply Qle_bool_iff in E.
    assert (Hq : Qeq_bool q 0 = true) by (apply Qeq_bool_iff, Qle_antisym; assumption).
    rewrite Hq; split; [reflexivity|right; split; reflexivity].
  - destruct (Qeq_bool q 0) eqn:Q.
    + apply Qeq_bool_iff in Q; rewrite Q in E; discriminate.
    + split; [reflexivity|left; split; reflexivity].
Qed.

Lemma pf_eqb_dec_nan (x : pyfloat) : {x = NaN} + {x <> NaN}.
Proof. destruct x; [right|right|right|left]; congruence. Qed.

Lemma add_line_added (d : db) date dt ct acct es es' :
  add_line d date dt ct acct es = (LineAdded, es') ->
  exists a dv cv,
    lookup_account d acct = Some a /\
    parse_amount (Some dt) = Some dv /\ parse_amount (Some ct) = Some cv /\
    (pf_ltb dv pf0 || pf_ltb cv pf0) = false /\
    ((pf_gtb dv pf0 && pf_gtb cv pf0) || (pf_eqb dv pf0 && pf_eqb cv pf0)) = false /\
    es' = es ++ [mk_entry (acc_id a) acct dv cv].
Proof.
  unfold add_line; intros H.
  destruct (negb (is_valid_date (py_strip date))); [discriminate|].
  destruct (parse_amount (Some dt)) as [dv|] eqn:Pd; [|discriminate].
  destruct (parse_amount (Some ct)) as [cv|] eqn:Pc; [|discriminate].
  destruct (pf_ltb dv pf0 || pf_ltb cv pf0) eqn:N; [discriminate|].
  destruct ((pf_gtb dv pf0 && pf_gtb cv pf0) || (pf_eqb dv pf0 && pf_eqb cv pf0)) eqn:B;
    [discriminate|].
  destruct (lookup_account d acct) as [a|] eqn:La; [|discriminate].
  injection H; intros <-; exists a, dv, cv; repeat split; assumption.
Qed.

(** C4.  The line invariant holds for every stored line: each statement
    that succeeds keeps it, the CHECK constraints of [transactions] being
    exactly the invariant.  At line entry, a line that [add_line] adds
    satisfies it unless one of its amounts is NaN: the entry check does
    not refuse NaN, which [float] accepts as "nan". *)
Theorem C4_line_invariant (d : db) :
  (forall dv cv, tx_check dv cv = true <-> line_invariant dv cv) /\
  (forall s d', stored_lines_ok d -> exec_stmt s d = Ok d' -> stored_lines_ok d') /\
  (forall ss d', stored_lines_ok d -> with_conn ss d = (Ok d', d') -> stored_lines_ok d') /\
  (forall date dt ct acct es es',
     add_line d date dt ct acct es = (LineAdded, es') ->
     exists e, es' = es ++ [e] /\
               (line_invariant (e_debit e) (e_credit e) \/ e_debit e = NaN \/ e_credit e = NaN)).
Proof.
  split; [exact tx_check_line_invariant|split; [|split]].
  - intros s d'; apply exec_stmt_lines_ok.
  - intros ss d' H Hc; unfold with_conn in Hc.
    destruct (exec_all ss d) as [d1|e] eqn:E; [|discriminate].
    injection Hc; intros; subst; exact (exec_all_lines_ok ss d _ H E).
  - intros date dt ct acct es es' H.
    destruct (add_line_added d date dt ct acct es es' H)
      as (a & dv & cv & _ & _ & _ & N & B & ->).
    exists (mk_entry (acc_id a) acct dv cv); split; [reflexivity|simpl].
    destruct (pf_eqb_dec_nan dv) as [->|Hdv]; [right; left; reflexivity|].
    destruct (pf_eqb_dec_nan cv) as [->|Hcv]; [right; right; reflexivity|].
    left; apply orb_false_iff in N as [N1 N2].
    destruct (pf_nonneg_split dv Hdv N1) as [Gd [[Pd Zd]|[Pd Zd]]];
    destruct (pf_nonneg_split cv Hcv N2) as [Gc [[Pc Zc]|[Pc Zc]]];
    rewrite ?Pd, ?Zd, ?Pc, ?Zc in B; simpl in B; try discriminate;
    (split; [exact Gd|split; [exact Gc|]]); [left|right]; split; assumption.
Qed.

Lemma C4_witness :
  stored_lines_ok (snd (save_voucher sample_db None "2024-01-01" "sale" scenario_a_lines)).
Proof.
  assert (H0 : stored_lines_ok sample_db) by constructor.
  unfold save_voucher; cbn [negb].
  destruct (pf_eqb _ _); [|exact H0]; cbn [negb].
  destruct (is_valid_date _); [|exact H0]; cbn [negb].
  destruct (save_statements _ _ _ _ _) as [vid ss].
  destruct (with_conn ss sample_db) as [[d1|e] d2] eqn:E; simpl.
  - unfold with_conn in E; destruct (exec_all ss sample_db) eqn:E2; [|discriminate].
    injection E; intros; subst.
    apply (proj1 (proj2 (proj2 (C4_line_invariant sample_db))) ss); [exact H0|].
    unfold with_conn; rewrite E2; reflexivity.
  - apply with_conn_err in E; subst; exact H0.
Defined.

(** The failing input of the entry half of the line invariant: the debit
    text "nan" with a blank credit is added as a line with a NaN debit. *)
Lemma add_line_accepts_nan :
  add_line sample_db "2024-01-01" "nan" "" "Cash" [] =
    (LineAdded, [mk_entry 1 "Cash" NaN (Fin (0 # 100))]) /\
  ~ line_invariant NaN (Fin (0 # 100)).
Proof.
  split; [vm_compute; reflexivity|].
  unfold line_invariant; simpl; intros [H _]; discriminate.
Qed.

Lemma parse_amount_blank (v : option string) :
  py_strip (match v with Some s => s | None => ""%string end) = ""%string ->
  parse_amount v = Some (Fin (0 # 100)).
Proof. intros H; unfold parse_amount; rewrite H; reflexivity. Qed.

(** C10.  [parse_amount] is total: on any string or on [None] it gives
    [None] or [round(x, 2)] for the [float] value [x], a whole number of
    hundredths when finite; a blank, whitespace-only or absent value gives
    [0.0], which [add_line] takes as an explicit zero; otherwise it gives
    [None] exactly when [float] refuses the stripped text, and then
    [add_line] refuses the line.  (The spellings of inf and nan that
    [float] accepts are not refused: see [add_line_accepts_nan].) *)
Theorem C10_parse_amount_total (v : option string) :
  (parse_amount v = None \/ exists x, py_float_or_zero v = Some x /\ parse_amount v = Some (py_round2 x)) /\
  (forall q, parse_amount v = Some (Fin q) -> exists z, q = z # 100) /\
  parse_amount None = Some (Fin (0 # 100)) /\
  (forall s, py_strip s = ""%string -> parse_amount (Some s) = Some (Fin (0 # 100))) /\
  (forall s, py_strip s <> ""%string ->
     (parse_amount (Some s) = None <-> py_float (py_strip s) = None)) /\
  (forall d date dt ct acct es,
     is_valid_date (py_strip date) = true ->
     (parse_amount (Some dt) = None \/ parse_amount (Some ct) = None) ->
     add_line d date dt ct acct es = (LineBadNumber, es)) /\
  (forall d date dt ct acct es es',
     py_strip ct = ""%string -> add_line d date dt ct acct es = (LineAdded, es') ->
     exists aid dv, es' = es ++ [mk_entry aid acct dv (Fin (0 # 100))]).
Proof.
  split; [|split; [|split; [|split; [|split; [|split]]]]].
  - unfold parse_amount, py_float_or_zero.
    destruct (py_strip _) as [|c r]; [right; eexists; split; reflexivity|].
    destruct (py_float _) as [x|]; [right; exists x; split; reflexivity|left; reflexivity].
  - intros q; unfold parse_amount.
    destruct (py_strip _) as [|c r]; [intros H; injection H; intros <-; eexists; reflexivity|].
    destruct (py_float _) as [[x| | |]|]; simpl; intros H; try discriminate.
    injection H; intros <-; eexists; reflexivity.
  - reflexivity.
  - intros s H; apply (parse_amount_blank (Some s)), H.
  - intros s H; unfold parse_amount.
    destruct (py_strip s) as [|c r]; [contradiction|].
    destruct (py_float _); split; intros E; discriminate || reflexivity.
  - intros d date dt ct acct es Hd [H|H]; unfold add_line; rewrite Hd; simpl; rewrite H;
      [reflexivity|destruct (parse_amount (Some dt)); reflexivity].
  - intros d date dt ct acct es es' Hc H.
    destruct (add_line_added d date dt ct acct es es' H)
      as (a & dv & cv & _ & _ & Pc & _ & _ & ->).
    rewrite (parse_amount_blank (Some ct) Hc) in Pc; injection Pc; intros <-.
    exists (acc_id a), dv; reflexivity.
Qed.

Lemma C10_witness :
  add_line sample_db "2024-01-01" "abc" "" "Cash" [] = (LineBadNumber, []) /\
  parse_amount (Some "   "%string) = Some (Fin (0 # 100)).
Proof.
  split.
  - apply (proj1 (proj2 (proj2 (proj2 (proj2 (proj2 (C10_parse_amount_total None)))))));
      [vm_compute; reflexivity|left; vm_compute; reflexivity].
  - apply (proj1 (proj2 (proj2 (proj2 (C10_parse_amount_total None))))).
    vm_compute; reflexivity.
Defined.

Lemma round_half_even_100_cents (z : Z) : round_half_even_100 (z # 100) = z.
Proof.
  unfold round_half_even_100.
  assert (H1 : (z # 100) * 100 == inject_Z z) by (unfold Qeq; simpl; lia).
  rewrite (Qfloor_comp _ _ H1), Qfloor_Z.
  destruct (Qle_bool (1 # 2) ((z # 100) * 100 - inject_Z z)) eqn:E; [|reflexivity].
  exfalso; apply Qle_bool_iff in E; rewrite H1 in E.
  unfold Qminus in E; rewrite Qplus_opp_r in E; unfold Qle in E; simpl in E; lia.
Qed.

Lemma Qeq_bool_cents (a b : Z) : Qeq_bool (a # 100) (b # 100) = Z.eqb a b.
Proof.
  apply eq_true_iff_eq; rewrite Qeq_bool_iff, Z.eqb_eq; unfold Qeq; simpl; lia.
Qed.

Lemma Qle_bool_0_cents (a : Z) : Qle_bool 0 (a # 100) = Z.leb 0 a.
Proof.
  apply eq_true_iff_eq; rewrite Qle_bool_iff, Z.leb_le; unfold Qle; simpl; lia.
Qed.

Lemma round_half_even_100_zero (q : Q) : q == 0 -> round_half_even_100 q = 0%Z.
Proof.
  intros Hq; unfold round_half_even_100.
  assert (H100 : q * 100 == 0) by (rewrite Hq; reflexivity).
  rewrite (Qfloor_comp _ _ H100); change (Qfloor 0) with 0%Z.
  replace (Qle_bool (1 # 2) (q * 100 - inject_Z 0)) with false; [reflexivity|].
  symmetry; apply Bool.not_true_iff_false; rewrite Qle_bool_iff.
  unfold inject_Z; lra.
Qed.

(** C9.  For a non-empty line list and an existing account, with [diff]
    the rounded difference of the rounded totals: when the totals are
    equal and finite, [add_balancing_line] appends nothing; when [diff] is
    not 0 it appends exactly one line, for that account and under the
    name typed, crediting [diff] when it is positive and debiting
    [abs(diff)] otherwise, and that line satisfies the line invariant
    unless [diff] is NaN.  (A NaN [diff] does arise: see
    [add_balancing_line_infinite].) *)
Theorem C9_balancing_line (d : db) (acct : string) (es : list entry) (a : account)
    (Hne : es <> []) (Ha : lookup_account d acct = Some a) :
  let diff := py_round2 (pf_sub (total_debit es) (total_credit es)) in
  ((exists q, total_debit es = Fin q) ->
   pf_eqb (total_debit es) (total_credit es) = true ->
   add_balancing_line d acct es = (BalAlreadyBalanced, es)) /\
  (pf_eqb diff pf0 = false ->
   exists e, add_balancing_line d acct es = (BalAdded, es ++ [e]) /\
             e_acc e = acc_id a /\ e_name e = acct /\
             (pf_gtb diff pf0 = true -> e_debit e = Fin 0 /\ e_credit e = diff) /\
             (pf_gtb diff pf0 = false -> e_debit e = pf_abs diff /\ e_credit e = Fin 0) /\
             (is_nan diff = false -> line_invariant (e_debit e) (e_credit e))).
Proof.
  intros diff.
  assert (Hab : add_balancing_line d acct es =
    (if pf_eqb diff pf0 then (BalAlreadyBalanced, es)
     else let '(dv, cv) := if pf_gtb diff pf0 then (Fin 0, diff) else (pf_abs diff, Fin 0) in
          (BalAdded, es ++ [mk_entry (acc_id a) acct dv cv]))).
  { unfold add_balancing_line; destruct es as [|e0 es0]; [contradiction|].
    rewrite Ha; reflexivity. }
  split.
  - intros [q Hq] E; rewrite Hab.
    replace (pf_eqb diff pf0) with true; [reflexivity|].
    unfold diff; rewrite Hq in *; destruct (total_credit es) as [r| | |]; try discriminate.
    cbn [pf_sub pf_neg pf_add py_round2 pf_eqb pf0] in *.
    apply Qeq_bool_iff in E; symmetry; apply Qeq_bool_iff.
    assert (Hz : q + - r == 0) by (rewrite E; ring).
    rewrite (round_half_even_100_zero _ Hz); reflexivity.
  - intros E; rewrite Hab, E.
    destruct (pf_gtb diff pf0) eqn:G; simpl.
    + eexists; split; [reflexivity|].
      do 2 (split; [reflexivity|]).
      split; [intros _; split; reflexivity|].
      split; [intros H; discriminate H|].
      intros _; unfold line_invariant; cbn [e_debit e_credit].
      unfold pf_geb; unfold pf_gtb in G; rewrite G.
      split; [reflexivity|split; [reflexivity|right; split; [exact G|reflexivity]]].
    + eexists; split; [reflexivity|].
      do 2 (split; [reflexivity|]).
      split; [intros H; discriminate H|].
      split; [intros _; split; reflexivity|].
      intros Hn; unfold line_invariant; cbn [e_debit e_credit].
      destruct diff as [x| | |] eqn:Dx; try discriminate Hn.
      * unfold pf_gtb, pf_ltb, pf_eqb, pf_geb, pf0 in *; cbn [pf_abs].
        apply Bool.negb_false_iff, Qle_bool_iff in G.
        assert (Hx : ~ x == 0) by (intro Hx; apply Qeq_bool_iff in Hx; congruence).
        assert (Hneg : x < 0) by (apply Qle_lteq in G; destruct G as [G|G]; [exact G|contradiction]).
        assert (Hlt : 0 < Qabs x) by (rewrite (Qabs_neg x) by lra; lra).
        simpl; replace (Qle_bool (Qabs x) 0) with false
          by (symmetry; apply Bool.not_true_iff_false; rewrite Qle_bool_iff; lra).
        simpl; split; [reflexivity|split; [reflexivity|left; split; reflexivity]].
      * unfold pf_gtb in G; discriminate G.
      * simpl; split; [reflexivity|split; [reflexivity|left; split; reflexivity]].
Qed.

Lemma C9_witness :
  exists e, add_balancing_line sample_db "Revenue" scenario_b_lines = (BalAdded, scenario_b_lines ++ [e]) /\
            e_credit e = py_round2 (pf_sub (total_debit scenario_b_lines) (total_credit scenario_b_lines)) /\
            line_invariant (e_debit e) (e_credit e).
Proof.
  assert (Hne : scenario_b_lines <> []) by discriminate.
  assert (Ha : lookup_account sample_db "Revenue" = Some (mk_account 2 "Revenue" Income))
    by reflexivity.
  destruct (proj2 (C9_balancing_line sample_db "Revenue" scenario_b_lines _ Hne Ha)
              ltac:(vm_compute; reflexivity))
    as (e & H1 & _ & _ & H2 & _ & H3).
  exists e; split; [exact H1|split; [apply H2; vm_compute; reflexivity|apply H3; vm_compute; reflexivity]].
Defined.

(** The failing input of the balancing-line round trip: lines entered as
    "inf" on both sides are balanced for [save_voucher] (inf == inf), yet
    [add_balancing_line] appends a line with a NaN debit, since
    [round(inf - inf, 2)] is NaN, which is neither 0 nor positive. *)
Lemma add_balancing_line_infinite :
  add_line sample_db "2024-01-01" "inf" "" "Cash" [] =
    (LineAdded, [mk_entry 1 "Cash" PInf (Fin (0 # 100))]) /\
  pf_eqb (total_debit infinite_lines) (total_credit infinite_lines) = true /\
  add_balancing_line sample_db "Cash" infinite_lines =
    (BalAdded, infinite_lines ++ [mk_entry 1 "Cash" NaN (Fin 0)]) /\
  ~ line_invariant NaN (Fin 0).
Proof.
  split; [vm_compute; reflexivity|split; [vm_compute; reflexivity|split]].
  - vm_compute; reflexivity.
  - unfold line_invariant; simpl; intros [H _]; discriminate.
Qed.

Lemma in_insert_by {A} (le : A -> A -> bool) (x y : A) (ys : list A) :
  In x (insert_by le y ys) <-> y = x \/ In x ys.
Proof.
  induction ys as [|z zs IH]; simpl; [tauto|].
  destruct (le y z); simpl; [tauto|]; rewrite IH; tauto.
Qed.

Lemma in_sort_by {A} (le : A -> A -> bool) (x : A) (l : list A) :
  In x (sort_by le l) <-> In x l.
Proof.
  induction l as [|y l IH]; simpl; [tauto|]; rewrite in_insert_by, IH; tauto.
Qed.

Lemma in_dedup_sorted (x : string) (l : list string) :
  In x (dedup_sorted l) <-> In x l.
Proof.
  induction l as [|y l IH]; [simpl; tauto|].
  destruct l as [|z l]; [simpl; tauto|].
  change (In x (if String.eqb y z then dedup_sorted (z :: l) else y :: dedup_sorted (z :: l))
          <-> In x (y :: z :: l)).
  destruct (String.eqb_spec y z) as [<-|_].
  - rewrite IH; simpl; tauto.
  - simpl; rewrite IH; simpl; tauto.
Qed.

Lemma in_group_names (x : string) (l : list string) : In x (group_names l) <-> In x l.
Proof. unfold group_names; rewrite in_dedup_sorted, in_sort_by; reflexivity. Qed.

Section InsertionSort.
Context {A : Type} (le : A -> A -> bool).
Hypothesis le_total : forall x y, le x y = false -> le y x = true.
Let R x y := le x y = true.

Lemma insert_by_hd (a x : A) (l : list A) :
  HdRel R a l -> R a x -> HdRel R a (insert_by le x l).
Proof.
  intros Hh Hax; destruct l as [|y ys]; simpl; [constructor; exact Hax|].
  destruct (le x y); constructor; [exact Hax|inversion Hh; assumption].
Qed.

Lemma insert_by_sorted (x : A) (l : list A) : Sorted R l -> Sorted R (insert_by le x l).
Proof.
  induction l as [|y ys IH]; intros Hs; simpl; [repeat constructor|].
  destruct (le x y) eqn:E.
  - constructor; [exact Hs|constructor; exact E].
  - inversion Hs as [|? ? Hs' Hh]; subst.
    constructor; [apply IH, Hs'|apply insert_by_hd; [exact Hh|apply le_total, E]].
Qed.

Lemma sort_by_sorted (l : list A) : Sorted R (sort_by le l).
Proof. induction l as [|x l IH]; simpl; [constructor|apply insert_by_sorted, IH]. Qed.

Lemma insert_by_perm (x : A) (l : list A) : Permutation (x :: l) (insert_by le x l).
Proof.
  induction l as [|y ys IH]; simpl; [reflexivity|].
  destruct (le x y); [reflexivity|].
  rewrite perm_swap; constructor; exact IH.
Qed.

Lemma sort_by_perm (l : list A) : Permutation l (sort_by le l).
Proof.
  induction l as [|x l IH]; simpl; [constructor|].
  rewrite <- insert_by_perm; constructor; exact IH.
Qed.
End InsertionSort.

Lemma string_compare_le_trans (a b c : string) :
  String.compare a b <> Gt -> String.compare b c <> Gt -> String.compare a c <> Gt.
Proof.
  revert b c; induction a as [|x a IH]; intros b c Hab Hbc.
  - destruct c; simpl; discriminate.
  - destruct b as [|y b]; [exfalso; apply Hab; reflexivity|].
    destruct c as [|z c]; [exfalso; apply Hbc; reflexivity|].
    simpl in *; unfold Ascii.compare in *.
    destruct (N.compare_spec (N_of_ascii x) (N_of_ascii y)) as [E1|L1|G1];
      [|clear Hab|exfalso; apply Hab; reflexivity];
    destruct (N.compare_spec (N_of_ascii y) (N_of_ascii z)) as [E2|L2|G2];
      try (exfalso; apply Hbc; reflexivity).
    + rewrite E1, E2, N.compare_refl; apply (IH b); assumption.
    + rewrite (proj2 (N.compare_lt_iff _ _)) by lia; discriminate.
    + rewrite (proj2 (N.compare_lt_iff _ _)) by lia; discriminate.
    + rewrite (proj2 (N.compare_lt_iff _ _)) by lia; discriminate.
Qed.

Lemma str_le_trans (a b c : string) : str_le a b = true -> str_le b c = true -> str_le a c = true.
Proof.
  unfold str_le, String.leb.
  destruct (String.compare a b) eqn:E1; try discriminate; intros _;
  destruct (String.compare b c) eqn:E2; try discriminate; intros _;
  destruct (String.compare a c) eqn:E3; try reflexivity;
  exfalso; apply (string_compare_le_trans a b c); congruence.
Qed.

Lemma str_le_total (a b : string) : str_le a b = false -> str_le b a = true.
Proof. unfold str_le; destruct (String.leb_total a b) as [H|H]; congruence. Qed.

Lemma dedup_sorted_nodup (l : list string) :
  StronglySorted (fun x y => str_le x y = true) l -> NoDup (dedup_sorted l).
Proof.
  induction l as [|x l IH]; intros Hs; [constructor|].
  destruct l as [|y l]; [constructor; [intros []|constructor]|].
  change (NoDup (if String.eqb x y then dedup_sorted (y :: l) else x :: dedup_sorted (y :: l))).
  inversion Hs as [|? ? Hs' Hall]; subst.
  destruct (String.eqb_spec x y) as [_|Hne]; [apply IH, Hs'|].
  constructor; [|apply IH, Hs'].
  intros Hin; apply in_dedup_sorted in Hin as [E|Hin]; [exact (Hne (eq_sym E))|].
  inversion Hs' as [|? ? _ Hall']; subst.
  rewrite Forall_forall in Hall, Hall'.
  apply Hne, String.leb_antisym; [apply Hall; left; reflexivity|apply Hall', Hin].
Qed.

Lemma group_names_nodup (names : list string) : NoDup (group_names names).
Proof.
  unfold group_names; apply dedup_sorted_nodup, Sorted_StronglySorted.
  - intros x y z; apply str_le_trans.
  - apply (sort_by_sorted str_le str_le_total).
Qed.

Lemma dedup_sorted_strongly (R : string -> string -> Prop) (l : list string) :
  StronglySorted R l -> StronglySorted R (dedup_sorted l).
Proof.
  induction l as [|x l IH]; intros Hs; [constructor|].
  destruct l as [|y l]; [exact Hs|].
  change (StronglySorted R (if String.eqb x y then dedup_sorted (y :: l) else x :: dedup_sorted (y :: l))).
  inversion Hs as [|? ? Hs' Hall]; subst.
  destruct (String.eqb x y); [apply IH, Hs'|constructor; [apply IH, Hs'|]].
  rewrite Forall_forall in Hall |- *; intros z Hz; apply Hall, in_dedup_sorted, Hz.
Qed.

Lemma group_names_sorted (names : list string) :
  StronglySorted (fun x y => str_le x y = true) (group_names names).
Proof.
  unfold group_names; apply dedup_sorted_strongly, Sorted_StronglySorted.
  - intros x y z; apply str_le_trans.
  - apply (sort_by_sorted str_le str_le_total).
Qed.

Lemma cash_table_split (ti to : pyfloat) (rows : list (string * option pyfloat * option pyfloat)) :
  cash_table ti to rows =
  map (fun r => (fst (fst r), coalesce0 (snd (fst r)), coalesce0 (snd r))) rows ++
  [("Net Cash"%string,
    fold_left pf_add (map (fun r => coalesce0 (snd (fst r))) rows) ti,
    fold_left pf_add (map (fun r => coalesce0 (snd r)) rows) to)].
Proof.
  revert ti to; induction rows as [|[[n i] o] rows IH]; intros ti to; [reflexivity|].
  simpl; rewrite IH; reflexivity.
Qed.

Lemma filter_cash_rows (names : list string) (n start end_ : string)
    (J : list (tx * account * voucher)) :
  In n names ->
  filter (fun r => String.eqb (acc_name (snd (fst r))) n)
    (filter (fun r => existsb (String.eqb (acc_name (snd (fst r)))) names &&
                      str_le start (v_date (snd r)) && str_le (v_date (snd r)) end_) J) =
  filter (fun r => String.eqb (acc_name (snd (fst r))) n &&
                   str_le start (v_date (snd r)) && str_le (v_date (snd r)) end_) J.
Proof.
  intros Hn; induction J as [|r J IH]; [reflexivity|]; simpl.
  destruct (String.eqb_spec (acc_name (snd (fst r))) n) as [E|E].
  - rewrite E, (existsb_in_true _ _ n Hn (String.eqb_refl n)); simpl.
    destruct (str_le start _ && str_le _ end_); simpl; rewrite ?E, ?String.eqb_refl, IH; reflexivity.
  - destruct (existsb _ names && _ && _); simpl;
      [rewrite (proj2 (String.eqb_neq _ _) E)|]; exact IH.
Qed.

Lemma cash_rows_in (d : db) (names : list string) (start end_ n : string) :
  In n (group_names (map (fun r => acc_name (snd (fst r)))
          (filter (fun r => existsb (String.eqb (acc_name (snd (fst r)))) names &&
                            str_le start (v_date (snd r)) && str_le (v_date (snd r)) end_)
                  (joined d)))) <->
  In n names /\ cash_lines d n start end_ <> [].
Proof.
  rewrite in_group_names, in_map_iff; split.
  - intros (r & Hn & Hr); apply filter_In in Hr as [Hj Hk].
    apply andb_true_iff in Hk as [Hk Hle2]; apply andb_true_iff in Hk as [Hex Hle1].
    apply existsb_exists in Hex as (m & Hm & Em); apply String.eqb_eq in Em.
    split; [rewrite <- Hn, Em; exact Hm|].
    intros Hnil; assert (Hc : In r (cash_lines d n start end_)).
    { unfold cash_lines; apply filter_In; split; [exact Hj|].
      rewrite Hn, String.eqb_refl, Hle1, Hle2; reflexivity. }
    rewrite Hnil in Hc; exact Hc.
  - intros [Hn Hne]; destruct (cash_lines d n start end_) as [|r rs] eqn:Ec; [contradiction|].
    assert (Hr : In r (cash_lines d n start end_)) by (rewrite Ec; left; reflexivity).
    unfold cash_lines in Hr; apply filter_In in Hr as [Hj Hk].
    apply andb_true_iff in Hk as [Hk Hle2]; apply andb_true_iff in Hk as [Hnm Hle1].
    apply String.eqb_eq in Hnm.
    exists r; split; [exact Hnm|]; apply filter_In; split; [exact Hj|].
    rewrite Hnm, (existsb_in_true _ _ n Hn (String.eqb_refl n)), Hle1, Hle2; reflexivity.
Qed.

(** C8 (counterexample).  The accounts Cash and Bank both resolve, but Bank
    has no line in the range, so the report has no Bank row. *)
Lemma C8_counterexample :
  In "Bank"%string (resolve_cash_names scenario_d_db "") /\
  match generate_cash_flow scenario_d_db "2024-01-01" "2024-12-31" "" with
  | RRows rows => map (fun r => fst (fst r)) rows = ["Cash"%string; "Net Cash"%string]
  | RErr _ => False
  end.
Proof. split; vm_compute; [right; left; reflexivity|reflexivity]. Qed.

(** C8 (amended).  With no explicit names (a blank "Cash Accts" text) the
    report resolves to every account whose name contains "cash" or "bank"
    in ASCII lower case; an empty resolved set fails with [NoCashAccounts];
    otherwise the report has one row per resolved name that has at least one
    line dated within the range, in name order, carrying the sums of that
    name's debits and credits in the range, followed by the row ("Net
    Cash", total inflow, total outflow); a resolved name with no line in
    the range has no row. *)
Theorem C8_cash_flow (d : db) (from to raw : string) :
  (py_strip raw = ""%string -> resolve_cash_names d raw = auto_cash_names d) /\
  (forall n, In n (auto_cash_names d) <->
     exists a, In a (accounts d) /\ acc_name a = n /\
               (like_contains "cash" n || like_contains "bank" n) = true) /\
  (forall start end_, get_report_dates from to = RRows (start, end_) ->
     resolve_cash_names d raw = [] -> generate_cash_flow d from to raw = RErr NoCashAccounts) /\
  (forall start end_ names, get_report_dates from to = RRows (start, end_) ->
     resolve_cash_names d raw = names -> names <> [] ->
     exists body,
       generate_cash_flow d from to raw =
         RRows (body ++ [("Net Cash"%string,
                          fold_left pf_add (map (fun r => snd (fst r)) body) pf0,
                          fold_left pf_add (map snd body) pf0)]) /\
       (forall n i o, In (n, i, o) body <->
          In n names /\ cash_lines d n start end_ <> [] /\
          i = coalesce0 (sql_sum (map (fun r => t_debit (fst (fst r))) (cash_lines d n start end_))) /\
          o = coalesce0 (sql_sum (map (fun r => t_credit (fst (fst r))) (cash_lines d n start end_)))) /\
       NoDup (map (fun r => fst (fst r)) body) /\
       StronglySorted (fun x y => str_le x y = true) (map (fun r => fst (fst r)) body)).
Proof.
  split; [|split; [|split]].
  - intros H; unfold resolve_cash_names; rewrite H; vm_compute; reflexivity.
  - intros n; unfold auto_cash_names; rewrite in_map_iff; split.
    + intros (a & Ha & Hin); apply filter_In in Hin as [Hin Hk].
      exists a; rewrite <- Ha; repeat split; assumption.
    + intros (a & Hin & Ha & Hk); exists a; split; [exact Ha|].
      apply filter_In; rewrite Ha; split; assumption.
  - intros start end_ Hd Hr; unfold generate_cash_flow; rewrite Hd, Hr; reflexivity.
  - intros start end_ names Hd Hr Hne; unfold generate_cash_flow; rewrite Hd, Hr.
    destruct names as [|n0 ns]; [contradiction|].
    rewrite cash_table_split.
    exists (map (fun r => (fst (fst r), coalesce0 (snd (fst r)), coalesce0 (snd r)))
                (cash_rows d (n0 :: ns) start end_)).
    split; [rewrite !map_map; reflexivity|].
    assert (Hnames : map (fun r => fst (fst r))
                       (map (fun r => (fst (fst r), coalesce0 (snd (fst r)), coalesce0 (snd r)))
                            (cash_rows d (n0 :: ns) start end_)) =
                     group_names (map (fun r => acc_name (snd (fst r)))
                       (filter (fun r => existsb (String.eqb (acc_name (snd (fst r)))) (n0 :: ns) &&
                                         str_le start (v_date (snd r)) && str_le (v_date (snd r)) end_)
                               (joined d)))).
    { unfold cash_rows; rewrite !map_map; cbn [fst]; apply map_id. }
    split; [|rewrite Hnames; split; [apply group_names_nodup|apply group_names_sorted]].
    intros n i o; rewrite in_map_iff; unfold cash_rows; split.
    + intros ([[n' i'] o'] & Heq & Hin); apply in_map_iff in Hin as (m & Hm & Hin).
      injection Hm; intros Ho Hi Hn'; subst n' i' o'; simpl in Heq.
      injection Heq; intros <- <- <-.
      apply cash_rows_in in Hin as [Hmn Hne']; split; [exact Hmn|split; [exact Hne'|]].
      rewrite (filter_cash_rows _ m start end_ _ Hmn); split; reflexivity.
    + intros (Hn & Hne' & -> & ->).
      eexists; split; [|apply in_map_iff; exists n; split;
                          [reflexivity|apply cash_rows_in; split; assumption]].
      simpl; rewrite (filter_cash_rows _ n start end_ _ Hn); reflexivity.
Qed.

Lemma C8_witness :
  exists body,
    generate_cash_flow scenario_d_db "2024-01-01" "2024-12-31" "" =
      RRows (body ++ [("Net Cash"%string, fold_left pf_add (map (fun r => snd (fst r)) body) pf0,
                       fold_left pf_add (map snd body) pf0)]) /\
    In "Cash"%string (map (fun r => fst (fst r)) body).
Proof.
  destruct (proj2 (proj2 (proj2 (C8_cash_flow scenario_d_db "2024-01-01" "2024-12-31" ""))))
    with (start := "2024-01-01"%string) (end_ := "2024-12-31"%string)
         (names := resolve_cash_names scenario_d_db "")
    as (body & H & Hin & _ & _); [vm_compute; reflexivity|reflexivity|vm_compute; discriminate|].
  exists body; split; [exact H|].
  refine (in_map (fun r => fst (fst r)) body ("Cash"%string, _, _) (proj2 (Hin _ _ _) _)).
  split; [vm_compute; left; reflexivity|split; [vm_compute; discriminate|split; reflexivity]].
Defined.

Lemma filter_filter_and {A} (p q : A -> bool) (l : list A) :
  filter p (filter q l) = filter (fun x => q x && p x) l.
Proof.
  induction l as [|x l IH]; simpl; [reflexivity|].
  destruct (q x); simpl; [destruct (p x); simpl; rewrite IH; reflexivity|exact IH].
Qed.

Lemma grouped_sum_in (rows : list (tx * account * voucher)) (term : tx -> pyfloat)
    (n : string) (s : option pyfloat) :
  In (n, s) (grouped_sum rows term) <->
  filter (fun r => String.eqb (acc_name (snd (fst r))) n) rows <> [] /\
  s = sql_sum (map (fun r => term (fst (fst r)))
                   (filter (fun r => String.eqb (acc_name (snd (fst r))) n) rows)).
Proof.
  unfold grouped_sum; rewrite in_map_iff; split.
  - intros (m & Hm & Hin); injection Hm; intros <- <-; split; [|reflexivity].
    apply in_group_names, in_map_iff in Hin as (r & Hr & Hin).
    intros Hnil; assert (Hf : In r (filter (fun r => String.eqb (acc_name (snd (fst r))) m) rows))
      by (apply filter_In; split; [exact Hin|rewrite Hr; apply String.eqb_refl]).
    rewrite Hnil in Hf; exact Hf.
  - intros [Hne ->]; exists n; split; [reflexivity|].
    destruct (filter _ rows) as [|r rs] eqn:Ef; [contradiction|].
    assert (Hr : In r (filter (fun r => String.eqb (acc_name (snd (fst r))) n) rows))
      by (rewrite Ef; left; reflexivity).
    apply filter_In in Hr as [Hr Hn]; apply String.eqb_eq in Hn.
    apply in_group_names, in_map_iff; exists r; split; assumption.
Qed.

Lemma bs_rows_in (d : db) (ty : acct_type) (end_ : string) (term : tx -> pyfloat)
    (n : string) (s : option pyfloat) :
  In (n, s) (grouped_sum (filter (fun r => type_eqb (acc_type (snd (fst r))) ty &&
                                           str_le (v_date (snd r)) end_) (joined d)) term) <->
  bs_lines d ty n end_ <> [] /\
  s = sql_sum (map (fun r => term (fst (fst r))) (bs_lines d ty n end_)).
Proof. rewrite grouped_sum_in, filter_filter_and; reflexivity. Qed.

Lemma row_in_map (G : list (string * option pyfloat)) (f : option pyfloat -> pyfloat * pyfloat)
    (n : string) (x y : pyfloat) :
  In (n, x, y) (map (fun r => (fst r, fst (f (snd r)), snd (f (snd r)))) G) <->
  exists s, In (n, s) G /\ x = fst (f s) /\ y = snd (f s).
Proof.
  rewrite in_map_iff; split.
  - intros ([m s] & Hm & Hin); injection Hm; intros <- <- <-; exists s; auto.
  - intros (s & Hin & -> & ->); exists (n, s); auto.
Qed.

(** C7.  The balance sheet is cumulative from inception: for valid dates
    with end date [end_], the report is the asset rows followed by the
    liability rows; an asset row [(n, v, 0)] exists for each name [n] of an
    Asset account with a line dated on or before [end_], and [v] is the
    [SUM] of debit - credit over those lines (credit - debit for a
    liability row [(n, 0, v)]), read back with [or 0]; the start date plays
    no part. *)
Theorem C7_balance_sheet_cumulative (d : db) (from to : string) :
  (forall start end_, get_report_dates from to = RRows (start, end_) ->
   exists assets liabilities,
     generate_bs d from to = RRows (assets ++ liabilities) /\
     (forall n v c, In (n, v, c) assets <->
        bs_lines d Asset n end_ <> [] /\ c = pf0 /\
        v = coalesce0 (sql_sum (map (fun r => pf_sub (t_debit (fst (fst r))) (t_credit (fst (fst r))))
                                    (bs_lines d Asset n end_)))) /\
     (forall n c v, In (n, c, v) liabilities <->
        bs_lines d Liability n end_ <> [] /\ c = pf0 /\
        v = coalesce0 (sql_sum (map (fun r => pf_sub (t_credit (fst (fst r))) (t_debit (fst (fst r))))
                                    (bs_lines d Liability n end_))))) /\
  (forall from' start start' end_, get_report_dates from to = RRows (start, end_) ->
     get_report_dates from' to = RRows (start', end_) ->
     generate_bs d from' to = generate_bs d from to).
Proof.
  split.
  - intros start end_ Hd.
    exists (map (fun r => (fst r, coalesce0 (snd r), pf0)) (bs_asset_rows d end_)),
           (map (fun r => (fst r, pf0, coalesce0 (snd r))) (bs_liability_rows d end_)).
    split; [unfold generate_bs; rewrite Hd; reflexivity|split].
    + intros n v c.
      rewrite (row_in_map _ (fun s => (coalesce0 s, pf0))); unfold bs_asset_rows; split.
      * intros (s & Hin & -> & ->); apply bs_rows_in in Hin as [Hne ->]; auto.
      * intros (Hne & -> & ->); eexists; split; [apply bs_rows_in; split; [exact Hne|reflexivity]|].
        split; reflexivity.
    + intros n c v.
      rewrite (row_in_map _ (fun s => (pf0, coalesce0 s))); unfold bs_liability_rows; split.
      * intros (s & Hin & -> & ->); apply bs_rows_in in Hin as [Hne ->]; auto.
      * intros (Hne & -> & ->); eexists; split; [apply bs_rows_in; split; [exact Hne|reflexivity]|].
        split; reflexivity.
  - intros from' start start' end_ H1 H2; unfold generate_bs; rewrite H1, H2; reflexivity.
Qed.

Lemma C7_witness :
  generate_bs scenario_d_db "2024-06-01" "2024-12-31" = generate_bs scenario_d_db "2024-01-01" "2024-12-31".
Proof.
  apply (proj2 (C7_balance_sheet_cumulative scenario_d_db "2024-01-01" "2024-12-31")
           "2024-06-01"%string "2024-01-01"%string "2024-06-01"%string "2024-12-31"%string);
    vm_compute; reflexivity.
Defined.

Lemma str_lt_cases (a b : string) :
  str_lt a b = true \/ a = b \/ str_lt b a = true.
Proof.
  unfold str_lt, String.ltb; rewrite (String.compare_antisym b a).
  destruct (String.compare a b) eqn:E; simpl; auto.
  right; left; apply String.compare_eq_iff, E.
Qed.

Lemma gl_key_le_total (x y : tx * voucher) : gl_key_le x y = false -> gl_key_le y x = true.
Proof.
  destruct x as [t1 v1], y as [t2 v2]; unfold gl_key_le; intros H.
  apply orb_false_iff in H as [H1 H2].
  destruct (str_lt_cases (v_date v1) (v_date v2)) as [L|[E|L]].
  - rewrite L in H1; discriminate.
  - rewrite E, String.eqb_refl in *; simpl in *.
    apply orb_false_iff in H2 as [H2 H3]; apply Z.ltb_ge in H2.
    destruct (Z.eqb_spec (v_id v1) (v_id v2)) as [Ei|Ni].
    + simpl in H3; apply Z.leb_gt in H3; rewrite Ei, Z.eqb_refl.
      simpl; rewrite Z.ltb_irrefl, H1; simpl; apply Z.leb_le; lia.
    + rewrite H1; simpl; apply orb_true_iff; left; apply Z.ltb_lt; lia.
  - rewrite L; reflexivity.
Qed.


Lemma gl_walk_length (ty : acct_type) (b : pyfloat) (L : list (tx * voucher)) :
  List.length (gl_walk ty b L) = List.length L.
Proof.
  revert b; induction L as [|[t v] L IH]; intros b; simpl; [reflexivity|]; rewrite IH; reflexivity.
Qed.

Lemma gl_walk_nth (ty : acct_type) (b : pyfloat) (L : list (tx * voucher)) (i : nat) (t : tx) (v : voucher) :
  nth_error L i = Some (t, v) ->
  exists bprev bal,
    nth_error (b :: map snd (gl_walk ty b L)) i = Some bprev /\
    nth_error (gl_walk ty b L) i = Some (v_date v, v_description v, t_debit t, t_credit t, bal) /\
    bal = pf_add bprev (natural_delta ty (t_debit t) (t_credit t)).
Proof.
  revert b i; induction L as [|[t0 v0] L IH]; intros b i H; [destruct i; discriminate|].
  destruct i as [|i]; simpl in H.
  - injection H; intros -> ->; do 2 eexists; split; [reflexivity|split; reflexivity].
  - destruct (IH (pf_add b (natural_delta ty (t_debit t0) (t_credit t0))) i H)
      as (bprev & bal & H1 & H2 & H3).
    exists bprev, bal; split; [|split; [exact H2|exact H3]].
    destruct i as [|i]; simpl in *; exact H1.
Qed.

Lemma last_cons_default {A} (x d : A) (l : list A) : last (x :: l) d = last l x.
Proof.
  revert x d; induction l as [|y l IH]; intros x d; [reflexivity|].
  change (last (y :: l) d = last (y :: l) x); rewrite (IH y d), (IH y x); reflexivity.
Qed.

Lemma gl_walk_last_fold (ty : acct_type) (b : pyfloat) (L : list (tx * voucher)) :
  last (map snd (gl_walk ty b L)) b =
  fold_left (fun b r => pf_add b (natural_delta ty (t_debit (fst r)) (t_credit (fst r)))) L b.
Proof.
  revert b; induction L as [|[t v] L IH]; intros b; [reflexivity|].
  cbn [gl_walk map fold_left fst]; rewrite last_cons_default; apply IH.
Qed.

(** C5.  The general ledger of an account over valid dates [start, end_]:
    the report is the walk of the account's lines dated in the range, in
    the order of [(date, voucher id, line id)], from the seed
    [round(opening, 2)], where the opening is the [SUM] of the natural
    deltas of the account's lines dated strictly before [start]; each
    balance is the previous one (the seed first) plus the line's natural
    delta, so the last balance is the seed with the deltas in range added
    one by one.  (The sum of the deltas is not always the last balance
    minus the opening: see [general_ledger_infinite_opening].) *)
Theorem C5_general_ledger (d : db) (from to acct start end_ : string) (a : account)
    (L : list (tx * voucher)) (opening seed : pyfloat) (rows : list gl_row)
    (Hd : get_report_dates from to = RRows (start, end_))
    (Hn : py_strip acct <> ""%string)
    (Ha : lookup_account d (py_strip acct) = Some a)
    (HL : L = gl_lines d (acc_id a) start end_)
    (Ho : opening = gl_opening d (acc_id a) (acc_type a) start)
    (Hs : seed = py_round2 opening)
    (Hr : rows = gl_walk (acc_type a) seed L) :
  generate_general_ledger d from to acct = RRows rows /\
  Sorted (fun x y => gl_key_le x y = true) L /\
  Permutation (filter (fun r => Z.eqb (t_account_id (fst r)) (acc_id a) &&
                                str_le start (v_date (snd r)) && str_le (v_date (snd r)) end_)
                      (joined_v d)) L /\
  (forall r, In r (gl_before d (acc_id a) start) <->
     In r (joined_v d) /\ t_account_id (fst r) = acc_id a /\ str_lt (v_date (snd r)) start = true) /\
  List.length rows = List.length L /\
  (forall i t v, nth_error L i = Some (t, v) ->
     exists bprev bal,
       nth_error (seed :: map snd rows) i = Some bprev /\
       nth_error rows i = Some (v_date v, v_description v, t_debit t, t_credit t, bal) /\
       bal = pf_add bprev (natural_delta (acc_type a) (t_debit t) (t_credit t))) /\
  last (map snd rows) seed =
  fold_left (fun b r => pf_add b (natural_delta (acc_type a) (t_debit (fst r)) (t_credit (fst r)))) L seed.
Proof.
  split; [|split; [|split; [|split; [|split; [|split]]]]].
  - unfold generate_general_ledger; rewrite Hd; cbv zeta.
    destruct (py_strip acct) as [|c rest] eqn:E; [contradiction|].
    rewrite Ha; subst; reflexivity.
  - subst L; apply (sort_by_sorted gl_key_le gl_key_le_total).
  - subst L; apply sort_by_perm.
  - intros r; unfold gl_before; rewrite filter_In, andb_true_iff, Z.eqb_eq; tauto.
  - subst rows; apply gl_walk_length.
  - intros i t v H; subst rows; exact (gl_walk_nth _ _ _ i t v H).
  - subst rows; apply gl_walk_last_fold.
Qed.

Lemma C5_witness :
  generate_general_ledger scenario_d_db "2024-01-15" "2024-12-31" "Cash" =
  RRows (gl_walk Asset (py_round2 (gl_opening scenario_d_db 1 Asset "2024-01-15"))
                 (gl_lines scenario_d_db 1 "2024-01-15" "2024-12-31")).
Proof.
  exact (proj1 (C5_general_ledger scenario_d_db "2024-01-15" "2024-12-31" "Cash"
                  "2024-01-15" "2024-12-31" (mk_account 1 "Cash" Asset)
                  _ _ _ _ (eq_refl _) (ltac:(discriminate)) (eq_refl _)
                  eq_refl eq_refl eq_refl eq_refl)).
Defined.

(** The failing input of the running-balance equation: Cash debit inf on
    2024-01-01 and debit 10 on 2024-02-01.  From 2024-02-01 the opening is
    inf, the one row's balance is inf, the delta in range is 10, but the
    balance minus the opening is NaN. *)
Lemma general_ledger_infinite_opening :
  gl_opening infinite_db 1 Asset "2024-02-01" = PInf /\
  match generate_general_ledger infinite_db "2024-02-01" "2024-12-31" "Cash" with
  | RRows [(_, _, dv, cv, b)] =>
      pf_eqb (natural_delta Asset dv cv) (Fin 10) = true /\ b = PInf /\ pf_sub b PInf = NaN
  | _ => False
  end.
Proof. split; vm_compute; [reflexivity|split; [reflexivity|split; reflexivity]]. Qed.

(* ================================================================== *)
(** ** Further properties of the screens and the schema *)

(* ------------------------------------------------------------------ *)
Lemma existsb_vid_map (f : voucher -> voucher) (vs : list voucher) (x : Z) :
  (forall v, v_id (f v) = v_id v) ->
  existsb (fun v => Z.eqb (v_id v) x) (map f vs) = existsb (fun v => Z.eqb (v_id v) x) vs.
Proof. intros H; induction vs as [|v vs IH]; simpl; [reflexivity|]; rewrite H, IH; reflexivity. Qed.

Lemma existsb_vid_filter (vs : list voucher) (x vid : Z) :
  x <> vid -> existsb (fun v => Z.eqb (v_id v) x) vs = true ->
  existsb (fun v => Z.eqb (v_id v) x) (filter (fun v => negb (Z.eqb (v_id v) vid)) vs) = true.
Proof.
  intros Hne H; apply existsb_exists in H as (v & Hv & E); apply Z.eqb_eq in E.
  apply existsb_exists; exists v; split; [apply filter_In; split; [exact Hv|]|apply Z.eqb_eq, E].
  apply negb_true_iff, Z.eqb_neq; rewrite E; exact Hne.
Qed.

Lemma exec_stmt_refs (s : stmt) (d d' : db) :
  refs_ok d -> exec_stmt s d = Ok d' -> refs_ok d'.
Proof.
  unfold refs_ok, voucher_exists, account_exists; intros Hr Hex; rewrite Forall_forall in *.
  destruct s as [date desc|vid date desc|vid p| |vid|vid aid dv cv|tid vid aid dv cv|tid|vid|name ty|name];
    simpl in Hex.
  - injection Hex as <-; simpl; intros t Ht; destruct (Hr t Ht) as [H1 H2].
    rewrite existsb_app, H1; split; [reflexivity|exact H2].
  - injection Hex as <-; simpl; intros t Ht; rewrite existsb_vid_map; [exact (Hr t Ht)|].
    intros v; destruct (Z.eqb_spec (v_id v) vid); [subst; reflexivity|reflexivity].
  - destruct (negb (voucher_exists d vid)); [injection Hex as <-; exact Hr|].
    assert (Hm : forall t, In t (transactions d) ->
              existsb (fun v => Z.eqb (v_id v) (t_voucher_id t)) (map (set_posted p vid) (vouchers d)) = true
              /\ existsb (fun a => Z.eqb (acc_id a) (t_account_id t)) (accounts d) = true).
    { intros t Ht; rewrite existsb_vid_map; [exact (Hr t Ht)|].
      intros v; unfold set_posted; destruct (Z.eqb (v_id v) vid); reflexivity. }
    destruct (Z.eqb p 1); [destruct (post_balanced_check d vid); [discriminate|]|
      destruct (Z.eqb p 0); [|discriminate]]; injection Hex as <-; exact Hm.
  - destruct (find _ (vouchers d)) as [v|]; [destruct (if Z.eqb (recomputed_posted d (v_id v)) 1 then post_balanced_check d (v_id v) else None);
                                          discriminate|].
    injection Hex as <-; simpl; intros t Ht; rewrite existsb_vid_map; [exact (Hr t Ht)|].
    intros v; unfold set_posted; rewrite Z.eqb_refl; reflexivity.
  - injection Hex as <-; simpl; intros t Ht; apply filter_In in Ht as [Ht Hk].
    apply negb_true_iff, Z.eqb_neq in Hk; destruct (Hr t Ht) as [H1 H2].
    split; [apply existsb_vid_filter; assumption|exact H2].
  - destruct (Z.eqb (posted_of d vid) 1); [discriminate|].
    destruct (tx_row_ok d vid aid dv cv) eqn:Ek; [|discriminate].
    injection Hex as <-; simpl; intros t Ht; apply in_app_or in Ht as [Ht|[<-|[]]];
      [exact (Hr t Ht)|].
    unfold tx_row_ok in Ek; simpl; apply andb_true_iff in Ek as [Ek H2];
      apply andb_true_iff in Ek as [_ H1]; split; assumption.
  - destruct (filter _ (transactions d)) as [|o os]; [injection Hex as <-; exact Hr|].
    destruct (_ || _); [discriminate|].
    destruct (tx_row_ok d vid aid dv cv) eqn:Ek; [|discriminate].
    injection Hex as <-; simpl; intros t Ht; apply in_map_iff in Ht as (t0 & <- & Ht0).
    destruct (Z.eqb (t_id t0) tid); [|exact (Hr t0 Ht0)].
    unfold tx_row_ok in Ek; simpl; apply andb_true_iff in Ek as [Ek H2];
      apply andb_true_iff in Ek as [_ H1]; split; assumption.
  - destruct (existsb _ _); [discriminate|].
    injection Hex as <-; simpl; intros t Ht; apply filter_In in Ht as [Ht _]; exact (Hr t Ht).
  - destruct (lines_of d vid) as [|l0 ls0]; [injection Hex as <-; exact Hr|].
    destruct (Z.eqb (posted_of d vid) 1); [discriminate|].
    injection Hex as <-; simpl; intros t Ht; apply filter_In in Ht as [Ht _]; exact (Hr t Ht).
  - destruct (existsb _ (accounts d)); [discriminate|].
    injection Hex as <-; simpl; intros t Ht; destruct (Hr t Ht) as [H1 H2].
    rewrite existsb_app, H2; split; [exact H1|reflexivity].
  - destruct (existsb _ (transactions d)) eqn:Eu; [discriminate|].
    injection Hex as <-; simpl; intros t Ht; destruct (Hr t Ht) as [H1 H2]; split; [exact H1|].
    apply existsb_exists in H2 as (a & Ha & Ea); apply existsb_exists; exists a; split; [|exact Ea].
    apply filter_In; split; [exact Ha|].
    destruct (String.eqb_spec (acc_name a) name) as [En|En]; [|reflexivity].
    exfalso; assert (Hx : existsb (fun t => existsb (fun a => Z.eqb (acc_id a) (t_account_id t))
                             (filter (fun a => String.eqb (acc_name a) name) (accounts d)))
                             (transactions d) = true).
    { apply existsb_exists; exists t; split; [exact Ht|].
      apply existsb_exists; exists a; split; [apply filter_In; split; [exact Ha|apply String.eqb_eq, En]|exact Ea]. }
    rewrite Hx in Eu; discriminate.
Qed.

Lemma exec_all_refs (ss : list stmt) (d d' : db) :
  refs_ok d -> exec_all ss d = Ok d' -> refs_ok d'.
Proof.
  revert d; induction ss as [|s ss IH]; intros d Hr Hex; simpl in Hex.
  - injection Hex as <-; exact Hr.
  - destruct (exec_stmt s d) as [d1|e] eqn:E; simpl in Hex; [|discriminate].
    exact (IH d1 (exec_stmt_refs s d d1 Hr E) Hex).
Qed.

(* ------------------------------------------------------------------ *)
Lemma filter_set_posted_other (p vid : Z) (vs : list voucher) :
  filter (fun v => negb (Z.eqb (v_id v) vid)) (map (set_posted p vid) vs) =
  filter (fun v => negb (Z.eqb (v_id v) vid)) vs.
Proof.
  induction vs as [|v vs IH]; [reflexivity|]; cbn [map filter].
  destruct (Z.eqb_spec (v_id v) vid) as [E|E].
  - unfold set_posted at 1; rewrite E, Z.eqb_refl; cbn [v_id]; rewrite Z.eqb_refl; exact IH.
  - assert (Hs : set_posted p vid v = v) by (unfold set_posted; rewrite (proj2 (Z.eqb_neq _ _) E); reflexivity).
    rewrite Hs, (proj2 (Z.eqb_neq _ _) E); cbn [negb]; rewrite IH; reflexivity.
Qed.

Lemma find_filter_other (vs : list voucher) (x vid : Z) :
  x <> vid ->
  find (fun v => Z.eqb (v_id v) x) (filter (fun v => negb (Z.eqb (v_id v) vid)) vs) =
  find (fun v => Z.eqb (v_id v) x) vs.
Proof.
  intros Hne; induction vs as [|v vs IH]; [reflexivity|]; cbn [filter].
  destruct (Z.eqb_spec (v_id v) vid) as [E|E]; cbn [negb find].
  - rewrite IH, E, (proj2 (Z.eqb_neq vid x)) by congruence; reflexivity.
  - rewrite IH; reflexivity.
Qed.


Lemma delete_voucher_exec (d : db) (vid : Z) :
  exec_all [UpdPosted vid 0; DelVoucher vid] d = Ok (voucher_deleted d vid).
Proof.
  cbn [exec_all exec_stmt]; destruct (voucher_exists d vid); cbn [negb bind_r].
  - cbn [Z.eqb exec_stmt bind_r]; unfold with_vouchers, voucher_deleted;
      cbn [accounts vouchers transactions seq_vouchers seq_transactions seq_accounts].
    rewrite filter_set_posted_other; reflexivity.
  - reflexivity.
Qed.

Lemma delete_voucher_all_posted (d : db) (vid : Z) :
  all_posted d -> all_posted (voucher_deleted d vid).
Proof.
  intros Hp t Ht; cbn [transactions voucher_deleted] in Ht; apply filter_In in Ht as [Ht Hk].
  apply negb_true_iff, Z.eqb_neq in Hk.
  unfold posted_of; cbn [vouchers voucher_deleted]; rewrite find_filter_other by exact Hk.
  apply Hp, Ht.
Qed.

(** X2. Deleting a selected voucher with confirmation always succeeds: it
    removes the voucher and all its lines, posted or not, and keeps the
    ledger invariant, the line references and the fact that every voucher
    with lines is posted. *)
Theorem delete_selected_voucher_removes (d : db) (vid : Z) :
  let d' := mk_db (accounts d) (filter (fun v => negb (Z.eqb (v_id v) vid)) (vouchers d))
                  (filter (fun t => negb (Z.eqb (t_voucher_id t) vid)) (transactions d))
                  (seq_vouchers d) (seq_transactions d) (seq_accounts d) in
  delete_selected_voucher d (Some vid) true = (DelDone, d') /\
  (ledger_inv d -> ledger_inv d') /\ (refs_ok d -> refs_ok d') /\ (all_posted d -> all_posted d').
Proof.
  intros d'; pose proof (delete_voucher_exec d vid) as Hx; fold d' in Hx.
  unfold delete_selected_voucher; cbn [negb]; unfold with_conn; rewrite Hx.
  split; [reflexivity|].
  split; [intros H; exact (exec_all_inv _ _ _ H Hx)|].
  split; [intros H; exact (exec_all_refs _ _ _ H Hx)|].
  apply delete_voucher_all_posted.
Qed.

(* accounts *)

Lemma acct_type_of_string_nonempty (s : string) (t : acct_type) :
  acct_type_of_string s = Some t -> s <> ""%string.
Proof. intros H E; subst; discriminate. Qed.

Lemma existsb_lower_false (l : list account) (name : string) :
  (forall a, In a l -> sql_lower (acc_name a) <> sql_lower name) ->
  existsb (fun a => String.eqb (sql_lower (acc_name a)) (sql_lower name)) l = false.
Proof.
  intros H; apply not_true_iff_false; intros Hx; apply existsb_exists in Hx as (a & Ha & Ea).
  apply String.eqb_eq in Ea; exact (H a Ha Ea).
Qed.

Lemma find_name_app_new (l : list account) (a' : account) :
  (forall a, In a l -> acc_name a <> acc_name a') ->
  find (fun a => String.eqb (acc_name a) (acc_name a')) (l ++ [a']) = Some a'.
Proof.
  induction l as [|a l IH]; intros H; simpl; [rewrite String.eqb_refl; reflexivity|].
  rewrite (proj2 (String.eqb_neq _ _) (H a (or_introl eq_refl))).
  apply IH; intros b Hb; apply H; right; exact Hb.
Qed.

(** X3. [add_account()] refuses blank fields and a name already present up
    to [LOWER]; otherwise, with one of the four type names, it appends an
    account with the stripped name and that type, whose id is above every
    id in the table and above the last id handed out (AUTOINCREMENT), and
    leaves vouchers and lines unchanged; the new name then looks up to it. *)
Theorem add_account_spec (d : db) (name_text type_text : string) :
  let name := py_strip name_text in
  let ty := py_strip type_text in
  ((name = ""%string \/ ty = ""%string) -> add_account d name_text type_text = (AccFieldsRequired, d)) /\
  (name <> ""%string -> ty <> ""%string ->
   (exists a, In a (accounts d) /\ sql_lower (acc_name a) = sql_lower name) ->
   add_account d name_text type_text = (AccNameTaken, d)) /\
  (forall t, name <> ""%string -> acct_type_of_string ty = Some t ->
   (forall a, In a (accounts d) -> sql_lower (acc_name a) <> sql_lower name) ->
   exists d' a', add_account d name_text type_text = (AccDone, d') /\
     accounts d' = accounts d ++ [a'] /\ acc_name a' = name /\ acc_type a' = t /\
     (forall b, In b (accounts d) -> (acc_id b < acc_id a')%Z) /\
     (seq_accounts d < acc_id a')%Z /\ seq_accounts d' = acc_id a' /\
     vouchers d' = vouchers d /\ transactions d' = transactions d /\
     lookup_account d' name = Some a').
Proof.
  intros name ty; unfold add_account; fold name ty.
  split; [|split].
  - intros [E|E]; rewrite E; [reflexivity|].
    rewrite orb_true_r; reflexivity.
  - intros Hn Ht (a & Ha & Ea).
    rewrite (proj2 (String.eqb_neq _ _) Hn), (proj2 (String.eqb_neq _ _) Ht); cbn [orb].
    replace (existsb _ (accounts d)) with true; [reflexivity|].
    symmetry; apply existsb_exists; exists a; split; [exact Ha|apply String.eqb_eq, Ea].
  - intros t Hn Ht Hfree.
    rewrite (proj2 (String.eqb_neq _ _) Hn),
            (proj2 (String.eqb_neq _ _) (acct_type_of_string_nonempty _ _ Ht)); cbn [orb].
    rewrite existsb_lower_false by exact Hfree; rewrite Ht; cbn [exec_stmt].
    replace (existsb (fun a => String.eqb (acc_name a) name) (accounts d)) with false.
    + eexists; eexists; split; [reflexivity|]; cbn [accounts vouchers transactions seq_accounts acc_id acc_name acc_type].
      refine (conj eq_refl (conj eq_refl (conj eq_refl (conj _ (conj _ (conj eq_refl
               (conj eq_refl (conj eq_refl _)))))))).
      * intros b Hb; pose proof (fold_max_in (map acc_id (accounts d)) 0 (acc_id b) (in_map _ _ _ Hb)).
        unfold max_id; cbn [acc_id]; lia.
      * cbn [acc_id]; lia.
      * unfold lookup_account; cbn [accounts]; apply (find_name_app_new _ (mk_account _ name t)).
        intros b Hb E; apply (Hfree b Hb); rewrite E; reflexivity.
    + symmetry; apply not_true_iff_false; intros Hx; apply existsb_exists in Hx as (b & Hb & Eb).
      apply String.eqb_eq in Eb; apply (Hfree b Hb); rewrite Eb; reflexivity.
Qed.

Lemma NoDup_rename (l : list account) (sel name : string) (t : acct_type) :
  NoDup (map (fun a => sql_lower (acc_name a)) l) ->
  (forall a, In a l -> sql_lower (acc_name a) = sql_lower name -> acc_name a = sel) ->
  NoDup (map (fun a => sql_lower (acc_name a))
             (map (fun a => if String.eqb (acc_name a) sel then mk_account (acc_id a) name t else a) l)).
Proof.
  induction l as [|a l IH]; intros Hnd Hf; [constructor|]; cbn [map] in *.
  inversion Hnd as [|? ? Hnotin Hnd']; subst.
  constructor; [|apply IH; [exact Hnd'|intros b Hb; apply Hf; right; exact Hb]].
  rewrite map_map; intros Hin; apply in_map_iff in Hin as (b & Eb & Hb).
  destruct (String.eqb_spec (acc_name b) sel) as [Sb|Sb];
    destruct (String.eqb_spec (acc_name a) sel) as [Sa|Sa]; cbn [acc_name] in Eb.
  - apply Hnotin, in_map_iff; exists b; split; [rewrite Sa, Sb; reflexivity|exact Hb].
  - apply Sa, Hf; [left; reflexivity|symmetry; exact Eb].
  - apply Sb, Hf; [right; exact Hb|exact Eb].
  - apply Hnotin, in_map_iff; exists b; split; [exact Eb|exact Hb].
Qed.

Lemma map_acc_id_rename (l : list account) (sel name : string) (t : acct_type) :
  map acc_id (map (fun a => if String.eqb (acc_name a) sel then mk_account (acc_id a) name t else a) l) =
  map acc_id l.
Proof.
  induction l as [|a l IH]; [reflexivity|]; cbn [map]; rewrite IH.
  destruct (String.eqb (acc_name a) sel); reflexivity.
Qed.

Lemma map_rename_none (l : list account) (sel name : string) (t : acct_type) :
  existsb (fun a => String.eqb (acc_name a) sel) l = false ->
  map (fun a => if String.eqb (acc_name a) sel then mk_account (acc_id a) name t else a) l = l.
Proof.
  induction l as [|a l IH]; [reflexivity|]; cbn [existsb map].
  intros H; apply orb_false_iff in H as [H1 H2]; rewrite H1, IH by exact H2; reflexivity.
Qed.

Lemma upd_account_ok (d d' : db) (sel name : string) (ty : option acct_type) :
  upd_account d sel name ty = Ok d' ->
  exists t, (d' = d \/ ty = Some t /\
             d' = mk_db (map (fun a => if String.eqb (acc_name a) sel
                                        then mk_account (acc_id a) name t else a) (accounts d))
                        (vouchers d) (transactions d) (seq_vouchers d) (seq_transactions d)
                        (seq_accounts d)).
Proof.
  unfold upd_account; destruct (existsb _ (accounts d)); cbn [negb].
  - destruct ty as [t|]; [|discriminate].
    destruct (existsb _ (accounts d)); [discriminate|].
    intros H; injection H as <-; exists t; right; split; reflexivity.
  - intros H; injection H as <-; exists Asset; left; reflexivity.
Qed.

(** X4. Adding, updating and deleting accounts keep account ids distinct
    and account names distinct up to [LOWER]. *)
Theorem account_actions_keep_accounts_ok (d : db) (Hok : accounts_ok d) :
  (forall name_text type_text, accounts_ok (snd (add_account d name_text type_text))) /\
  (forall sel name_text type_text, accounts_ok (snd (update_account d sel name_text type_text))) /\
  (forall sel confirmed, accounts_ok (snd (delete_account d sel confirmed))).
Proof.
  destruct Hok as [Hid Hnm]; split; [|split].
  - intros n ty; unfold add_account.
    destruct (String.eqb _ "" || String.eqb _ ""); [split; assumption|].
    destruct (existsb _ (accounts d)) eqn:Ex; [split; assumption|].
    destruct (acct_type_of_string _) as [t|]; [|split; assumption].
    cbn [exec_stmt]; destruct (existsb (fun a => String.eqb (acc_name a) _) _); [split; assumption|].
    unfold accounts_ok; cbn [snd accounts]; split; rewrite map_app; apply NoDup_app; cbn [map];
      try (assumption || (constructor; [intros []|constructor])).
    + intros x Hx [<-|[]]; pose proof (fold_max_in _ 0%Z _ Hx); cbn [acc_id] in *; unfold max_id in *; lia.
    + intros x Hx [Ex'|[]]; cbn [acc_name] in Ex'; subst x.
      apply in_map_iff in Hx as (a & Ea & Ha).
      assert (Hc : existsb (fun a => String.eqb (sql_lower (acc_name a)) (sql_lower (py_strip n)))
                           (accounts d) = true)
        by (apply existsb_exists; exists a; split; [exact Ha|apply String.eqb_eq, Ea]).
      rewrite Hc in Ex; discriminate.
  - intros [sel|] n ty; unfold update_account; [|split; assumption].
    destruct (String.eqb sel ""); [split; assumption|].
    destruct (String.eqb _ "" || String.eqb _ ""); [split; assumption|].
    destruct (existsb _ (accounts d)) eqn:Ex; [split; assumption|].
    destruct (upd_account _ _ _ _) as [d'|e] eqn:Eu; [|split; assumption]; cbn [snd].
    apply upd_account_ok in Eu as (t & [->|[_ ->]]); [split; assumption|].
    unfold accounts_ok; cbn [accounts]; split; [rewrite map_acc_id_rename; exact Hid|].
    apply NoDup_rename; [exact Hnm|]; intros a Ha Ea.
    destruct (String.eqb_spec (acc_name a) sel) as [Es|Es]; [exact Es|exfalso].
    assert (Hc : existsb (fun a => String.eqb (sql_lower (acc_name a)) (sql_lower (py_strip n)) &&
                                  negb (String.eqb (acc_name a) sel)) (accounts d) = true).
    { apply existsb_exists; exists a; split; [exact Ha|].
      rewrite (proj2 (String.eqb_eq _ _) Ea), (proj2 (String.eqb_neq _ _) Es); reflexivity. }
    rewrite Hc in Ex; discriminate.
  - intros [sel|] c; unfold delete_account; [|split; assumption].
    destruct (String.eqb sel ""); [split; assumption|].
    destruct (negb c); [split; assumption|]; cbn [exec_stmt].
    destruct (existsb _ (transactions d)); [split; assumption|]; cbn [snd accounts].
    split; apply NoDup_map_filter; assumption.
Qed.

(** X5. Updating the selected account to a non-blank name that no other
    account has up to [LOWER], with one of the four type names, renames and
    retypes exactly the accounts named as the selection, keeping ids,
    vouchers and lines. *)
Theorem update_account_spec (d : db) (sel name_text type_text : string) (t : acct_type)
    (Hsel : sel <> ""%string) (Hname : py_strip name_text <> ""%string)
    (Hty : acct_type_of_string (py_strip type_text) = Some t)
    (Hfree : forall a, In a (accounts d) ->
             sql_lower (acc_name a) = sql_lower (py_strip name_text) -> acc_name a = sel) :
  exists d', update_account d (Some sel) name_text type_text = (AccDone, d') /\
    accounts d' = map (fun a => if String.eqb (acc_name a) sel
                                then mk_account (acc_id a) (py_strip name_text) t else a) (accounts d) /\
    vouchers d' = vouchers d /\ transactions d' = transactions d.
Proof.
  unfold update_account.
  rewrite (proj2 (String.eqb_neq _ _) Hsel), (proj2 (String.eqb_neq _ _) Hname),
          (proj2 (String.eqb_neq _ _) (acct_type_of_string_nonempty _ _ Hty)); cbn [orb].
  replace (existsb _ (accounts d)) with false.
  2:{ symmetry; apply not_true_iff_false; intros Hx; apply existsb_exists in Hx as (a & Ha & Ea).
      apply andb_true_iff in Ea as [E1 E2]; apply String.eqb_eq in E1.
      rewrite (Hfree a Ha E1), String.eqb_refl in E2; discriminate. }
  unfold upd_account; rewrite Hty.
  destruct (existsb (fun a => String.eqb (acc_name a) sel) (accounts d)) eqn:Es; cbn [negb].
  - replace (existsb _ (accounts d)) with false.
    + eexists; split; [reflexivity|]; repeat split.
    + symmetry; apply not_true_iff_false; intros Hx; apply existsb_exists in Hx as (a & Ha & Ea).
      apply andb_true_iff in Ea as [E1 E2]; apply negb_true_iff in E1; apply String.eqb_eq in E2.
      rewrite (Hfree a Ha (f_equal sql_lower E2)), String.eqb_refl in E1; discriminate.
  - exists d; split; [reflexivity|]; split; [|split; reflexivity].
    symmetry; apply map_rename_none, Es.
Qed.

(** X6. Deleting the selected account, confirmed, fails with "Account is used
    in transactions" exactly when a line references an account of that
    name; otherwise it removes the accounts of that name and keeps every
    line reference valid. *)
Theorem delete_account_spec (d : db) (sel : string) (Hsel : sel <> ""%string) :
  ((exists t a, In t (transactions d) /\ In a (accounts d) /\ acc_name a = sel /\
                acc_id a = t_account_id t) ->
   delete_account d (Some sel) true = (AccInUse, d)) /\
  ((forall t a, In t (transactions d) -> In a (accounts d) -> acc_name a = sel ->
                acc_id a <> t_account_id t) ->
   delete_account d (Some sel) true =
     (AccDone, mk_db (filter (fun a => negb (String.eqb (acc_name a) sel)) (accounts d))
                     (vouchers d) (transactions d) (seq_vouchers d) (seq_transactions d)
                     (seq_accounts d))) /\
  (refs_ok d -> refs_ok (snd (delete_account d (Some sel) true))).
Proof.
  unfold delete_account; rewrite (proj2 (String.eqb_neq _ _) Hsel); cbn [negb exec_stmt].
  split; [|split].
  - intros (t & a & Ht & Ha & En & Ei).
    replace (existsb _ (transactions d)) with true; [reflexivity|].
    symmetry; apply existsb_exists; exists t; split; [exact Ht|].
    apply existsb_exists; exists a; split; [|apply Z.eqb_eq, Ei].
    apply filter_In; split; [exact Ha|apply String.eqb_eq, En].
  - intros Hfree; replace (existsb _ (transactions d)) with false; [reflexivity|].
    symmetry; apply not_true_iff_false; intros Hx; apply existsb_exists in Hx as (t & Ht & Hx).
    apply existsb_exists in Hx as (a & Ha & Ea); apply filter_In in Ha as [Ha En].
    apply String.eqb_eq in En; apply Z.eqb_eq in Ea; exact (Hfree t a Ht Ha En Ea).
  - intros Hr; destruct (existsb _ (transactions d)) eqn:Eu; [exact Hr|].
    apply (exec_stmt_refs (DelAccount sel) d); [exact Hr|]; cbn [exec_stmt]; rewrite Eu; reflexivity.
Qed.

(* ------------------------------------------------------------------ *)
Lemma round_half_away_100_comp (x y : Q) :
  x == y -> round_half_away_100 x = round_half_away_100 y.
Proof.
  intros H; unfold round_half_away_100.
  replace (Qle_bool 0 x) with (Qle_bool 0 y)
    by (apply eq_true_iff_eq; rewrite !Qle_bool_iff, H; reflexivity).
  assert (H1 : x * 100 + (1 # 2) == y * 100 + (1 # 2)) by (rewrite H; reflexivity).
  assert (H2 : - x * 100 + (1 # 2) == - y * 100 + (1 # 2)) by (rewrite H; reflexivity).
  rewrite (Qfloor_comp _ _ H1), (Qfloor_comp _ _ H2); reflexivity.
Qed.

Lemma round_half_away_100_cents (z : Z) : round_half_away_100 (z # 100) = z.
Proof.
  unfold round_half_away_100; rewrite Qle_bool_0_cents.
  destruct (Z.leb_spec 0 z).
  - assert (H1 : (z # 100) * 100 + (1 # 2) == (z * 2 + 1) # 2) by (unfold Qeq; simpl; lia).
    rewrite (Qfloor_comp _ _ H1); unfold Qfloor; rewrite Z.div_add_l by lia; change (1 / 2)%Z with 0%Z; lia.
  - assert (H1 : - (z # 100) * 100 + (1 # 2) == (- z * 2 + 1) # 2) by (unfold Qeq; simpl; lia).
    rewrite (Qfloor_comp _ _ H1); unfold Qfloor; rewrite Z.div_add_l by lia.
    change (1 / 2)%Z with 0%Z; lia.
Qed.

Lemma sql_round2_fin_cents (x : pyfloat) (z : Z) :
  fin_cents x z -> sql_round2 x = Fin (z # 100).
Proof.
  intros (q & -> & Hq); simpl.
  rewrite (round_half_away_100_comp _ _ Hq), round_half_away_100_cents; reflexivity.
Qed.

Lemma in_voucher_groups (d : db) (g : voucher * list tx) :
  In g (voucher_groups d) <->
  In (fst g) (vouchers d) /\ snd g = lines_of d (v_id (fst g)) /\ snd g <> [].
Proof.
  unfold voucher_groups; rewrite in_flat_map; split.
  - intros (v & Hv & Hg); destruct (lines_of d (v_id v)) as [|l ls] eqn:E; [contradiction|].
    destruct Hg as [<-|[]]; cbn [fst snd]; split; [exact Hv|split; [symmetry; exact E|discriminate]].
  - destruct g as [v ls]; cbn [fst snd]; intros (Hv & -> & Hne); exists v; split; [exact Hv|].
    destruct (lines_of d (v_id v)); [contradiction|left; reflexivity].
Qed.

Lemma group_unbalanced_true (g : voucher * list tx) :
  group_unbalanced g = true ->
  exists x y, group_debit g = Some x /\ group_credit g = Some y /\
              pf_eqb (sql_round2 x) (sql_round2 y) = false.
Proof.
  unfold group_unbalanced, sql_ne, sql_round2_opt.
  destruct (group_debit g) as [x|], (group_credit g) as [y|]; cbn [option_map]; try discriminate.
  intros H; apply negb_true_iff in H; exists x, y; repeat split; assumption.
Qed.

Lemma posted_not_unbalanced (d : db) (v : voucher) :
  ledger_inv d -> In v (vouchers d) -> v_posted v = 1%Z ->
  group_unbalanced (v, lines_of d (v_id v)) = false.
Proof.
  intros Hinv Hv Hp; destruct (proj2 Hinv v Hv Hp) as [_ Hb].
  destruct (group_unbalanced _) eqn:E; [|reflexivity].
  apply group_unbalanced_true in E as (x & y & Ex & Ey & Ne).
  unfold group_debit, group_credit in Ex, Ey; cbn [snd] in Ex, Ey.
  rewrite Ex, Ey in Hb; cbn [coalesce0] in Hb; rewrite Hb in Ne; discriminate.
Qed.

Lemma Sorted_map_rel {A B} (R' : A -> A -> Prop) (R : B -> B -> Prop) (f : A -> B) (l : list A) :
  (forall x y, R' x y -> R (f x) (f y)) -> Sorted R' l -> Sorted R (map f l).
Proof.
  intros Hf; induction 1 as [|x l Hs IH Hh]; cbn [map]; constructor; [exact IH|].
  destruct Hh; cbn [map]; constructor; apply Hf; assumption.
Qed.

Lemma Zleb_total (x y : Z) : (x <=? y)%Z = false -> (y <=? x)%Z = true.
Proof. rewrite Z.leb_gt, Z.leb_le; lia. Qed.

Lemma unbalanced_rows_in (d : db) (r : Z * string * option pyfloat * option pyfloat) :
  In r (unbalanced_rows d) <->
  exists v, In v (vouchers d) /\ lines_of d (v_id v) <> [] /\
    sql_ne (sql_round2_opt (sql_sum (map t_debit (lines_of d (v_id v)))))
           (sql_round2_opt (sql_sum (map t_credit (lines_of d (v_id v))))) = true /\
    r = (v_id v, v_date v, sql_round2_opt (sql_sum (map t_debit (lines_of d (v_id v)))),
         sql_round2_opt (sql_sum (map t_credit (lines_of d (v_id v))))).
Proof.
  unfold unbalanced_rows; rewrite in_map_iff; split.
  - intros (g & <- & Hg); apply in_sort_by, filter_In in Hg as [Hg Hu].
    apply in_voucher_groups in Hg as (Hv & Hl & Hne); destruct g as [v ls]; cbn [fst snd] in *; subst ls.
    exists v; split; [exact Hv|split; [exact Hne|split; [exact Hu|reflexivity]]].
  - intros (v & Hv & Hne & Hu & ->); exists (v, lines_of d (v_id v)); split; [reflexivity|].
    apply in_sort_by, filter_In; split; [|exact Hu].
    apply in_voucher_groups; cbn [fst snd]; split; [exact Hv|split; [reflexivity|exact Hne]].
Qed.

Lemma voucher_groups_ids_nodup (d : db) :
  NoDup (map v_id (vouchers d)) -> NoDup (map (fun g => v_id (fst g)) (voucher_groups d)).
Proof.
  unfold voucher_groups; generalize (vouchers d) as vs.
  induction vs as [|v vs IH]; intros Hnd; cbn [flat_map map]; [constructor|].
  inversion Hnd as [|x xs Hnin Hnd' E]; subst.
  destruct (lines_of d (v_id v)) as [|l ls]; [exact (IH Hnd')|].
  cbn [app map fst]; constructor; [|exact (IH Hnd')].
  intros Hin; apply Hnin; apply in_map_iff in Hin as (g & Eg & Hg).
  apply in_flat_map in Hg as (w & Hw & Hg).
  destruct (lines_of d (v_id w)); [contradiction|].
  destruct Hg as [<-|[]]; cbn [fst] in Eg; rewrite <- Eg; apply in_map, Hw.
Qed.

Lemma Sorted_le_NoDup_lt {A} (k : A -> Z) (l : list A) :
  Sorted (fun r s => (k r <= k s)%Z) l -> NoDup (map k l) ->
  Sorted (fun r s => (k r < k s)%Z) l.
Proof.
  induction 1 as [|x l Hs IH Hh]; intros Hnd; constructor.
  - inversion Hnd; apply IH; assumption.
  - destruct Hh as [|y l' Hxy]; constructor.
    inversion Hnd as [|? ? Hnin]; cbn [map] in Hnin.
    assert (k x <> k y) by (intros E; apply Hnin; left; symmetry; exact E); lia.
Qed.

(** X7. The start-up query of [check_unbalanced_vouchers()] returns one row
    per voucher with lines whose rounded debit and credit sums differ, and
    only those; when voucher ids are unique (the primary key), the rows are
    in strictly ascending id order, so no voucher appears twice. *)
Theorem unbalanced_rows_spec (d : db) (Hk : NoDup (map v_id (vouchers d))) :
  (forall r, In r (unbalanced_rows d) <->
     exists v, In v (vouchers d) /\ lines_of d (v_id v) <> [] /\
       sql_ne (sql_round2_opt (sql_sum (map t_debit (lines_of d (v_id v)))))
              (sql_round2_opt (sql_sum (map t_credit (lines_of d (v_id v))))) = true /\
       r = (v_id v, v_date v, sql_round2_opt (sql_sum (map t_debit (lines_of d (v_id v)))),
            sql_round2_opt (sql_sum (map t_credit (lines_of d (v_id v)))))) /\
  Sorted (fun r s => (fst (fst (fst r)) < fst (fst (fst s)))%Z) (unbalanced_rows d).
Proof.
  split; [exact (unbalanced_rows_in d)|].
  apply Sorted_le_NoDup_lt.
  - unfold unbalanced_rows.
    apply (Sorted_map_rel (fun g h => (v_id (fst g) <=? v_id (fst h))%Z = true)).
    + cbn [fst]; intros g h Hgh; apply Z.leb_le, Hgh.
    + apply (sort_by_sorted (fun g h => (v_id (fst g) <=? v_id (fst h))%Z)).
      intros x y; apply Zleb_total.
  - unfold unbalanced_rows; rewrite map_map; cbn [fst].
    eapply Permutation_NoDup; [apply Permutation_map, sort_by_perm|].
    apply NoDup_map_filter, voucher_groups_ids_nodup, Hk.
Qed.

Lemma unbalanced_rows_spec_witness :
  NoDup (map v_id (vouchers draft_db)) /\ unbalanced_rows draft_db <> [] /\
  Sorted (fun r s => (fst (fst (fst r)) < fst (fst (fst s)))%Z) (unbalanced_rows draft_db).
Proof.
  assert (Hk : NoDup (map v_id (vouchers draft_db))) by (vm_compute; repeat constructor; simpl; intuition discriminate).
  split; [exact Hk|split; [vm_compute; discriminate|exact (proj2 (unbalanced_rows_spec draft_db Hk))]].
Defined.

(** X8. Under the ledger invariant no posted voucher appears among the
    unbalanced vouchers found at start-up. *)
Theorem unbalanced_rows_not_posted (d : db) (Hinv : ledger_inv d) :
  forall vid date sd sc, In (vid, date, sd, sc) (unbalanced_rows d) -> posted_of d vid <> 1%Z.
Proof.
  intros vid date sd sc Hr; apply (proj1 (unbalanced_rows_in d _)) in Hr as (v & Hv & Hne & Hu & Er).
  injection Er as -> _ _ _; rewrite (posted_of_in d v (proj1 Hinv) Hv); intros Hp.
  pose proof (posted_not_unbalanced d v Hinv Hv Hp) as E.
  unfold group_unbalanced, group_debit, group_credit in E; cbn [snd] in E; congruence.
Qed.

(** X9. In the voucher history, a row shows the status Unbalanced exactly
    when its rounded totals differ, and Posted only for a voucher whose
    posted flag is 1 (which it shows when the totals agree); under the
    ledger invariant, with "Show Unbalanced" every row shown is of a voucher
    whose posted flag is not 1, so none shows Posted. *)
Theorem history_status (d : db) (from_text to_text search_text : string) (unbalanced_only : bool)
    (rows : list history_row) (Hinv : ledger_inv d)
    (H : refresh_voucher_history d from_text to_text search_text unbalanced_only = Some rows) :
  forall vid date desc st td tc, In (vid, date, desc, st, td, tc) rows ->
    (st = StUnbalanced <-> pf_eqb td tc = false) /\
    (st = StPosted -> posted_of d vid = 1%Z) /\
    (posted_of d vid = 1%Z -> pf_eqb td tc = true -> st = StPosted) /\
    (unbalanced_only = true -> posted_of d vid <> 1%Z /\ st <> StPosted).
Proof.
  intros vid date desc st td tc Hr.
  unfold refresh_voucher_history in H.
  destruct (negb _ || negb _); [discriminate|]; injection H as <-.
  apply in_map_iff in Hr as (g & Eg & Hg); apply in_sort_by in Hg.
  assert (Hg' : In g (voucher_groups d) /\ (unbalanced_only = true -> group_unbalanced g = true)).
  { destruct unbalanced_only; [apply filter_In in Hg as [Hg Hu]; apply filter_In in Hg as [Hg _]|
                               apply filter_In in Hg as [Hg _]];
    split; [exact Hg|intros _; exact Hu|exact Hg|discriminate]. }
  clear Hg; destruct Hg' as [Hg Hu].
  apply in_voucher_groups in Hg as (Hv & Hl & _); destruct g as [v ls]; cbn [fst snd] in *; subst ls.
  injection Eg as Ei _ _ Est Etd Etc; subst vid td tc st.
  rewrite (posted_of_in d v (proj1 Hinv) Hv).
  destruct (pf_eqb _ _) eqn:Eq; cbn [negb].
  - destruct (Z.eqb_spec (v_posted v) 1) as [Hp|Hp].
    + split; [split; intros E; discriminate E|].
      split; [intros _; exact Hp|split; [intros _ _; reflexivity|]].
      intros Hu1; specialize (Hu Hu1); rewrite (posted_not_unbalanced d v Hinv Hv Hp) in Hu; discriminate.
    + split; [split; intros E; discriminate E|].
      split; [intros E; discriminate E|split; [intros E; contradiction|]].
      intros _; split; [exact Hp|intros E; discriminate E].
  - split; [split; reflexivity|].
    split; [intros E; discriminate E|split; [intros _ E; discriminate E|]].
    intros Hu1; split; [|intros E; discriminate E].
    intros Hp; specialize (Hu Hu1); rewrite (posted_not_unbalanced d v Hinv Hv Hp) in Hu; discriminate.
Qed.

(* ------------------------------------------------------------------ *)
Lemma filter_const_false {A} (l : list A) : filter (fun _ => false) l = [].
Proof. induction l; [reflexivity|exact IHl]. Qed.

(* ------------------------------------------------------------------ *)
(* ------------------------------------------------------------------ *)
Lemma exec_all_app (l1 l2 : list stmt) (d : db) :
  exec_all (l1 ++ l2) d = (d1 <- exec_all l1 d ;; exec_all l2 d1).
Proof.
  revert d; induction l1 as [|s l1 IH]; intros d; [reflexivity|]; cbn [app exec_all].
  destruct (exec_stmt s d); cbn [bind_r]; [apply IH|reflexivity].
Qed.

Lemma StronglySorted_map_impl {A B} (R : B -> B -> Prop) (R' : A -> A -> Prop) (f : A -> B) (l : list A) :
  (forall x y, R (f x) (f y) -> R' x y) -> StronglySorted R (map f l) -> StronglySorted R' l.
Proof.
  intros Hf; induction l as [|x l IH]; intros Hs; [constructor|].
  inversion Hs as [|? ? Hs' Hall]; subst; constructor; [apply IH, Hs'|].
  rewrite Forall_forall in Hall |- *; intros y Hy; apply Hf, Hall, in_map, Hy.
Qed.

Lemma sort_by_strongly_sorted {A} (le : A -> A -> bool) (l : list A) :
  StronglySorted (fun x y => le x y = true) l -> sort_by le l = l.
Proof.
  induction 1 as [|x l Hs IH Hall]; [reflexivity|]; cbn [sort_by]; rewrite IH.
  destruct l as [|y l]; [reflexivity|]; cbn [insert_by].
  inversion Hall as [|? ? Hxy _]; subst; rewrite Hxy; reflexivity.
Qed.

(** The line inserts of [save_voucher] append one line per entry, in
    order, with increasing ids above every existing one. *)
Lemma exec_ins_lines (vid : Z) (es : list entry) (d1 d2 : db) :
  exec_all (map (fun e => InsTx vid (e_acc e) (py_round2 (e_debit e)) (py_round2 (e_credit e))) es) d1
    = Ok d2 ->
  accounts d2 = accounts d1 /\ vouchers d2 = vouchers d1 /\
  (es <> [] -> voucher_exists d1 vid = true) /\
  exists new, transactions d2 = transactions d1 ++ new /\
    map (fun t => (t_voucher_id t, t_account_id t, t_debit t, t_credit t)) new =
    map (fun e => (vid, e_acc e, py_round2 (e_debit e), py_round2 (e_credit e))) es /\
    StronglySorted (fun a b => (t_id a < t_id b)%Z) new /\
    (forall t t', In t (transactions d1) -> In t' new -> (t_id t < t_id t')%Z) /\
    Forall (fun t => account_exists d1 (t_account_id t) = true) new.
Proof.
  revert d1; induction es as [|e es IH]; intros d1 H; cbn [map exec_all] in H.
  - injection H as <-; split; [reflexivity|split; [reflexivity|split; [intros []; reflexivity|]]].
    exists []; rewrite app_nil_r; split; [reflexivity|split; [reflexivity|split; [constructor|]]].
    split; [intros _ _ _ []|constructor].
  - cbn [exec_stmt] in H.
    destruct (Z.eqb (posted_of d1 vid) 1); [discriminate|].
    destruct (tx_row_ok d1 vid (e_acc e) _ _) eqn:Hok; [|discriminate].
    cbn [bind_r] in H.
    destruct (IH _ H) as (Ha & Hv & _ & new & Ht & Hm & Hs & Hlt & Hacc).
    cbn [accounts vouchers transactions] in Ha, Hv, Ht, Hlt.
    unfold tx_row_ok in Hok; apply andb_true_iff in Hok as [Hok Hae]; apply andb_true_iff in Hok as [_ Hve].
    split; [exact Ha|split; [exact Hv|split; [intros _; exact Hve|]]].
    eexists; split; [rewrite Ht, <- app_assoc; reflexivity|].
    cbn [app]; split; [cbn [map]; rewrite Hm; reflexivity|].
    split; [|split].
    + constructor; [exact Hs|].
      apply Forall_forall; intros t' Ht'; apply (Hlt _ t'); [apply in_or_app; right; left; reflexivity|exact Ht'].
    + intros t t' Ht0 [<-|Ht']; [|apply Hlt; [apply in_or_app; left; exact Ht0|exact Ht']].
      cbn [t_id]; pose proof (fold_max_in _ 0%Z _ (in_map t_id _ _ Ht0)); unfold max_id in *; lia.
    + constructor; [exact Hae|].
      unfold account_exists in Hacc |- *; exact Hacc.
Qed.

Lemma flat_map_account_fst (d : db) (ts : list tx) :
  Forall (fun t => account_exists d (t_account_id t) = true) ts ->
  map fst (flat_map (fun t => match find_account_by_id d (t_account_id t) with
                              | Some a => [(t, a)]
                              | None => []
                              end) ts) = ts.
Proof.
  induction ts as [|t ts IH]; intros H; [reflexivity|].
  inversion H as [|? ? Ha H']; subst; cbn [flat_map].
  destruct (find_account_by_id d (t_account_id t)) as [a|] eqn:F.
  - cbn [app map fst]; rewrite IH by exact H'; reflexivity.
  - exfalso; unfold account_exists in Ha; unfold find_account_by_id in F.
    apply existsb_exists in Ha as (a & Ha & Ea); apply (find_none _ _ F) in Ha; congruence.
Qed.

Lemma entries_of_new (d : db) (vid : Z) (es : list entry) (new : list tx) :
  map (fun t => (t_voucher_id t, t_account_id t, t_debit t, t_credit t)) new =
  map (fun e => (vid, e_acc e, py_round2 (e_debit e), py_round2 (e_credit e))) es ->
  Forall (fun t => account_exists d (t_account_id t) = true) new ->
  (forall e a, In e es -> find_account_by_id d (e_acc e) = Some a -> acc_name a = e_name e) ->
  map (fun r => mk_entry (acc_id (snd r)) (acc_name (snd r)) (or0 (t_debit (fst r))) (or0 (t_credit (fst r))))
      (flat_map (fun t => match find_account_by_id d (t_account_id t) with
                          | Some a => [(t, a)]
                          | None => []
                          end) new) =
  map (fun e => mk_entry (e_acc e) (e_name e) (or0 (py_round2 (e_debit e))) (or0 (py_round2 (e_credit e)))) es.
Proof.
  revert es; induction new as [|t new IH]; intros [|e es] Hm Hacc Hn; try discriminate; [reflexivity|].
  cbn [map] in Hm; injection Hm as E1 E2 E3 E4 Hm'.
  inversion Hacc as [|? ? Ha Hacc']; subst; cbn [flat_map].
  destruct (find_account_by_id d (t_account_id t)) as [a|] eqn:F.
  - cbn [app map fst snd]; f_equal.
    + pose proof F as F'; unfold find_account_by_id in F'; apply find_some in F' as [_ Ei].
      apply Z.eqb_eq in Ei; rewrite E2 in F; rewrite (Hn e a (or_introl eq_refl) F), Ei, E2, E3, E4.
      reflexivity.
    + apply IH; [exact Hm'|exact Hacc'|intros e' a' He'; apply Hn; right; exact He'].
  - exfalso; unfold account_exists in Ha; unfold find_account_by_id in F.
    apply existsb_exists in Ha as (a & Ha & Ea); apply (find_none _ _ F) in Ha; congruence.
Qed.

Lemma lines_of_app_new (d : db) (vid : Z) (ts new : list tx) :
  Forall (fun t => t_voucher_id t = vid) new ->
  filter (fun t => Z.eqb (t_voucher_id t) vid) ts = [] ->
  filter (fun t => Z.eqb (t_voucher_id t) vid) (ts ++ new) = new.
Proof.
  intros Hn Ho; rewrite filter_app, Ho; cbn [app].
  induction new as [|t new IH]; [reflexivity|]; inversion Hn as [|? ? Ht Hn']; subst.
  cbn [filter]; rewrite Z.eqb_refl, IH by exact Hn'; reflexivity.
Qed.

Lemma find_app_last {A} (p : A -> bool) (l : list A) (x : A) :
  (forall y, In y l -> p y = false) -> p x = true -> find p (l ++ [x]) = Some x.
Proof.
  induction l as [|y l IH]; intros Hl Hx; cbn [app find]; [rewrite Hx; reflexivity|].
  rewrite (Hl y (or_introl eq_refl)); apply IH; [intros z Hz; apply Hl; right; exact Hz|exact Hx].
Qed.

Lemma find_map_header (vid : Z) (date desc : string) (vs : list voucher) :
  find (fun v => Z.eqb (v_id v) vid)
       (map (fun v => if Z.eqb (v_id v) vid then mk_voucher vid date desc 0 else v) vs) =
  option_map (fun _ => mk_voucher vid date desc 0) (find (fun v => Z.eqb (v_id v) vid) vs).
Proof.
  induction vs as [|v vs IH]; [reflexivity|]; cbn [map find].
  destruct (Z.eqb (v_id v) vid) eqn:E; cbn [v_id]; [rewrite Z.eqb_refl; reflexivity|].
  rewrite E; exact IH.
Qed.

Lemma del_lines_ok (dA d1 : db) (vid : Z) :
  exec_stmt (DelTxOfVoucher vid) dA = Ok d1 ->
  lines_of d1 vid = [] /\ vouchers d1 = vouchers dA /\ accounts d1 = accounts dA /\
  incl (transactions d1) (transactions dA).
Proof.
  cbn [exec_stmt]; destruct (lines_of dA vid) as [|t ts] eqn:E.
  - intros H; injection H as <-; split; [exact E|split; [reflexivity|split; [reflexivity|apply incl_refl]]].
  - destruct (Z.eqb (posted_of dA vid) 1); [discriminate|]; intros H; injection H as <-.
    split; [|split; [reflexivity|split; [reflexivity|]]].
    2:{ intros x Hx; apply filter_In in Hx; exact (proj1 Hx). }
    unfold lines_of; cbn [transactions with_transactions]; rewrite filter_filter_and.
    rewrite (filter_ext _ (fun _ => false)); [apply filter_const_false|].
    intros x; destruct (Z.eqb (t_voucher_id x) vid); reflexivity.
Qed.

Lemma find_map_same_id (g : voucher -> voucher) (w : Z) (vs : list voucher) :
  (forall v, v_id (g v) = v_id v) -> (forall v, v_id v = w -> g v = v) ->
  find (fun v => Z.eqb (v_id v) w) (map g vs) = find (fun v => Z.eqb (v_id v) w) vs.
Proof.
  intros Hid Hs; induction vs as [|v vs IH]; [reflexivity|]; cbn [map find]; rewrite Hid.
  destruct (Z.eqb_spec (v_id v) w) as [E|E]; [rewrite (Hs v E); reflexivity|exact IH].
Qed.

Lemma find_app_none_last {A} (f : A -> bool) (l : list A) (x : A) :
  f x = false -> find f (l ++ [x]) = find f l.
Proof.
  intros Hx; induction l as [|y l IH]; cbn [app find]; [rewrite Hx; reflexivity|].
  destruct (f y); [reflexivity|exact IH].
Qed.

(** The head statements of [save_voucher] leave the voucher's header in
    place and no line under it. *)
Lemma save_head (d : db) (cur : option Z) (date desc : string) (es : list entry) (vid : Z)
    (ss : list stmt) :
  refs_ok d ->
  save_statements d cur date desc es = (vid, ss) ->
  exists head, ss = head ++ map (fun e => InsTx vid (e_acc e) (py_round2 (e_debit e)) (py_round2 (e_credit e))) es
                         ++ [UpdPosted vid 1] /\
    (forall d1, exec_all head d = Ok d1 ->
     accounts d1 = accounts d /\ lines_of d1 vid = [] /\
     (forall v, find_voucher d1 vid = Some v -> v_date v = date /\ v_description v = desc) /\
     incl (transactions d1) (transactions d) /\
     (forall w, w <> vid -> posted_of d1 w = posted_of d w)).
Proof.
  intros Hr Hs; unfold save_statements in Hs; destruct cur as [vid0|].
  - injection Hs as <- <-; exists [UpdVoucherHeader vid0 date desc; DelTxOfVoucher vid0].
    split; [reflexivity|].
    intros d1 H; cbn [exec_all] in H.
    destruct (exec_stmt (UpdVoucherHeader vid0 date desc) d) as [dA|e] eqn:EA; [|discriminate].
    cbn [bind_r] in H; destruct (exec_stmt (DelTxOfVoucher vid0) dA) as [dB|e] eqn:EB; [|discriminate].
    cbn [bind_r] in H; injection H as <-.
    apply del_lines_ok in EB as (HL & HV & HA & HT).
    cbn [exec_stmt] in EA; injection EA as <-.
    split; [exact HA|split; [exact HL|split; [|split]]].
    2:{ exact HT. }
    2:{ intros w Hw; unfold posted_of; rewrite HV; cbn [with_vouchers vouchers].
        rewrite find_map_same_id; [reflexivity| |].
        - intros v; destruct (Z.eqb_spec (v_id v) vid0) as [->|]; reflexivity.
        - intros v Ev; rewrite (proj2 (Z.eqb_neq (v_id v) vid0)) by congruence; reflexivity. }
    intros v; unfold find_voucher; rewrite HV; cbn [with_vouchers vouchers]; rewrite find_map_header.
    destruct (find _ (vouchers d)); [intros E; injection E as <-; split; reflexivity|discriminate].
  - injection Hs as <- <-; exists [InsVoucher date desc]; split; [reflexivity|].
    cbn [exec_all exec_stmt bind_r]; intros d1 H; injection H as <-.
    set (vid := (Z.max (seq_vouchers d) (max_id (map v_id (vouchers d))) + 1)%Z).
    assert (Hfresh : forall v, In v (vouchers d) -> Z.eqb (v_id v) vid = false).
    { intros v Hv; apply Z.eqb_neq; pose proof (fold_max_in _ 0%Z _ (in_map v_id _ _ Hv)).
      unfold vid, max_id in *; lia. }
    split; [reflexivity|split; [|split; [|split]]].
    3:{ apply incl_refl. }
    3:{ intros w Hw; unfold posted_of; cbn [vouchers]; rewrite find_app_none_last; [reflexivity|].
        cbn [v_id]; apply Z.eqb_neq; congruence. }
    + unfold lines_of; cbn [transactions].
      destruct (filter _ (transactions d)) as [|t ts] eqn:E; [reflexivity|exfalso].
      assert (Ht : In t (filter (fun t => Z.eqb (t_voucher_id t) vid) (transactions d)))
        by (rewrite E; left; reflexivity).
      apply filter_In in Ht as [Ht Ev]; unfold refs_ok in Hr; rewrite Forall_forall in Hr.
      destruct (Hr t Ht) as [Hv _]; apply existsb_exists in Hv as (v & Hv & Ev').
      apply Z.eqb_eq in Ev, Ev'; pose proof (Hfresh v Hv) as Hf.
      rewrite Ev', Ev, Z.eqb_refl in Hf; discriminate.
    + intros v; unfold find_voucher; cbn [vouchers].
      rewrite find_app_last; [intros E; injection E as <-; split; reflexivity| |cbn [v_id]; apply Z.eqb_refl].
      exact Hfresh.
Qed.

Lemma set_posted_header (p vid : Z) (v : voucher) :
  v_date (set_posted p vid v) = v_date v /\ v_description (set_posted p vid v) = v_description v.
Proof. unfold set_posted; destruct (Z.eqb (v_id v) vid); split; reflexivity. Qed.

Lemma in_map_name_filter {A} (f : A -> string) (n : string) (l : list A) :
  In n (map f l) <-> filter (fun x => String.eqb (f x) n) l <> [].
Proof.
  rewrite in_map_iff; split.
  - intros (x & Ex & Hx) E.
    assert (Hin : In x (filter (fun x => String.eqb (f x) n) l))
      by (apply filter_In; split; [exact Hx|apply String.eqb_eq, Ex]).
    rewrite E in Hin; destruct Hin.
  - destruct (filter (fun x => String.eqb (f x) n) l) as [|x xs] eqn:E; [intros H; contradiction H; reflexivity|].
    intros _; assert (Hin : In x (filter (fun x => String.eqb (f x) n) l)) by (rewrite E; left; reflexivity).
    apply filter_In in Hin as [Hx Ex]; exists x; split; [apply String.eqb_eq, Ex|exact Hx].
Qed.

(** X18. With valid report dates, the Trial Balance has one row per
    account name that has at least one line dated within the range, in name
    order, carrying SQLite's SUM of that name's debits and of its credits in
    the range (0 for a NULL sum). *)
Theorem trial_balance_rows (d : db) (from_text to_text start end_ : string)
    (Hd : get_report_dates from_text to_text = RRows (start, end_)) :
  let G n := filter (fun r => String.eqb (acc_name (snd (fst r))) n)
                    (filter (fun r => str_le start (v_date (snd r)) && str_le (v_date (snd r)) end_)
                            (joined d)) in
  exists rows, generate_trial_balance d from_text to_text = RRows rows /\
    (forall n dr cr, In (n, dr, cr) rows <->
       G n <> [] /\
       dr = coalesce0 (sql_sum (map (fun r => t_debit (fst (fst r))) (G n))) /\
       cr = coalesce0 (sql_sum (map (fun r => t_credit (fst (fst r))) (G n)))) /\
    NoDup (map (fun r => fst (fst r)) rows) /\
    StronglySorted (fun x y => str_le x y = true) (map (fun r => fst (fst r)) rows).
Proof.
  intros G; unfold generate_trial_balance; rewrite Hd.
  eexists; split; [reflexivity|].
  assert (Hnames : map (fun r => fst (fst r))
            (map (fun r => (fst (fst r), coalesce0 (snd (fst r)), coalesce0 (snd r))) (tb_rows d start end_)) =
          group_names (map (fun r => acc_name (snd (fst r)))
            (filter (fun r => str_le start (v_date (snd r)) && str_le (v_date (snd r)) end_) (joined d)))).
  { unfold tb_rows; rewrite !map_map; cbn [fst]; apply map_id. }
  rewrite Hnames; split; [|split; [apply group_names_nodup|apply group_names_sorted]].
  intros n dr cr; unfold tb_rows; rewrite map_map, in_map_iff; split.
  - intros (m & Em & Hm); cbn [fst snd] in Em; injection Em as <- <- <-.
    apply in_group_names, in_map_name_filter in Hm.
    split; [exact Hm|split; reflexivity].
  - intros (Hn & -> & ->); exists n; split; [reflexivity|].
    apply in_group_names, in_map_name_filter, Hn.
Qed.

(** X12. Saving a voucher and loading it back for editing: when
    [save_voucher()] succeeds on a ledger whose lines reference existing
    vouchers and accounts, and each entry's name is the name of the account
    with its id, [load_voucher_for_edit()] on the saved id gives back the
    stripped date and description and the entries in their order, each
    amount rounded to cents as it was stored (a zero read back as 0). *)
Theorem save_then_load (d : db) (cur : option Z) (date_text desc_text : string) (es : list entry)
    (vid : Z) (d' : db) (Hr : refs_ok d)
    (Hnames : forall e a, In e es -> find_account_by_id d (e_acc e) = Some a -> acc_name a = e_name e)
    (Hs : save_voucher d cur date_text desc_text es = (Saved vid, d')) :
  load_voucher_for_edit d' (Some vid) =
  Some (py_strip date_text, py_strip desc_text,
        map (fun e => mk_entry (e_acc e) (e_name e) (or0 (py_round2 (e_debit e)))
                               (or0 (py_round2 (e_credit e)))) es, vid).
Proof.
  unfold save_voucher in Hs.
  destruct es as [|e0 es0] eqn:Ees; [discriminate|rewrite <- Ees in *].
  destruct (negb _); [discriminate|]; destruct (negb _); [discriminate|].
  destruct (save_statements d cur (py_strip date_text) (py_strip desc_text) es) as [vid0 ss] eqn:Ess.
  unfold with_conn in Hs; destruct (exec_all ss d) as [dx|err] eqn:Ex; [|discriminate].
  injection Hs as <- <-.
  destruct (save_head d cur _ _ es vid0 ss Hr Ess) as (head & -> & Hhead).
  rewrite !exec_all_app in Ex.
  destruct (exec_all head d) as [d1|err] eqn:E1; cbn [bind_r] in Ex; [|discriminate].
  rewrite exec_all_app in Ex.
  match type of Ex with
  | context [exec_all ?l d1] => destruct (exec_all l d1) as [d2|err] eqn:E2; cbn [bind_r] in Ex; [|discriminate]
  end.
  destruct (Hhead d1 eq_refl) as (HA1 & HL1 & HV1 & _).
  destruct (exec_ins_lines vid0 es d1 d2 E2) as (HA2 & HV2 & Hex & new & HT2 & Hm & Hss & _ & Hacc).
  assert (Hve : voucher_exists d1 vid0 = true) by (apply Hex; rewrite Ees; discriminate).
  cbn [exec_all exec_stmt] in Ex.
  replace (voucher_exists d2 vid0) with true in Ex by (unfold voucher_exists in *; rewrite HV2, Hve; reflexivity).
  cbn [negb Z.eqb] in Ex.
  destruct (post_balanced_check d2 vid0); [discriminate|]; cbn [bind_r] in Ex; injection Ex as <-.
  unfold load_voucher_for_edit, find_voucher; cbn [with_vouchers vouchers]; rewrite find_set_posted, HV2.
  destruct (find (fun v => Z.eqb (v_id v) vid0) (vouchers d1)) as [v|] eqn:F.
  2:{ exfalso; unfold voucher_exists in Hve; apply existsb_exists in Hve as (v & Hv & Ev).
      apply (find_none _ _ F) in Hv; congruence. }
  cbn [option_map]; destruct (set_posted_header 1 vid0 v) as [-> ->].
  destruct (HV1 v F) as [-> ->]; do 2 f_equal.
  assert (HAx : accounts (with_vouchers d2 (map (set_posted 1 vid0) (vouchers d1))) = accounts d)
    by (cbn [with_vouchers accounts]; rewrite HA2; exact HA1).
  assert (Hfa : find_account_by_id (with_vouchers d2 (map (set_posted 1 vid0) (vouchers d1))) =
                find_account_by_id d) by (unfold find_account_by_id; rewrite HAx; reflexivity).
  assert (Hnv : Forall (fun t => t_voucher_id t = vid0) new).
  { apply Forall_forall; intros t Ht; apply (in_map (fun t => (t_voucher_id t, t_account_id t, t_debit t, t_credit t))) in Ht.
    rewrite Hm in Ht; apply in_map_iff in Ht as (e & Ee & _); injection Ee as E _ _ _; exact (eq_sym E). }
  assert (Hacc' : Forall (fun t => account_exists d (t_account_id t) = true) new)
    by (unfold account_exists in *; rewrite HA1 in Hacc; exact Hacc).
  unfold voucher_entries, lines_of; cbn [with_vouchers transactions]; rewrite HT2.
  rewrite (lines_of_app_new d1 vid0 (transactions d1) new Hnv HL1), Hfa.
  f_equal; rewrite sort_by_strongly_sorted.
  - apply (entries_of_new d vid0 es new); assumption.
  - apply (StronglySorted_map_impl (fun a b => (t_id a < t_id b)%Z) _ fst).
    + intros x y Hxy; apply Z.leb_le; lia.
    + rewrite flat_map_account_fst by exact Hacc'; exact Hss.
Qed.

(* ------------------------------------------------------------------ *)
Lemma fin_cents_self (z : Z) : fin_cents (Fin (z # 100)) z.
Proof. exists (z # 100); split; reflexivity. Qed.

Lemma filter_all_false {A} (f : A -> bool) (l : list A) :
  (forall x, In x l -> f x = false) -> filter f l = [].
Proof.
  induction l as [|x l IH]; intros H; [reflexivity|]; cbn [filter].
  rewrite (H x (or_introl eq_refl)); apply IH; intros y Hy; apply H; right; exact Hy.
Qed.

Lemma digit_gt_space (c : ascii) : is_digit c = true -> Ascii.compare c " "%char = Gt.
Proof. destruct c as [[] [] [] [] [] [] [] []]; vm_compute; intros H; congruence. Qed.

Lemma valid_date_head (s : string) :
  is_valid_date s = true -> exists c r, s = String c r /\ is_digit c = true.
Proof.
  destruct s as [|c r]; [discriminate|]; intros H; exists c, r; split; [reflexivity|].
  destruct (is_digit c) eqn:Hc; [reflexivity|]; exfalso.
  unfold is_valid_date in H; cbn [list_ascii_of_string] in H; unfold strptime_ymd in H.
  destruct (list_ascii_of_string r) as [|y2 [|y3 [|y4 [|c5 rest]]]]; try discriminate.
  destruct c5 as [[] [] [] [] [] [] [] []]; try discriminate.
  rewrite Hc in H; discriminate.
Qed.

Lemma recompute_check (d : db) (v : voucher) :
  (if Z.eqb (recomputed_posted d (v_id v)) 1 then post_balanced_check d (v_id v) else None) =
  (if Nat.eqb (List.length (lines_of d (v_id v))) 1 &&
      pf_eqb (sql_round2 (coalesce0 (sql_sum (map t_debit (lines_of d (v_id v))))))
             (sql_round2 (coalesce0 (sql_sum (map t_credit (lines_of d (v_id v))))))
   then Some TooFewLinesToPost else None).
Proof.
  unfold recomputed_posted, post_balanced_check.
  destruct (lines_of d (v_id v)) as [|t [|t2 ls]]; [reflexivity| |];
    destruct (pf_eqb _ _); reflexivity.
Qed.

Lemma single_line_sum (x : pyfloat) (z : Z) :
  fin_cents x z -> sql_round2 (coalesce0 (sql_sum [x])) = Fin (z # 100).
Proof.
  intros (q & -> & Hq); apply sql_round2_fin_cents; exists (0 + q); split; [reflexivity|].
  rewrite Hq; ring.
Qed.

Lemma positive_cents (x : pyfloat) (z : Z) : fin_cents x z -> pf_gtb x pf0 = true -> (0 < z)%Z.
Proof.
  intros (q & -> & Hq); unfold pf_gtb, pf_ltb, pf0; rewrite negb_true_iff; intros H.
  destruct (Qle_bool q 0) eqn:E; [discriminate|].
  assert (Hn : ~ q <= 0) by (intros Hle; apply Qle_bool_iff in Hle; congruence).
  rewrite Hq in Hn; unfold Qle in Hn; simpl in Hn; lia.
Qed.

Lemma zero_cents (x : pyfloat) (z : Z) : fin_cents x z -> pf_eqb x pf0 = true -> z = 0%Z.
Proof.
  intros (q & -> & Hq); unfold pf_eqb, pf0; intros H; apply Qeq_bool_iff in H.
  rewrite Hq in H; unfold Qeq in H; simpl in H; lia.
Qed.

Lemma no_lone_balanced_line (d : db) (vid : Z) :
  stored_lines_ok d -> stored_cents d -> List.length (lines_of d vid) = 1%nat ->
  pf_eqb (sql_round2 (coalesce0 (sql_sum (map t_debit (lines_of d vid)))))
         (sql_round2 (coalesce0 (sql_sum (map t_credit (lines_of d vid))))) = false.
Proof.
  intros Hl Hc Hlen.
  destruct (lines_of d vid) as [|t [|t2 ls]] eqn:E; try discriminate; cbn [map].
  assert (Ht : In t (transactions d)).
  { assert (Hin : In t (lines_of d vid)) by (rewrite E; left; reflexivity).
    unfold lines_of in Hin; apply filter_In in Hin; exact (proj1 Hin). }
  unfold stored_cents in Hc; rewrite Forall_forall in Hc.
  unfold stored_lines_ok in Hl; rewrite Forall_forall in Hl.
  destruct (Hc t Ht) as [[zd Hd] [zc Hcr]].
  rewrite (single_line_sum _ _ Hd), (single_line_sum _ _ Hcr); cbn [pf_eqb].
  rewrite Qeq_bool_cents; apply Z.eqb_neq.
  destruct (Hl t Ht) as (_ & _ & [[Hg He] | [Hg He]]).
  - pose proof (positive_cents _ _ Hd Hg); pose proof (zero_cents _ _ Hcr He); lia.
  - pose proof (positive_cents _ _ Hcr Hg); pose proof (zero_cents _ _ Hd He); lia.
Qed.

(** X13. The voucher history shows no row when the To date, valid once
    stripped, is typed with a leading space and every voucher date is
    valid: the query compares dates with the unstripped text. *)
Theorem history_to_date_leading_space (d : db) (from_text to_text search_text : string)
    (unbalanced_only : bool)
    (Hf : is_valid_date (py_strip from_text) = true)
    (Ht : is_valid_date (py_strip to_text) = true)
    (Hsp : exists r, to_text = String " "%char r)
    (Hd : forall v, In v (vouchers d) -> is_valid_date (v_date v) = true) :
  refresh_voucher_history d from_text to_text search_text unbalanced_only = Some [].
Proof.
  unfold refresh_voucher_history; rewrite Hf, Ht; cbn [negb orb].
  destruct Hsp as [r ->].
  match goal with |- context [filter ?f (voucher_groups d)] =>
    rewrite (filter_all_false f (voucher_groups d)) end.
  - destruct unbalanced_only; reflexivity.
  - intros g Hg; apply in_voucher_groups in Hg as [Hv _].
    destruct (valid_date_head _ (Hd _ Hv)) as (c & r' & Ec & Hc).
    replace (str_le (v_date (fst g)) (String " " r)) with false; [rewrite andb_false_r; reflexivity|].
    unfold str_le, String.leb; rewrite Ec; cbn [String.compare]; rewrite (digit_gt_space c Hc); reflexivity.
Qed.

Lemma py_round2_idem (x : pyfloat) : py_round2 (py_round2 x) = py_round2 x.
Proof. destruct x as [q| | |]; cbn [py_round2]; [rewrite round_half_even_100_cents|..]; reflexivity. Qed.

Lemma map_round2_rounded (f : entry -> pyfloat) (es : list entry) :
  Forall (fun e => exists x, f e = py_round2 x) es ->
  map (fun e => py_round2 (f e)) es = map f es.
Proof.
  induction 1 as [|e es [x Hx] _ IH]; cbn [map]; [reflexivity|].
  rewrite IH, Hx, py_round2_idem; reflexivity.
Qed.

(** X14. On a non-empty list of lines whose amounts are values returned by
    [round(x, 2)], the totals line asks to balance exactly when saving
    refuses the voucher as unbalanced. *)
Theorem voucher_totals_match_save (d : db) (cur : option Z) (date_text desc_text : string)
    (es : list entry) (Hne : es <> [])
    (Hr : Forall (fun e => (exists x, e_debit e = py_round2 x) /\ (exists x, e_credit e = py_round2 x)) es) :
  snd (update_voucher_totals es) = Some true <->
  fst (save_voucher d cur date_text desc_text es) = SaveUnbalanced.
Proof.
  assert (Hd : total_debit es = py_round2 (py_sum (map e_debit es))).
  { unfold total_debit; rewrite map_round2_rounded; [reflexivity|].
    eapply Forall_impl; [|exact Hr]; intros e [H _]; exact H. }
  assert (Hc : total_credit es = py_round2 (py_sum (map e_credit es))).
  { unfold total_credit; rewrite map_round2_rounded; [reflexivity|].
    eapply Forall_impl; [|exact Hr]; intros e [_ H]; exact H. }
  unfold save_voucher, update_voucher_totals; destruct es as [|e0 es0]; [congruence|].
  cbv zeta; rewrite <- Hd, <- Hc; cbn [snd fst].
  destruct (pf_eqb (total_debit _) (total_credit _)); cbn [negb].
  - destruct (is_valid_date _); cbn [negb]; [|split; intros E; discriminate E].
    destruct (save_statements _ _ _ _ _) as [vid ss]; destruct (with_conn ss d) as [[?|?] ?];
      split; intros E; discriminate E.
  - split; reflexivity.
Qed.

(** X15. With the posting trigger in place, the status recomputation at
    start-up fails only with "Voucher must contain at least two lines before
    posting", and fails exactly when some voucher has a single line whose
    rounded debit and credit sums are equal. *)
Theorem recompute_posted_error (d : db) :
  (forall e, exec_stmt RecomputePosted d = Err e -> e = TooFewLinesToPost) /\
  ((exists e, exec_stmt RecomputePosted d = Err e) <->
   exists v, In v (vouchers d) /\ List.length (lines_of d (v_id v)) = 1%nat /\
     pf_eqb (sql_round2 (coalesce0 (sql_sum (map t_debit (lines_of d (v_id v))))))
            (sql_round2 (coalesce0 (sql_sum (map t_credit (lines_of d (v_id v)))))) = true).
Proof.
  cbn [exec_stmt].
  match goal with |- context [find ?f (vouchers d)] => destruct (find f (vouchers d)) as [v|] eqn:Ef end.
  - apply find_some in Ef as [Hv Hf]; cbn beta in Hf |- *; rewrite recompute_check in Hf |- *.
    destruct (Nat.eqb _ 1 && pf_eqb _ _) eqn:Ec; [|discriminate].
    apply andb_prop in Ec as [E1 E2]; apply Nat.eqb_eq in E1.
    split; [intros e He; injection He; intros <-; reflexivity|].
    split; [intros _; exists v; auto|intros _; exists TooFewLinesToPost; reflexivity].
  - split; [intros e He; discriminate|]; split; [intros [e He]; discriminate|].
    intros (v & Hv & E1 & E2); exfalso.
    pose proof (find_none_false _ _ _ Ef Hv) as Hf; cbn beta in Hf; rewrite recompute_check in Hf.
    rewrite E1, E2 in Hf; discriminate.
Qed.

(** X16. When every stored line has exactly one positive side and whole-cent
    amounts, the start-up status recomputation succeeds and sets each
    voucher's posted flag to the recomputed value. *)
Theorem recompute_posted_clean (d : db) (Hl : stored_lines_ok d) (Hc : stored_cents d) :
  exec_stmt RecomputePosted d =
  Ok (with_vouchers d (map (fun v => set_posted (recomputed_posted d (v_id v)) (v_id v) v)
                           (vouchers d))).
Proof.
  cbn [exec_stmt].
  match goal with |- context [find ?f (vouchers d)] => destruct (find f (vouchers d)) as [v|] eqn:Ef end;
    [exfalso|reflexivity].
  apply find_some in Ef as [Hv Hf]; cbn beta in Hf; rewrite recompute_check in Hf.
  destruct (Nat.eqb _ 1) eqn:E1; [|discriminate]; apply Nat.eqb_eq in E1.
  rewrite (no_lone_balanced_line d (v_id v) Hl Hc E1) in Hf; discriminate.
Qed.

(* ------------------------------------------------------------------ *)
Lemma with_conn_refs (ss : list stmt) (d : db) : refs_ok d -> refs_ok (snd (with_conn ss d)).
Proof.
  intros Hr; unfold with_conn; destruct (exec_all ss d) as [d'|e] eqn:E; [|exact Hr].
  exact (exec_all_refs _ _ _ Hr E).
Qed.

Lemma same_ledger (d d' : db) :
  vouchers d' = vouchers d -> transactions d' = transactions d ->
  (ledger_inv d -> ledger_inv d') /\ (all_posted d -> all_posted d') /\
  (stored_cents d -> stored_cents d').
Proof.
  intros Hv Ht; unfold ledger_inv, posted_balanced, lines_of, all_posted, posted_of, stored_cents.
  rewrite Hv, Ht; tauto.
Qed.

Lemma save_voucher_refs (d : db) cur date desc es :
  refs_ok d -> refs_ok (snd (save_voucher d cur date desc es)).
Proof.
  intros Hr; unfold save_voucher; destruct es as [|e es]; [exact Hr|].
  destruct (negb _); [exact Hr|]; destruct (negb _); [exact Hr|].
  destruct (save_statements _ _ _ _ _) as [vid ss].
  pose proof (with_conn_refs ss d Hr) as H.
  destruct (with_conn ss d) as [[?|?] d']; exact H.
Qed.

Lemma save_voucher_unchanged (d : db) cur date desc es (o : save_outcome) (d' : db) :
  save_voucher d cur date desc es = (o, d') -> (forall vid, o <> Saved vid) -> d' = d.
Proof.
  unfold save_voucher; intros Hs Hn; destruct es as [|e es]; [congruence|].
  destruct (negb _); [congruence|]; destruct (negb _); [congruence|].
  destruct (save_statements _ _ _ _ _) as [vid ss]; unfold with_conn in Hs.
  destruct (exec_all ss d); [injection Hs as <- _; destruct (Hn vid eq_refl)|congruence].
Qed.

Lemma save_saved_shape (d : db) cur date_text desc_text (es : list entry) (vid : Z) (d' : db) :
  refs_ok d -> save_voucher d cur date_text desc_text es = (Saved vid, d') ->
  exists d1 new,
    transactions d' = transactions d1 ++ new /\ incl (transactions d1) (transactions d) /\
    lines_of d1 vid = [] /\ (forall w, w <> vid -> posted_of d' w = posted_of d w) /\
    posted_of d' vid = 1%Z /\
    (forall t, In t new -> t_voucher_id t = vid /\
       exists e, In e es /\ t_debit t = py_round2 (e_debit e) /\ t_credit t = py_round2 (e_credit e)).
Proof.
  intros Hr Hs; unfold save_voucher in Hs.
  destruct es as [|e0 es0] eqn:Ees; [discriminate|rewrite <- Ees in *].
  destruct (negb _); [discriminate|]; destruct (negb _); [discriminate|].
  destruct (save_statements d cur (py_strip date_text) (py_strip desc_text) es) as [vid0 ss] eqn:Ess.
  unfold with_conn in Hs; destruct (exec_all ss d) as [dx|err] eqn:Ex; [|discriminate].
  injection Hs as <- <-.
  destruct (save_head d cur _ _ es vid0 ss Hr Ess) as (head & -> & Hhead).
  rewrite !exec_all_app in Ex.
  destruct (exec_all head d) as [d1|err] eqn:E1; cbn [bind_r] in Ex; [|discriminate].
  rewrite exec_all_app in Ex.
  match type of Ex with
  | context [exec_all ?l d1] => destruct (exec_all l d1) as [d2|err] eqn:E2; cbn [bind_r] in Ex; [|discriminate]
  end.
  destruct (Hhead d1 eq_refl) as (_ & HL1 & _ & HT1 & HP1).
  destruct (exec_ins_lines vid0 es d1 d2 E2) as (_ & HV2 & Hex & new & HT2 & Hm & _).
  assert (Hve : voucher_exists d1 vid0 = true) by (apply Hex; rewrite Ees; discriminate).
  cbn [exec_all exec_stmt] in Ex.
  replace (voucher_exists d2 vid0) with true in Ex by (unfold voucher_exists in *; rewrite HV2, Hve; reflexivity).
  cbn [negb Z.eqb] in Ex.
  destruct (post_balanced_check d2 vid0); [discriminate|]; cbn [bind_r] in Ex; injection Ex as <-.
  exists d1, new; cbn [with_vouchers transactions]; split; [exact HT2|split; [exact HT1|split; [exact HL1|]]].
  split; [|split].
  - intros w Hw; rewrite <- (HP1 w Hw); unfold posted_of; cbn [with_vouchers vouchers]; rewrite HV2.
    rewrite find_map_same_id; [reflexivity| |].
    + intros v; unfold set_posted; destruct (Z.eqb (v_id v) vid0); reflexivity.
    + intros v Ev; unfold set_posted; rewrite (proj2 (Z.eqb_neq (v_id v) vid0)) by congruence; reflexivity.
  - unfold posted_of; cbn [with_vouchers vouchers]; rewrite find_set_posted, HV2.
    destruct (find (fun v => Z.eqb (v_id v) vid0) (vouchers d1)) as [v|] eqn:F.
    + apply find_some in F as [_ Ev]; cbn [option_map]; unfold set_posted; rewrite Ev; reflexivity.
    + exfalso; unfold voucher_exists in Hve; apply existsb_exists in Hve as (v & Hv & Ev).
      apply (find_none _ _ F) in Hv; congruence.
  - intros t Ht; apply (in_map (fun t => (t_voucher_id t, t_account_id t, t_debit t, t_credit t))) in Ht.
    rewrite Hm in Ht; apply in_map_iff in Ht as (e & Ee & He); injection Ee as E1' _ E3 E4.
    split; [exact (eq_sym E1')|exists e; split; [exact He|split; symmetry; assumption]].
Qed.

Lemma py_round2_finite_cents (x : pyfloat) (q : Q) : x = Fin q -> exists z, fin_cents (py_round2 x) z.
Proof. intros ->; cbn [py_round2]; eexists; apply fin_cents_self. Qed.

Lemma save_keeps_all_posted (d : db) cur date_text desc_text (es : list entry) :
  refs_ok d -> all_posted d -> all_posted (snd (save_voucher d cur date_text desc_text es)).
Proof.
  intros Hr Hp.
  destruct (save_voucher d cur date_text desc_text es) as [o d'] eqn:Es; cbn [snd].
    destruct o as [| | |e|vid]; try (rewrite (save_voucher_unchanged _ _ _ _ _ _ _ Es) by discriminate; exact Hp).
    destruct (save_saved_shape _ _ _ _ _ _ _ Hr Es) as (d1 & new & HT & Hincl & HL & HPo & HPv & Hnew).
    intros t Ht; rewrite HT in Ht; apply in_app_or in Ht as [Ht|Ht].
    + assert (Hne : t_voucher_id t <> vid).
      { intros E; assert (Hl : In t (lines_of d1 vid)) by (apply filter_In; split; [exact Ht|apply Z.eqb_eq, E]).
        rewrite HL in Hl; destruct Hl. }
      rewrite (HPo _ Hne); apply Hp, Hincl, Ht.
    + destruct (Hnew t Ht) as [-> _]; exact HPv.
Qed.

Lemma save_keeps_app_inv (d : db) cur date_text desc_text (es : list entry) :
  Forall entry_finite es -> app_inv d -> app_inv (snd (save_voucher d cur date_text desc_text es)).
Proof.
  intros Hf (Hinv & Hp & Hr & Hc).
  split; [apply save_voucher_inv, Hinv|]; split; [apply save_keeps_all_posted; assumption|].
  split; [apply save_voucher_refs, Hr|].
  - destruct (save_voucher d cur date_text desc_text es) as [o d'] eqn:Es; cbn [snd].
    destruct o as [| | |e|vid]; try (rewrite (save_voucher_unchanged _ _ _ _ _ _ _ Es) by discriminate; exact Hc).
    destruct (save_saved_shape _ _ _ _ _ _ _ Hr Es) as (d1 & new & HT & Hincl & _ & _ & _ & Hnew).
    unfold stored_cents; rewrite HT; apply Forall_app; split.
    + apply Forall_forall; intros t Ht; unfold stored_cents in Hc; rewrite Forall_forall in Hc.
      apply Hc, Hincl, Ht.
    + apply Forall_forall; intros t Ht; destruct (Hnew t Ht) as (_ & e & He & Ed & Ec).
      rewrite Forall_forall in Hf; destruct (Hf e He) as (qd & qc & Hd & Hc').
      rewrite Ed, Ec; split; [exact (py_round2_finite_cents _ _ Hd)|exact (py_round2_finite_cents _ _ Hc')].
Qed.

Lemma delete_keeps_ledger_ok (d : db) (sel : option Z) (confirmed : bool) :
  ledger_ok d -> ledger_ok (snd (delete_selected_voucher d sel confirmed)).
Proof.
  intros H; unfold delete_selected_voucher; destruct sel as [vid|]; [|exact H].
  destruct confirmed; cbn [negb]; [|exact H].
  unfold with_conn; rewrite delete_voucher_exec; cbn [snd].
  destruct H as (Hinv & Hp & Hr); pose proof (delete_voucher_exec d vid) as Hx.
  split; [exact (exec_all_inv _ _ _ Hinv Hx)|].
  split; [exact (delete_voucher_all_posted d vid Hp)|].
  exact (exec_all_refs _ _ _ Hr Hx).
Qed.

Lemma existsb_acc_id_rename (l : list account) (sel name : string) (t : acct_type) (x : Z) :
  existsb (fun a => Z.eqb (acc_id a) x)
    (map (fun a => if String.eqb (acc_name a) sel then mk_account (acc_id a) name t else a) l) =
  existsb (fun a => Z.eqb (acc_id a) x) l.
Proof.
  induction l as [|a l IH]; [reflexivity|]; cbn [map existsb]; rewrite IH.
  destruct (String.eqb (acc_name a) sel); reflexivity.
Qed.

Lemma accounts_step_keeps (d d' : db) :
  vouchers d' = vouchers d -> transactions d' = transactions d -> refs_ok d' ->
  ledger_ok d -> ledger_ok d'.
Proof.
  intros Hv Ht Hr' (Hinv & Hp & _); destruct (same_ledger d d' Hv Ht) as (H1 & H2 & _).
  split; [exact (H1 Hinv)|split; [exact (H2 Hp)|exact Hr']].
Qed.

Lemma account_actions_keep_ledger_ok (d : db) :
  ledger_ok d ->
  (forall name_text type_text, ledger_ok (snd (add_account d name_text type_text))) /\
  (forall sel name_text type_text, ledger_ok (snd (update_account d sel name_text type_text))) /\
  (forall sel confirmed, ledger_ok (snd (delete_account d sel confirmed))).
Proof.
  intros H; pose proof H as (_ & _ & Hr); split; [|split].
  - intros n t; unfold add_account.
    destruct (_ || _); [exact H|]; destruct (existsb _ _); [exact H|].
    destruct (acct_type_of_string _) as [ty|]; [|exact H].
    destruct (exec_stmt (InsAccount _ ty) d) as [d'|e] eqn:E; [|exact H]; cbn [snd].
    apply (accounts_step_keeps d d'); [| |exact (exec_stmt_refs _ _ _ Hr E)|exact H];
      cbn [exec_stmt] in E; destruct (existsb _ _); try discriminate; injection E as <-; reflexivity.
  - intros sel n t; unfold update_account.
    destruct sel as [sel|]; [|exact H]; destruct (String.eqb sel ""); [exact H|].
    destruct (_ || _); [exact H|]; destruct (existsb _ _); [exact H|].
    destruct (upd_account d sel _ _) as [d'|e] eqn:E; [|exact H]; cbn [snd].
    apply upd_account_ok in E as (ty & [->|[_ ->]]); [exact H|].
    apply (accounts_step_keeps d); [reflexivity|reflexivity| |exact H].
    unfold refs_ok in *; eapply Forall_impl; [|exact Hr]; intros x [Hx1 Hx2].
    split; [exact Hx1|]; unfold account_exists in *; cbn [accounts]; rewrite existsb_acc_id_rename; exact Hx2.
  - intros sel c; unfold delete_account.
    destruct sel as [sel|]; [|exact H]; destruct (String.eqb sel ""); [exact H|].
    destruct (negb c); [exact H|].
    destruct (exec_stmt (DelAccount sel) d) as [d'|e] eqn:E; [|exact H]; cbn [snd].
    apply (accounts_step_keeps d d'); [| |exact (exec_stmt_refs _ _ _ Hr E)|exact H];
      cbn [exec_stmt] in E; destruct (existsb _ _); try discriminate; injection E as <-; reflexivity.
Qed.

Lemma ui_step_keeps_ledger_ok (d d' : db) : ui_step d d' -> ledger_ok d -> ledger_ok d'.
Proof.
  destruct 1 as [d cur dt ds es|d sel c|d n t|d sel n t|d sel c]; intros H.
  - destruct H as (Hinv & Hp & Hr).
    split; [apply save_voucher_inv, Hinv|].
    split; [apply save_keeps_all_posted; assumption|apply save_voucher_refs, Hr].
  - exact (delete_keeps_ledger_ok d sel c H).
  - exact (proj1 (account_actions_keep_ledger_ok d H) n t).
  - exact (proj1 (proj2 (account_actions_keep_ledger_ok d H)) sel n t).
  - exact (proj2 (proj2 (account_actions_keep_ledger_ok d H)) sel c).
Qed.

Lemma ledger_ok_no_unbalanced (d : db) : ledger_ok d -> unbalanced_rows d = [].
Proof.
  intros (Hinv & Hp & _).
  destruct (unbalanced_rows d) as [|r rs] eqn:E; [reflexivity|exfalso].
  assert (Hr : In r (unbalanced_rows d)) by (rewrite E; left; reflexivity).
  apply unbalanced_rows_in in Hr as (v & Hv & Hne & Hu & _).
  destruct (lines_of d (v_id v)) as [|t ts] eqn:El; [contradiction|].
  assert (Ht : In t (lines_of d (v_id v))) by (rewrite El; left; reflexivity).
  apply filter_In in Ht as [Ht Hvid]; apply Z.eqb_eq in Hvid.
  pose proof (Hp t Ht) as Hpt; rewrite Hvid, (posted_of_in d v (proj1 Hinv) Hv) in Hpt.
  pose proof (posted_not_unbalanced d v Hinv Hv Hpt) as Hf.
  unfold group_unbalanced, group_debit, group_credit in Hf; cbn [snd] in Hf.
  rewrite El in Hf; congruence.
Qed.

(** X1. A statement block run under [with db.conn:], committed or rolled
    back on an error, keeps every line pointing at an existing voucher and
    an existing account: the two foreign keys of [transactions], with the
    cascade from [vouchers]. *)
Theorem with_conn_keeps_refs (ss : list stmt) (d : db) (Hr : refs_ok d) :
  refs_ok (snd (with_conn ss d)).
Proof. exact (with_conn_refs ss d Hr). Qed.

(** X17. From a ledger where voucher ids are unique, every posted voucher
    is balanced, every voucher with lines is posted and every line points
    at an existing voucher and account (the empty ledger, for instance), any
    sequence of voucher saves, voucher deletions and account actions keeps
    these properties, so the start-up check then finds no unbalanced
    voucher. *)
Theorem ui_steps_keep_posted_ledger (d0 d : db) (H0 : ledger_ok d0)
    (Hs : clos_refl_trans_1n db ui_step d0 d) :
  ledger_ok d /\ unbalanced_rows d = [] /\ check_unbalanced_vouchers d = None.
Proof.
  assert (Hd : ledger_ok d).
  { induction Hs as [|x y z Hxy _ IH]; [exact H0|apply IH, (ui_step_keeps_ledger_ok x y Hxy H0)]. }
  pose proof (ledger_ok_no_unbalanced d Hd) as E.
  split; [exact Hd|split; [exact E|unfold check_unbalanced_vouchers; rewrite E; reflexivity]].
Qed.

(* ------------------------------------------------------------------ *)
(** ** Concrete instances *)

Lemma sample_app_inv : app_inv sample_db.
Proof.
  split; [exact sample_db_inv|]; split; [intros t []|]; split; constructor.
Qed.

Lemma scenario_d_app_inv : app_inv scenario_d_db.
Proof.
  unfold scenario_d_db; apply save_keeps_app_inv;
    [repeat constructor; do 2 eexists; split; reflexivity|].
  apply save_keeps_app_inv; [repeat constructor; do 2 eexists; split; reflexivity|].
  exact sample_app_inv.
Qed.

Lemma draft_db_inv : ledger_inv draft_db.
Proof.
  split; [repeat constructor; intros []|].
  intros v [<-|[]] Hp; discriminate.
Qed.

Lemma with_conn_keeps_refs_witness :
  refs_ok (snd (with_conn [DelVoucher 1] scenario_d_db)).
Proof.
  apply with_conn_keeps_refs; unfold refs_ok; vm_compute; repeat constructor.
Defined.

Lemma account_actions_keep_accounts_ok_witness :
  accounts_ok (snd (add_account sample_db "Sales"%string "Income"%string)) /\
  accounts_ok (snd (update_account sample_db (Some "Bank"%string) "Bank Account"%string "Asset"%string)) /\
  accounts_ok (snd (delete_account sample_db (Some "Bank"%string) true)).
Proof.
  assert (Hok : accounts_ok sample_db)
    by (unfold accounts_ok; vm_compute; split; repeat constructor; simpl; intuition discriminate).
  destruct (account_actions_keep_accounts_ok sample_db Hok) as (H1 & H2 & H3).
  split; [apply H1|split; [apply H2|apply H3]].
Defined.

Lemma update_account_spec_witness :
  exists d', update_account sample_db (Some "Bank"%string) "Bank Account"%string "Asset"%string = (AccDone, d') /\
    accounts d' = map (fun a => if String.eqb (acc_name a) "Bank"%string
                                then mk_account (acc_id a) (py_strip "Bank Account"%string) Asset else a)
                      (accounts sample_db) /\
    vouchers d' = vouchers sample_db /\ transactions d' = transactions sample_db.
Proof.
  apply (update_account_spec sample_db "Bank"%string "Bank Account"%string "Asset"%string Asset).
  - discriminate.
  - vm_compute; discriminate.
  - vm_compute; reflexivity.
  - intros a Ha E; cbn in Ha; destruct Ha as [<-|[<-|[<-|[<-|[]]]]]; vm_compute in E; discriminate.
Defined.

Lemma delete_account_spec_witness :
  delete_account scenario_d_db (Some "Cash"%string) true = (AccInUse, scenario_d_db).
Proof.
  apply (delete_account_spec scenario_d_db "Cash"%string); [discriminate|].
  eexists; exists (mk_account 1 "Cash"%string Asset).
  split; [vm_compute; left; reflexivity|].
  split; [vm_compute; left; reflexivity|split; reflexivity].
Defined.

Lemma unbalanced_rows_not_posted_witness :
  ledger_inv draft_db /\ unbalanced_rows draft_db <> [] /\ posted_of draft_db 1 <> 1%Z.
Proof.
  split; [exact draft_db_inv|split; [vm_compute; discriminate|]].
  apply (unbalanced_rows_not_posted draft_db draft_db_inv 1 "2024-01-01"%string (Some (Fin (10000 # 100)))
           (Some (Fin (9000 # 100)))).
  vm_compute; left; reflexivity.
Defined.

Lemma history_status_witness :
  let rows := match refresh_voucher_history draft_db "2024-01-01"%string "2024-12-31"%string ""%string true with
              | Some r => r | None => [] end in
  rows <> [] /\
  forall vid date desc st td tc, In (vid, date, desc, st, td, tc) rows ->
    posted_of draft_db vid <> 1%Z /\ st <> StPosted.
Proof.
  intros rows; split; [vm_compute; discriminate|].
  intros vid date desc st td tc Hr.
  refine (proj2 (proj2 (proj2 (history_status draft_db "2024-01-01"%string "2024-12-31"%string ""%string
            true rows draft_db_inv _ vid date desc st td tc Hr))) eq_refl).
  vm_compute; reflexivity.
Defined.

Lemma trial_balance_rows_witness :
  exists rows, generate_trial_balance scenario_d_db "2024-01-01" "2024-12-31" = RRows rows /\
    map (fun r => fst (fst r)) rows = ["Capital"%string; "Cash"%string; "Revenue"%string].
Proof.
  destruct (trial_balance_rows scenario_d_db "2024-01-01" "2024-12-31" "2024-01-01" "2024-12-31"
              ltac:(vm_compute; reflexivity)) as (rows & H & _).
  exists rows; split; [exact H|].
  vm_compute in H; injection H as <-; reflexivity.
Defined.

Lemma save_then_load_witness :
  load_voucher_for_edit (snd (save_voucher sample_db None "2024-01-05"%string " sale "%string scenario_a_lines)) (Some 1%Z) =
  Some (py_strip "2024-01-05"%string, py_strip " sale "%string,
        map (fun e => mk_entry (e_acc e) (e_name e) (or0 (py_round2 (e_debit e)))
                               (or0 (py_round2 (e_credit e)))) scenario_a_lines, 1%Z).
Proof.
  apply (save_then_load sample_db None "2024-01-05"%string " sale "%string scenario_a_lines 1%Z).
  - constructor.
  - intros e a He Ha; cbn in He; destruct He as [<-|[<-|[]]]; vm_compute in Ha;
      injection Ha as <-; reflexivity.
  - vm_compute; reflexivity.
Defined.

Lemma history_to_date_leading_space_witness :
  refresh_voucher_history scenario_d_db "2024-01-01"%string " 2024-12-31"%string ""%string false = Some [].
Proof.
  apply history_to_date_leading_space.
  - vm_compute; reflexivity.
  - vm_compute; reflexivity.
  - exists "2024-12-31"%string; reflexivity.
  - intros v Hv; vm_compute in Hv; destruct Hv as [<-|[<-|[]]]; vm_compute; reflexivity.
Defined.

Lemma voucher_totals_match_save_witness :
  let es := [mk_entry 1 "Cash" (py_round2 (Fin (1 # 3))) (py_round2 (Fin 0));
             mk_entry 2 "Revenue" (py_round2 (Fin 0)) (py_round2 (Fin (1 # 7)))] in
  snd (update_voucher_totals es) = Some true /\
  fst (save_voucher sample_db None "2024-03-01"%string "sale"%string es) = SaveUnbalanced.
Proof.
  intros es; assert (H : snd (update_voucher_totals es) = Some true) by (vm_compute; reflexivity).
  split; [exact H|].
  apply (voucher_totals_match_save sample_db None "2024-03-01"%string "sale"%string es); [discriminate| |exact H].
  repeat constructor; eexists; reflexivity.
Defined.

Lemma recompute_posted_error_witness :
  exec_stmt RecomputePosted lone_line_db = Err TooFewLinesToPost.
Proof.
  destruct (recompute_posted_error lone_line_db) as [H1 H2].
  destruct (proj2 H2) as [e He].
  - exists (mk_voucher 1 "2024-01-01"%string "rounding"%string 0); split; [left; reflexivity|].
    split; vm_compute; reflexivity.
  - rewrite He; rewrite (H1 e He); reflexivity.
Defined.

Lemma recompute_posted_clean_witness :
  exec_stmt RecomputePosted scenario_d_db =
  Ok (with_vouchers scenario_d_db
        (map (fun v => set_posted (recomputed_posted scenario_d_db (v_id v)) (v_id v) v)
             (vouchers scenario_d_db))).
Proof.
  apply recompute_posted_clean; [|exact (proj2 (proj2 (proj2 scenario_d_app_inv)))].
  unfold stored_lines_ok, line_invariant; vm_compute.
  repeat constructor; first [left; split; reflexivity|right; split; reflexivity].
Defined.

Lemma ui_steps_keep_posted_ledger_witness :
  ledger_ok sample_db /\ transactions scenario_d_db <> [] /\
  ledger_ok scenario_d_db /\ unbalanced_rows scenario_d_db = [] /\
  check_unbalanced_vouchers scenario_d_db = None.
Proof.
  assert (H0 : ledger_ok sample_db).
  { destruct sample_app_inv as (Hinv & Hp & Hr & _); split; [exact Hinv|split; [exact Hp|exact Hr]]. }
  split; [exact H0|split; [vm_compute; discriminate|]].
  apply (ui_steps_keep_posted_ledger sample_db scenario_d_db H0).
  unfold scenario_d_db.
  match goal with
  | |- clos_refl_trans_1n _ _ _ (snd (save_voucher ?m _ _ _ _)) =>
      apply (Relation_Operators.rt1n_trans _ _ _ m)
  end.
  - apply StepSave.
  - match goal with
    | |- clos_refl_trans_1n _ _ _ ?b =>
        apply (fun H => Relation_Operators.rt1n_trans _ _ _ b _ H (Relation_Operators.rt1n_refl _ _ b))
    end.
    apply StepSave.
Defined.
